(** * CRUT daily operations dashboard ([v7.py])

    A shallow embedding of the data pipeline of the dashboard: the one-time
    CSV load with its derived time-bucket columns, the module-level dropdown
    option lists, and the three Dash callbacks [set_route_options],
    [update_dashboard] and [update_area_chart].

    pandas frames are Python objects living on a heap and the module keeps
    one of them in the global [df]; the callbacks are therefore written in a
    small state-and-exception monad over a store of frame objects, so that
    copies, boolean-mask selections, summaries and the in-place
    [.columns = ...] assignments are told apart.  Markup (html.Div cards,
    CSS classes, plotly colour sequences) is left out: a card is the value
    it shows, a figure is its kind, title and data. *)

From Stdlib Require Import List ZArith QArith Bool Lia Ascii String.
From Stdlib Require Import Sorted Permutation DecimalString OrdersEx.
Import ListNotations.

Local Open Scope string_scope.
Local Open Scope Z_scope.

(* ================================================================== *)
(** * Python strings *)
(* ================================================================== *)

Module Py.

(** A Python [str] is held as its UTF-8 encoding, one [ascii] per byte;
    comparing two encodings byte by byte is comparing the strings code
    point by code point. *)
Definition byte (c : ascii) : N := N_of_ascii c.

(** The whitespace characters [str.strip()] removes, by the length of
    their encoding.  One byte: U+0009-U+000D, U+001C-U+001F and U+0020. *)
Definition space1 (a : ascii) : bool :=
  let n := byte a in
  ((9 <=? n) && (n <=? 13) || (28 <=? n) && (n <=? 32))%N.

(** Two bytes: U+0085 (C2 85) and U+00A0 (C2 A0). *)
Definition space2 (a b : ascii) : bool :=
  ((byte a =? 194) && ((byte b =? 133) || (byte b =? 160)))%N.

(** Three bytes: U+1680 (E1 9A 80); U+2000-U+200A, U+2028, U+2029 and
    U+202F (E2 80 80-8A, A8, A9, AF); U+205F (E2 81 9F); U+3000
    (E3 80 80). *)
Definition space3 (a b c : ascii) : bool :=
  let x := byte a in
  let y := byte b in
  let z := byte c in
  ((x =? 225) && (y =? 154) && (z =? 128)
   || (x =? 226) && (y =? 128)
      && ((128 <=? z) && (z <=? 138) || (z =? 168) || (z =? 169) || (z =? 175))
   || (x =? 226) && (y =? 129) && (z =? 159)
   || (x =? 227) && (y =? 128) && (z =? 128))%N.

Fixpoint lstrip (s : string) : string :=
  match s with
  | EmptyString => EmptyString
  | String a t =>
      if space1 a then lstrip t
      else match t with
           | String b u =>
               if space2 a b then lstrip u
               else match u with
                    | String c v => if space3 a b c then lstrip v else s
                    | EmptyString => s
                    end
           | EmptyString => s
           end
  end.

(** Whether a string begins with a whitespace character. *)
Definition space_head (s : string) : bool :=
  match s with
  | String a t =>
      space1 a
      || match t with
         | String b u =>
             space2 a b
             || match u with
                | String c _ => space3 a b c
                | EmptyString => false
                end
         | EmptyString => false
         end
  | EmptyString => false
  end.

(** Whether a string consists of whitespace characters only. *)
Fixpoint blank (s : string) : bool :=
  match s with
  | EmptyString => true
  | String a t =>
      if space1 a then blank t
      else match t with
           | String b u =>
               if space2 a b then blank u
               else match u with
                    | String c v => space3 a b c && blank v
                    | EmptyString => false
                    end
           | EmptyString => false
           end
  end.

(** [rstrip] cuts the string where only whitespace remains. *)
Fixpoint rstrip (s : string) : string :=
  match s with
  | EmptyString => EmptyString
  | String a t => if blank s then EmptyString else String a (rstrip t)
  end.

(** [s.strip()] *)
Definition strip (s : string) : string := rstrip (lstrip s).

(** [str(z)] for a Python int. *)
Definition str_of_int (z : Z) : string := NilZero.string_of_int (Z.to_int z).

Fixpoint zeros (n : nat) : string :=
  match n with
  | O => EmptyString
  | S k => String "0"%char (zeros k)
  end.

(** [s.zfill(width)]: zeros are inserted after a leading sign. *)
Definition zfill (width : nat) (s : string) : string :=
  let pad := zeros (width - String.length s) in
  match s with
  | String c t =>
      if (Ascii.eqb c "-"%char || Ascii.eqb c "+"%char)%bool
      then String c (pad ++ t)
      else pad ++ s
  | EmptyString => pad
  end.

End Py.

(* ================================================================== *)
(** * Cells, rows and frames *)
(* ================================================================== *)

(** A cell of a name column as [read_csv] delivers it: a missing value
    (NaN), a string, an integer (the cells of a column of integers without
    gaps), or a float (the cells of any other numeric column, a column of
    integers with gaps among them).  A float is held as the text Python's
    [str] gives for it, "1.0" for the number one. *)
Inductive cell : Type :=
| NaN
| Str (s : string)
| Num (z : Z)
| Float (repr : string).

Definition cell_eqb (a b : cell) : bool :=
  match a, b with
  | NaN, NaN => true
  | Str s, Str t => String.eqb s t
  | Num x, Num y => Z.eqb x y
  | Float x, Float y => String.eqb x y
  | _, _ => false
  end.

(** [pd.notna(c)] *)
Definition notna (c : cell) : bool :=
  match c with NaN => false | _ => true end.

(** [isinstance(c, str)] *)
Definition isinstance_str (c : cell) : bool :=
  match c with Str _ => true | _ => false end.

(** [str(c)]; never applied to a missing value by the code. *)
Definition str (c : cell) : string :=
  match c with
  | NaN => "nan"
  | Str s => s
  | Num z => Py.str_of_int z
  | Float repr => repr
  end.

(** A parsed [TICKET_TIME_STAMP]: the day (counted from some epoch) and the
    time of day. *)
Record Timestamp : Type := mkTimestamp {
  ts_day : Z;
  ts_hour : Z;
  ts_minute : Z;
  ts_second : Z
}.

(** One transaction.  The last three fields are the columns derived at load
    time.  A field whose column is not among the frame's [columns] is never
    read: reading it raises [KeyError]. *)
Record row : Type := mkRow {
  DEPOT_NAME : cell;
  CITY_NAME : cell;
  ROUTE_NAME : cell;
  PASSENGER_COUNT : Z;
  FARE_COLLECTED : Q;
  PAYMENT_MODE : cell;
  TICKET_TIME_STAMP : Timestamp;
  Passenger_Type : cell;
  Hour : Z;
  Time_Interval : Z;
  Time_Interval_Label : string
}.

(** A frame: its column labels and its rows, in index order. *)
Record Frame (R : Type) : Type := mkFrame {
  columns : list string;
  rows : list R
}.

Arguments mkFrame {R} _ _.
Arguments columns {R} _.
Arguments rows {R} _.

Definition DataFrame : Type := Frame row.

Definition has_column {R} (name : string) (f : Frame R) : bool :=
  existsb (String.eqb name) (columns f).

(** [f.empty]: some axis has length zero. *)
Definition empty {R} (f : Frame R) : bool :=
  match rows f, columns f with
  | [], _ => true
  | _, [] => true
  | _, _ => false
  end.

(** [f.columns = names] *)
Definition with_columns {R} (names : list string) (f : Frame R) : Frame R :=
  mkFrame names (rows f).

(* ================================================================== *)
(** * The pandas operations the callbacks use *)
(* ================================================================== *)

Module Pandas.

(** A dropdown value as Dash hands it to a callback: [None] when nothing
    was ever chosen, otherwise a list whose entries are option values
    (strings) or JSON nulls. *)
Definition selection : Type := option (list (option string)).

(** [Series.isin(values)] on one cell.  A string cell matches an equal
    string; a number never equals a string and a missing value never equals
    one.  Whether a missing cell matches a [None] among the values depends
    on the pandas in use; here it does not, and the statements that would
    depend on it take dropdown values without [None] among several chosen
    values. *)
Definition isin (values : list (option string)) (c : cell) : bool :=
  match c with
  | Str s =>
      existsb (fun v => match v with
                        | Some t => String.eqb s t
                        | None => false
                        end) values
  | _ => false
  end.

(** [f[mask]] with a boolean series computed from [f] itself. *)
Fixpoint mask_select {R} (l : list R) (mask : list bool) : list R :=
  match l, mask with
  | x :: l', b :: mask' =>
      if b then x :: mask_select l' mask' else mask_select l' mask'
  | _, _ => []
  end.

(** [Series.sum()] *)
Definition sum (l : list Z) : Z := fold_right Z.add 0 l.

Definition sumQ (l : list Q) : Q := fold_right Qplus (0#1) l.

(** [Series.unique()]: first occurrences, in order of appearance; NaN is
    one of the values. *)
Fixpoint unique (l : list cell) : list cell :=
  match l with
  | [] => []
  | c :: t => c :: filter (fun d => negb (cell_eqb c d)) (unique t)
  end.

(** [Series.dropna()] *)
Definition dropna (l : list cell) : list cell := filter notna l.

Section Sorting.
Context {A : Type} (leb : A -> A -> bool).

Fixpoint insert (x : A) (l : list A) : list A :=
  match l with
  | [] => [x]
  | y :: t => if leb x y then x :: l else y :: insert x t
  end.

(** A stable sort: equal elements keep their order. *)
Definition sort (l : list A) : list A := fold_right insert [] l.
End Sorting.

Section GroupBy.
Context {K : Type} (eqb : K -> K -> bool).

Fixpoint accumulate (k : K) (v : Z) (acc : list (K * Z)) : list (K * Z) :=
  match acc with
  | [] => [(k, v)]
  | (k', s) :: t =>
      if eqb k k' then (k', s + v) :: t else (k', s) :: accumulate k v t
  end.

(** [groupby(key, sort=False)[value].sum()]: one entry per key, in the
    order in which the keys first appear. *)
Definition group_sum (l : list (K * Z)) : list (K * Z) :=
  fold_left (fun acc kv => accumulate (fst kv) (snd kv) acc) l [].

(** With [sort=True], the default, the groups come in ascending key
    order. *)
Definition group_sum_sorted (leb : K -> K -> bool) (l : list (K * Z)) :
  list (K * Z) :=
  sort (fun a b => leb (fst a) (fst b)) (group_sum l).
End GroupBy.

(** [Series.value_counts()]: missing values are dropped, each remaining
    value is counted, and the counts come in descending order. *)
Definition value_counts (l : list cell) : list (cell * Z) :=
  sort (fun a b => snd b <=? snd a)
       (group_sum cell_eqb (map (fun c => (c, 1)) (dropna l))).

(** [Series.value_counts(normalize=True)]: each count divided by the number
    of values counted. *)
Definition value_counts_normalize (l : list cell) : list (cell * Q) :=
  let counts := value_counts l in
  let total := sum (map snd counts) in
  map (fun kc => (fst kc, Qmake (snd kc) (Z.to_pos total))) counts.

(** Position and value of the first maximum. *)
Fixpoint argmax (l : list Z) : option (nat * Z) :=
  match l with
  | [] => None
  | x :: t =>
      match argmax t with
      | Some (i, m) => if m <=? x then Some (O, x) else Some (S i, m)
      | None => Some (O, x)
      end
  end.

(** Position and value of the first minimum. *)
Fixpoint argmin (l : list Z) : option (nat * Z) :=
  match l with
  | [] => None
  | x :: t =>
      match argmin t with
      | Some (i, m) => if x <=? m then Some (O, x) else Some (S i, m)
      | None => Some (O, x)
      end
  end.

(** [Series.idxmax()] / [Series.idxmin()] over a default range index;
    [None] stands for the [ValueError] on an empty series. *)
Definition idxmax (l : list Z) : option nat := option_map fst (argmax l).
Definition idxmin (l : list Z) : option nat := option_map fst (argmin l).

End Pandas.

(* ================================================================== *)
(** * The store of frame objects and the callback monad *)
(* ================================================================== *)

(** The kinds of frame the program builds: transaction frames, per-label and
    per-hour sums ([groupby(...).sum().reset_index()]) and the two kinds of
    [value_counts().reset_index()] result. *)
Inductive object : Type :=
| OTxn (f : DataFrame)
| OSums (f : Frame (string * Z))
| OHours (f : Frame (Z * Z))
| OCounts (f : Frame (cell * Z))
| OShares (f : Frame (cell * Q)).

Definition object_columns (o : object) : list string :=
  match o with
  | OTxn f => columns f
  | OSums f => columns f
  | OHours f => columns f
  | OCounts f => columns f
  | OShares f => columns f
  end.

Definition object_with_columns (names : list string) (o : object) : object :=
  match o with
  | OTxn f => OTxn (with_columns names f)
  | OSums f => OSums (with_columns names f)
  | OHours f => OHours (with_columns names f)
  | OCounts f => OCounts (with_columns names f)
  | OShares f => OShares (with_columns names f)
  end.

Inductive exn : Type :=
| KeyError (key : string)
| ValueError
| TypeError.

Inductive outcome (A : Type) : Type :=
| Ok (a : A)
| Raise (e : exn).

Arguments Ok {A} _.
Arguments Raise {A} _.

Definition ref : Type := nat.
Definition heap : Type := list object.

(** A computation reads and writes the store and returns or raises; the
    store survives an exception. *)
Definition M (A : Type) : Type := heap -> outcome A * heap.

Definition ret {A} (a : A) : M A := fun h => (Ok a, h).

Definition raise {A} (e : exn) : M A := fun h => (Raise e, h).

Definition bind {A B} (m : M A) (k : A -> M B) : M B :=
  fun h =>
    match m h with
    | (Ok a, h') => k a h'
    | (Raise e, h') => (Raise e, h')
    end.

Notation "x <- m ;; k" := (bind m (fun x => k))
  (at level 61, m at next level, right associativity).
Notation "' p <- m ;; k" := (bind m (fun x => match x with p => k end))
  (at level 61, p pattern, m at next level, right associativity).

Fixpoint update_nth {A} (n : nat) (x : A) (l : list A) : list A :=
  match n, l with
  | O, _ :: t => x :: t
  | S k, y :: t => y :: update_nth k x t
  | _, [] => []
  end.

(** A new object gets the next free address. *)
Definition alloc (o : object) : M ref :=
  fun h => (Ok (List.length h), (h ++ [o])%list).

Definition deref (r : ref) : M object :=
  fun h =>
    match nth_error h r with
    | Some o => (Ok o, h)
    | None => (Raise TypeError, h)
    end.

(** In-place update of the object at [r]. *)
Definition assign (r : ref) (o : object) : M unit :=
  fun h => (Ok tt, update_nth r o h).

Definition result {A} (m : M A) (h : heap) : outcome A := fst (m h).
Definition final {A} (m : M A) (h : heap) : heap := snd (m h).

(** ** Frame operations on the store *)

Definition txn (r : ref) : M DataFrame :=
  o <- deref r ;;
  match o with
  | OTxn f => ret f
  | _ => raise TypeError
  end.

(** [f.copy()] *)
Definition copy (r : ref) : M ref :=
  o <- deref r ;; alloc o.

(** [f[name]] *)
Definition getitem {T} (r : ref) (name : string) (field : row -> T) : M (list T) :=
  f <- txn r ;;
  if has_column name f then ret (map field (rows f)) else raise (KeyError name).

(** [f[name] = values], the values being computed row by row: the column is
    overwritten in place, or appended when it is new. *)
Definition setitem (r : ref) (name : string) (update : row -> row) : M unit :=
  f <- txn r ;;
  assign r (OTxn (mkFrame
                    (if has_column name f then columns f
                     else (columns f ++ [name])%list)
                    (map update (rows f)))).

(** [f[mask]]: a new frame with the rows the mask keeps. *)
Definition getitem_mask (r : ref) (mask : list bool) : M ref :=
  f <- txn r ;;
  alloc (OTxn (mkFrame (columns f) (Pandas.mask_select (rows f) mask))).

(** [f.columns = names], in place; the lengths must agree. *)
Definition set_columns (r : ref) (names : list string) : M unit :=
  o <- deref r ;;
  if (List.length names =? List.length (object_columns o))%nat
  then assign r (object_with_columns names o)
  else raise ValueError.

(** [f.groupby('Time_Interval_Label', sort=sort)['PASSENGER_COUNT'].sum().reset_index()] *)
Definition groupby_label_sum (r : ref) (sort : bool) : M ref :=
  keys <- getitem r "Time_Interval_Label" Time_Interval_Label ;;
  vals <- getitem r "PASSENGER_COUNT" PASSENGER_COUNT ;;
  let kv := combine keys vals in
  alloc (OSums (mkFrame ["Time_Interval_Label"; "PASSENGER_COUNT"]
                        (if sort
                         then Pandas.group_sum_sorted String.eqb String.leb kv
                         else Pandas.group_sum String.eqb kv))).

(** [f.groupby('Hour')['PASSENGER_COUNT'].sum().reset_index()] *)
Definition groupby_hour_sum (r : ref) : M ref :=
  keys <- getitem r "Hour" Hour ;;
  vals <- getitem r "PASSENGER_COUNT" PASSENGER_COUNT ;;
  alloc (OHours (mkFrame ["Hour"; "PASSENGER_COUNT"]
                         (Pandas.group_sum_sorted Z.eqb Z.leb (combine keys vals)))).

(** [f[name].value_counts().reset_index()] *)
Definition value_counts (r : ref) (name : string) (field : row -> cell) : M ref :=
  col <- getitem r name field ;;
  alloc (OCounts (mkFrame [name; "count"] (Pandas.value_counts col))).

(** [f[name].value_counts(normalize=True).reset_index()] *)
Definition value_counts_normalize (r : ref) (name : string) (field : row -> cell) : M ref :=
  col <- getitem r name field ;;
  alloc (OShares (mkFrame [name; "proportion"] (Pandas.value_counts_normalize col))).

(** [f.sort_values('Time_Interval_Label', ascending=True)] on a frame of
    label sums: a new, sorted frame. *)
Definition sort_values_label (r : ref) : M ref :=
  o <- deref r ;;
  match o with
  | OSums f =>
      if has_column "Time_Interval_Label" f
      then alloc (OSums (mkFrame (columns f)
                                 (Pandas.sort (fun a b => String.leb (fst a) (fst b)) (rows f))))
      else raise (KeyError "Time_Interval_Label")
  | _ => raise TypeError
  end.

(** The two columns of a summary frame, looked up by label. *)
Definition keys_of {K V} (f : Frame (K * V)) (name : string) : option (list K) :=
  match columns f with
  | k :: _ => if String.eqb name k then Some (map fst (rows f)) else None
  | [] => None
  end.

Definition values_of {K V} (f : Frame (K * V)) (name : string) : option (list V) :=
  match columns f with
  | _ :: v :: _ => if String.eqb name v then Some (map snd (rows f)) else None
  | _ => None
  end.

Definition or_raise {A} (e : exn) (o : option A) : M A :=
  match o with
  | Some a => ret a
  | None => raise e
  end.

(* ================================================================== *)
(** * Figures and cards *)
(* ================================================================== *)

(** What a callback hands to a graph: the empty dict, or a plotly express
    figure reduced to its kind, title and data. *)
Inductive figure : Type :=
| EmptyDict
| Pie (title : string) (slices : list (cell * Q))
| Bar (title : string) (bars : list (string * Z))
| Area (title : string) (xrange : Z * Z) (points : list (Z * Z)).

(** The four cards, by the value each one shows. *)
Record Cards : Type := mkCards {
  total_ridership : Z;
  total_revenue : Q;
  peak_hour : string;
  off_peak_hour : string
}.

(** A dropdown entry [{'label': l, 'value': v}]. *)
Record entry : Type := mkEntry {
  label : string;
  value : string
}.

(** [px.pie(frame, values=values, names=names, title=title)]; plotly raises
    [ValueError] for a column the frame does not have. *)
Definition px_pie (r : ref) (values names title : string) : M figure :=
  o <- deref r ;;
  match o with
  | OCounts f =>
      ks <- or_raise ValueError (keys_of f names) ;;
      vs <- or_raise ValueError (values_of f values) ;;
      ret (Pie title (combine ks (map inject_Z vs)))
  | OShares f =>
      ks <- or_raise ValueError (keys_of f names) ;;
      vs <- or_raise ValueError (values_of f values) ;;
      ret (Pie title (combine ks vs))
  | _ => raise TypeError
  end.

(** [px.bar(frame, x=x, y=y, title=title)] *)
Definition px_bar (r : ref) (x y title : string) : M figure :=
  o <- deref r ;;
  match o with
  | OSums f =>
      xs <- or_raise ValueError (keys_of f x) ;;
      ys <- or_raise ValueError (values_of f y) ;;
      ret (Bar title (combine xs ys))
  | _ => raise TypeError
  end.

(** [px.area(frame, x=x, y=y, title=title)] followed by
    [update_xaxes(range=[lo, hi])]. *)
Definition px_area (r : ref) (x y title : string) (xrange : Z * Z) : M figure :=
  o <- deref r ;;
  match o with
  | OHours f =>
      xs <- or_raise ValueError (keys_of f x) ;;
      ys <- or_raise ValueError (values_of f y) ;;
      ret (Area title xrange (combine xs ys))
  | _ => raise TypeError
  end.

(* ================================================================== *)
(** * Loading the data (lines 5-16) *)
(* ================================================================== *)

(** The module-level global [df] is the first object ever allocated. *)
Definition df : ref := 0%nat.

Definition fallback_columns : list string :=
  ["DEPOT_NAME"; "CITY_NAME"; "ROUTE_NAME"; "PASSENGER_COUNT"; "FARE_COLLECTED";
   "PAYMENT_MODE"; "TICKET_TIME_STAMP"; "Passenger Type"].

Definition set_Hour (r : row) : row :=
  mkRow (DEPOT_NAME r) (CITY_NAME r) (ROUTE_NAME r) (PASSENGER_COUNT r)
        (FARE_COLLECTED r) (PAYMENT_MODE r) (TICKET_TIME_STAMP r) (Passenger_Type r)
        (ts_hour (TICKET_TIME_STAMP r)) (Time_Interval r) (Time_Interval_Label r).

Definition set_Time_Interval (r : row) : row :=
  mkRow (DEPOT_NAME r) (CITY_NAME r) (ROUTE_NAME r) (PASSENGER_COUNT r)
        (FARE_COLLECTED r) (PAYMENT_MODE r) (TICKET_TIME_STAMP r) (Passenger_Type r)
        (Hour r) ((Hour r / 3) * 3) (Time_Interval_Label r).

(** ["{interval:02}-{interval+3:02} hrs"], built with [str] and [zfill]. *)
Definition interval_label (interval : Z) : string :=
  Py.zfill 2 (Py.str_of_int interval) ++ "-"
  ++ Py.zfill 2 (Py.str_of_int (interval + 3)) ++ " hrs".

Definition set_Time_Interval_Label (r : row) : row :=
  mkRow (DEPOT_NAME r) (CITY_NAME r) (ROUTE_NAME r) (PASSENGER_COUNT r)
        (FARE_COLLECTED r) (PAYMENT_MODE r) (TICKET_TIME_STAMP r) (Passenger_Type r)
        (Hour r) (Time_Interval r) (interval_label (Time_Interval r)).

(** The [try] block.  [file] is what [read_csv] finds: [None] when the file
    does not exist, otherwise the parsed table; the fields of the derived
    columns hold nothing yet.  The rows carry their time stamps as
    date-times, so this is the load of a file in which every time stamp is
    present and parses: [pd.to_datetime] raising on a malformed stamp, and
    a missing stamp turning the hours into floats, are outside it. *)
Definition load (file : option DataFrame) : M unit :=
  match file with
  | Some table =>
      _ <- alloc (OTxn table) ;;
      _ <- getitem df "TICKET_TIME_STAMP" TICKET_TIME_STAMP ;;
      _ <- setitem df "TICKET_TIME_STAMP" (fun r => r) ;;
      _ <- getitem df "TICKET_TIME_STAMP" TICKET_TIME_STAMP ;;
      _ <- setitem df "Hour" set_Hour ;;
      _ <- getitem df "Hour" Hour ;;
      _ <- setitem df "Time_Interval" set_Time_Interval ;;
      _ <- getitem df "Time_Interval" Time_Interval ;;
      setitem df "Time_Interval_Label" set_Time_Interval_Label
  | None =>
      (* except FileNotFoundError *)
      _ <- alloc (OTxn (mkFrame fallback_columns [])) ;;
      ret tt
  end.

(** The store once the module has been imported. *)
Definition boot (file : option DataFrame) : heap := final (load file) [].

(** ** The dropdown option lists (lines 18-30) *)

Definition clean_options (col : list cell) : list entry :=
  map (fun i => mkEntry (Py.strip (str i)) (Py.strip (str i)))
      (filter (fun i => isinstance_str i && negb (String.eqb (Py.strip (str i)) ""))
              (Pandas.unique (Pandas.dropna col))).

Definition depot_options : M (list entry) :=
  col <- getitem df "DEPOT_NAME" DEPOT_NAME ;;
  ret (clean_options col).

Definition city_options : M (list entry) :=
  col <- getitem df "CITY_NAME" CITY_NAME ;;
  ret (clean_options col).

(** Lines 5-30, what importing the module runs before the layout is built:
    the load, then the two option lists, depots first. *)
Definition import_module (file : option DataFrame) : M (list entry * list entry) :=
  _ <- load file ;;
  depots <- depot_options ;;
  cities <- city_options ;;
  ret (depots, cities).

(* ================================================================== *)
(** * The callbacks (lines 164-302) *)
(* ================================================================== *)

(** Python truth of a dropdown value: a non-empty list. *)
Definition truthy (s : Pandas.selection) : bool :=
  match s with
  | Some (_ :: _) => true
  | _ => false
  end.

(** [s != [None]] *)
Definition differs_from_none_list (s : Pandas.selection) : bool :=
  match s with
  | Some [None] => false
  | _ => true
  end.

Definition chosen (s : Pandas.selection) : list (option string) :=
  match s with
  | Some l => l
  | None => []
  end.

(** One filter statement:
    [if s and s != [None]: filtered_df = filtered_df[filtered_df[name].isin(s)]];
    the result is the frame [filtered_df] is bound to afterwards. *)
Definition restrict (filtered_df : ref) (name : string) (field : row -> cell)
  (s : Pandas.selection) : M ref :=
  if truthy s && differs_from_none_list s then
    col <- getitem filtered_df name field ;;
    getitem_mask filtered_df (map (Pandas.isin (chosen s)) col)
  else ret filtered_df.

(** Lines 173-178, and again 200-205 and 282-287. *)
Definition filter_depot_city (selected_depots selected_cities : Pandas.selection) : M ref :=
  filtered_df <- copy df ;;
  filtered_df <- restrict filtered_df "DEPOT_NAME" DEPOT_NAME selected_depots ;;
  restrict filtered_df "CITY_NAME" CITY_NAME selected_cities.

(** Lines 200-207 and 282-289. *)
Definition filter_depot_city_route
  (selected_depots selected_cities selected_routes : Pandas.selection) : M ref :=
  filtered_df <- filter_depot_city selected_depots selected_cities ;;
  restrict filtered_df "ROUTE_NAME" ROUTE_NAME selected_routes.

Definition is_empty (r : ref) : M bool :=
  o <- deref r ;;
  match o with
  | OTxn f => ret (empty f)
  | OSums f => ret (empty f)
  | OHours f => ret (empty f)
  | OCounts f => ret (empty f)
  | OShares f => ret (empty f)
  end.

Definition set_route_options (selected_depots selected_cities : Pandas.selection)
  : M (list entry * list string) :=
  filtered_df <- filter_depot_city selected_depots selected_cities ;;
  e <- is_empty filtered_df ;;
  if e then ret ([], [])
  else
    col <- getitem filtered_df "ROUTE_NAME" ROUTE_NAME ;;
    let routes :=
      Pandas.sort String.leb
        (map (fun r => Py.strip (str r)) (filter notna (Pandas.unique col))) in
    let options := map (fun i => mkEntry i i) routes in
    ret (options, []).

(** [summary.loc[i]['Time_Interval_Label']] over the default range index. *)
Definition loc_label (summary : ref) (i : nat) : M string :=
  o <- deref summary ;;
  match o with
  | OSums f =>
      match nth_error (rows f) i with
      | Some _ =>
          ks <- or_raise (KeyError "Time_Interval_Label") (keys_of f "Time_Interval_Label") ;;
          or_raise (KeyError "Time_Interval_Label") (nth_error ks i)
      | None => raise (KeyError "loc")
      end
  | _ => raise TypeError
  end.

(** [summary['PASSENGER_COUNT']] of a frame of label sums. *)
Definition summary_counts (summary : ref) : M (list Z) :=
  o <- deref summary ;;
  match o with
  | OSums f => or_raise (KeyError "PASSENGER_COUNT") (values_of f "PASSENGER_COUNT")
  | _ => raise TypeError
  end.

(** Lines 213-219. *)
Definition peak_and_off_peak (filtered_df : ref) : M (string * string) :=
  let peak_hour := "N/A" in
  let off_peak_hour := "N/A" in
  e <- is_empty filtered_df ;;
  if negb e then
    temporal_ridership_summary <- groupby_label_sum filtered_df true ;;
    e' <- is_empty temporal_ridership_summary ;;
    if negb e' then
      counts <- summary_counts temporal_ridership_summary ;;
      imax <- or_raise ValueError (Pandas.idxmax counts) ;;
      peak_hour <- loc_label temporal_ridership_summary imax ;;
      counts <- summary_counts temporal_ridership_summary ;;
      imin <- or_raise ValueError (Pandas.idxmin counts) ;;
      off_peak_hour <- loc_label temporal_ridership_summary imin ;;
      ret (peak_hour, off_peak_hour)
    else ret (peak_hour, off_peak_hour)
  else ret (peak_hour, off_peak_hour).

(** Lines 263-269. *)
Definition passenger_type_figure (filtered_df : ref) : M figure :=
  f <- txn filtered_df ;;
  if has_column "Passenger Type" f then
    passenger_type_counts <- value_counts_normalize filtered_df "Passenger Type" Passenger_Type ;;
    _ <- set_columns passenger_type_counts ["Passenger Type"; "Percentage"] ;;
    px_pie passenger_type_counts "Percentage" "Passenger Type" "Passenger Type Distribution"
  else ret EmptyDict.

Definition update_dashboard
  (selected_depots selected_cities selected_routes : Pandas.selection)
  : M (Cards * figure * figure * figure) :=
  filtered_df <- filter_depot_city_route selected_depots selected_cities selected_routes ;;
  (* 1. cards *)
  pc <- getitem filtered_df "PASSENGER_COUNT" PASSENGER_COUNT ;;
  let total_ridership := Pandas.sum pc in
  fc <- getitem filtered_df "FARE_COLLECTED" FARE_COLLECTED ;;
  let total_revenue := Pandas.sumQ fc in
  '(peak_hour, off_peak_hour) <- peak_and_off_peak filtered_df ;;
  let cards := mkCards total_ridership total_revenue peak_hour off_peak_hour in
  (* 2. transaction type pie chart *)
  transaction_type_counts <- value_counts filtered_df "PAYMENT_MODE" PAYMENT_MODE ;;
  _ <- set_columns transaction_type_counts ["PAYMENT_MODE"; "Count"] ;;
  pie_chart <- px_pie transaction_type_counts "Count" "PAYMENT_MODE"
                      "Transaction Type Distribution" ;;
  (* 3. temporal variation chart *)
  temporal_ridership <- groupby_label_sum filtered_df false ;;
  temporal_ridership_sorted <- sort_values_label temporal_ridership ;;
  temporal_chart <- px_bar temporal_ridership_sorted "Time_Interval_Label" "PASSENGER_COUNT"
                           "Ridership by 3-Hour Interval" ;;
  (* 4. passenger type percentage chart *)
  passenger_type_chart <- passenger_type_figure filtered_df ;;
  ret (cards, temporal_chart, pie_chart, passenger_type_chart).

Definition update_area_chart
  (selected_depots selected_cities selected_routes : Pandas.selection)
  (time_range : list Z) : M figure :=
  filtered_df <- filter_depot_city_route selected_depots selected_cities selected_routes ;;
  match time_range with
  | [start_hour; end_hour] =>
      hours <- getitem filtered_df "Hour" Hour ;;
      hours' <- getitem filtered_df "Hour" Hour ;;
      filtered_df <- getitem_mask filtered_df
                       (map (fun x => fst x && snd x)
                            (combine (map (fun h => start_hour <=? h) hours)
                                     (map (fun h => h <? end_hour) hours'))) ;;
      ridership_by_hour <- groupby_hour_sum filtered_df ;;
      px_area ridership_by_hour "Hour" "PASSENGER_COUNT"
              ("Ridership Distribution from " ++ Py.str_of_int start_hour
               ++ ":00 to " ++ Py.str_of_int end_hour ++ ":00")
              (start_hour, end_hour)
  | _ => raise ValueError      (* start_hour, end_hour = time_range *)
  end.

(* ================================================================== *)
(** * The Dash wiring of the callbacks *)
(* ================================================================== *)

(** What a callback writes into a component property. *)
Inductive prop_value : Type :=
| Children (cards : Cards)
| Fig (f : figure)
| Options (l : list entry)
| Values (l : list string).

(** An [Output(id, property)]. *)
Definition output : Type := string * string.

(** The [Output] lists of the three decorators. *)
Definition set_route_options_outputs : list output :=
  [("route-dropdown", "options"); ("route-dropdown", "value")].

Definition update_dashboard_outputs : list output :=
  [("cards-container", "children");
   ("pie-chart-transaction-type", "figure");
   ("temporal-chart-ridership", "figure");
   ("passenger-type-chart", "figure")].

Definition update_area_chart_outputs : list output :=
  [("ridership-area-chart", "figure")].

(** Dash pairs the returned values with the declared outputs by position. *)
Definition dashboard_updates (ret_val : Cards * figure * figure * figure)
  : list (output * prop_value) :=
  let '(a, b, c, d) := ret_val in
  combine update_dashboard_outputs [Children a; Fig b; Fig c; Fig d].

Definition output_eqb (a b : output) : bool :=
  String.eqb (fst a) (fst b) && String.eqb (snd a) (snd b).

(** The value a component property receives from an update. *)
Fixpoint received (o : output) (l : list (output * prop_value)) : option prop_value :=
  match l with
  | [] => None
  | (o', v) :: t => if output_eqb o o' then Some v else received o t
  end.

(* ================================================================== *)
(** * Vocabulary of the statements *)
(* ================================================================== *)

(** ** Stores *)

(** [h'] has every object of [h] at its address, unchanged, and possibly
    more objects after them. *)
Definition extends (h h' : heap) : Prop := exists t, h' = (h ++ t)%list.

(** A frame rule for computations.
    [keeps h0 Q m]: started in any store that extends [h0], the computation
    [m] ends, normally or by an exception, in a store that still extends
    [h0], and a value it returns satisfies [Q]. *)
Definition keeps (h0 : heap) {A} (Q : A -> Prop) (m : M A) : Prop :=
  forall h, extends h0 h ->
            extends h0 (final m h) /\ (forall a, result m h = Ok a -> Q a).

(** An address that did not exist in [h0]. *)
Definition fresh (h0 : heap) (r : ref) : Prop := (List.length h0 <= r)%nat.

Definition any {A} (a : A) : Prop := True.

(** [runs m h a h']: from store [h], [m] returns [a] and leaves [h']. *)
Definition runs {A} (m : M A) (h : heap) (a : A) (h' : heap) : Prop :=
  m h = (Ok a, h').

(** [fails m h e]: from store [h], [m] raises [e]. *)
Definition fails {A} (m : M A) (h : heap) (e : exn) : Prop :=
  result m h = Raise e.

(** ** Selections and the rows they let through *)

(** Whether the filter statement for a dropdown value does anything. *)
Definition restricts (s : Pandas.selection) : bool :=
  truthy s && differs_from_none_list s.

(** Whether a cell survives the filter statement for dropdown value [s]. *)
Definition admits (s : Pandas.selection) (c : cell) : bool :=
  if restricts s then Pandas.isin (chosen s) c else true.

(** The rows of [l] that survive the depot and city filters. *)
Definition depot_city_rows (sd sc : Pandas.selection) (l : list row) : list row :=
  filter (fun r => admits sc (CITY_NAME r))
         (filter (fun r => admits sd (DEPOT_NAME r)) l).

(** The rows of [l] that survive all three filters. *)
Definition selected_rows (sd sc sr : Pandas.selection) (l : list row) : list row :=
  filter (fun r => admits sr (ROUTE_NAME r)) (depot_city_rows sd sc l).

(** A dropdown value that is absent or empty. *)
Definition no_selection (s : Pandas.selection) : Prop := s = None \/ s = Some [].

(** ** Required columns *)

Definition has_columns {R} (names : list string) (f : Frame R) : bool :=
  forallb (fun n => has_column n f) names.

(** The columns [set_route_options] may read. *)
Definition route_columns : list string := ["DEPOT_NAME"; "CITY_NAME"; "ROUTE_NAME"].

(** The columns every run of [update_dashboard] reads. *)
Definition dashboard_columns : list string :=
  ["DEPOT_NAME"; "CITY_NAME"; "ROUTE_NAME"; "PASSENGER_COUNT"; "FARE_COLLECTED";
   "PAYMENT_MODE"; "Time_Interval_Label"].

(** The columns every run of [update_area_chart] may read. *)
Definition area_columns : list string :=
  ["DEPOT_NAME"; "CITY_NAME"; "ROUTE_NAME"; "PASSENGER_COUNT"; "Hour"].

(** ** Grouped sums *)

Section Grouping.
Context {K : Type} (eqb : K -> K -> bool) (leb : K -> K -> bool) (key : row -> K).

(** The sum of the values recorded under key [k]. *)
Definition total (k : K) (l : list (K * Z)) : Z :=
  Pandas.sum (map snd (filter (fun kv => eqb k (fst kv)) l)).

(** The sum an accumulator holds for a key. *)
Fixpoint assoc (k : K) (acc : list (K * Z)) : option Z :=
  match acc with
  | [] => None
  | (k', s) :: t => if eqb k k' then Some s else assoc k t
  end.

(** The ridership of the rows whose key is [k]. *)
Definition ridership_of (k : K) (l : list row) : Z :=
  Pandas.sum (map PASSENGER_COUNT (filter (fun r => eqb k (key r)) l)).

(** The per-key ridership of some rows, in ascending key order. *)
Definition grouped (l : list row) : list (K * Z) :=
  Pandas.group_sum_sorted eqb leb (map (fun r => (key r, PASSENGER_COUNT r)) l).

End Grouping.

(** ** What the callbacks compute from the selected rows *)

(** The option list [set_route_options] builds from the rows it kept. *)
Definition route_names (l : list row) : list string :=
  Pandas.sort String.leb
    (map (fun c => Py.strip (str c)) (filter notna (Pandas.unique (map ROUTE_NAME l)))).

(** The rows inside the hour window. *)
Definition in_window (start_hour end_hour : Z) (r : row) : bool :=
  (start_hour <=? Hour r) && (Hour r <? end_hour).

(** The per-hour sums [update_area_chart] plots. *)
Definition hourly (l : list row) : list (Z * Z) :=
  Pandas.group_sum_sorted Z.eqb Z.leb (map (fun r => (Hour r, PASSENGER_COUNT r)) l).

Definition area_title (start_hour end_hour : Z) : string :=
  "Ridership Distribution from " ++ Py.str_of_int start_hour
  ++ ":00 to " ++ Py.str_of_int end_hour ++ ":00".

(** The per-label sums, in ascending label order: the frame lines 216 and
    256-257 both arrive at. *)
Definition label_sums (l : list row) : list (string * Z) :=
  Pandas.group_sum_sorted String.eqb String.leb
    (map (fun r => (Time_Interval_Label r, PASSENGER_COUNT r)) l).

(** The ridership of a time band among some rows. *)
Definition band_ridership (band : string) (l : list row) : Z :=
  ridership_of String.eqb Time_Interval_Label band l.

(** [p] is the label at the first maximum of the per-label sums, or the
    sentinel when there are no rows. *)
Definition is_peak (l : list row) (p : string) : Prop :=
  match l with
  | [] => p = "N/A"
  | _ => exists i m, Pandas.argmax (map snd (label_sums l)) = Some (i, m)
                     /\ nth_error (label_sums l) i = Some (p, m)
  end.

Definition is_off_peak (l : list row) (p : string) : Prop :=
  match l with
  | [] => p = "N/A"
  | _ => exists i m, Pandas.argmin (map snd (label_sums l)) = Some (i, m)
                     /\ nth_error (label_sums l) i = Some (p, m)
  end.


Definition payment_slices (l : list row) : list (cell * Q) :=
  map (fun kc => (fst kc, inject_Z (snd kc))) (Pandas.value_counts (map PAYMENT_MODE l)).

Definition passenger_slices (l : list row) : list (cell * Q) :=
  Pandas.value_counts_normalize (map Passenger_Type l).

(** What the passenger-type graph receives. *)
Definition passenger_figure (f : DataFrame) : figure :=
  if has_column "Passenger Type" f
  then Pie "Passenger Type Distribution" (passenger_slices (rows f))
  else EmptyDict.

(** How many cells of a column hold the value [v]. *)
Definition occurrences (v : cell) (col : list cell) : Z :=
  Z.of_nat (List.length (filter (cell_eqb v) col)).

(** How many cells of a column hold a value at all. *)
Definition known (col : list cell) : Z := Z.of_nat (List.length (Pandas.dropna col)).

Definition slice_sum (f : figure) : Q :=
  match f with
  | Pie _ slices => Pandas.sumQ (map snd slices)
  | _ => 0
  end.

(** The cards of a dashboard update, when it returns. *)
Definition cards_of (o : outcome (Cards * figure * figure * figure)) : option Cards :=
  match o with
  | Ok (c, _, _, _) => Some c
  | Raise _ => None
  end.

(** The passenger-type figure of a dashboard update, when it returns. *)
Definition passenger_chart_of (o : outcome (Cards * figure * figure * figure)) : option figure :=
  match o with
  | Ok (_, _, _, f) => Some f
  | Raise _ => None
  end.

(** ** Example tables *)

(** A row as [read_csv] delivers it; the derived fields are filled in by
    [load]. *)
Definition csv_row (depot city route : cell) (count : Z) (fare : Q) (mode : cell)
  (hour : Z) (ptype : cell) : row :=
  mkRow depot city route count fare mode (mkTimestamp 0 hour 0 0) ptype 0 0 "".

(** The three-ticket scenario of the specification. *)
Definition three_tickets : DataFrame :=
  mkFrame fallback_columns
    [csv_row (Str "X") (Str "A") (Str "1") 10 (20#1) (Str "cash") 7 (Str "student");
     csv_row (Str "Y") (Str "A") (Str "2") 5 (10#1) (Str "upi") 7 (Str "general");
     csv_row (Str "X") (Str "B") (Str "1") 3 (6#1) (Str "cash") 20 (Str "general")].


(** The same route written with and without a trailing blank. *)
Definition padded_routes : DataFrame :=
  mkFrame fallback_columns
    [csv_row (Str "X") (Str "A") (Str "R1") 1 (2#1) (Str "cash") 8 (Str "general");
     csv_row (Str "X") (Str "A") (Str "R1 ") 1 (2#1) (Str "cash") 9 (Str "general")].

(** One ticket whose passenger type is missing. *)
Definition untyped_ticket : DataFrame :=
  mkFrame fallback_columns
    [csv_row (Str "X") (Str "A") (Str "1") 4 (8#1) (Str "cash") 8 NaN].

(** Blank and numeric names, and tickets on the edges of the default hour
    window. *)
Definition odd_names : DataFrame :=
  mkFrame fallback_columns
    [csv_row (Str "X") (Str " A ") (Str "   ") 2 (4#1) (Str "cash") 6 (Str "general");
     csv_row (Str "  ") (Num 7) (Str "R2") 3 (6#1) (Str "upi") 18 (Str "general");
     csv_row NaN (Str "B") NaN 1 (2#1) (Str "upi") 17 (Str "student")].

(** The base dataset [load] builds from a table. *)
Definition loaded (table : DataFrame) : DataFrame :=
  match boot (Some table) with
  | OTxn D :: _ => D
  | _ => table
  end.

(** ** Further vocabulary: loading, selections, stores *)

(** The three assignments of lines 9-11 on one row. *)
Definition derive (r : row) : row :=
  set_Time_Interval_Label (set_Time_Interval (set_Hour r)).

(** The column labels after [f[name] = ...]. *)
Definition assigned_columns (name : string) (cols : list string) : list string :=
  if existsb (String.eqb name) cols then cols else (cols ++ [name])%list.

(** The eight three-hour bands of a day. *)
Definition day_bands : list Z := [0; 3; 6; 9; 12; 15; 18; 21].

(** The labels of the eight bands. *)
Definition day_labels : list string := map interval_label day_bands.

(** What a dropdown value asks of a cell: nothing when it is absent, empty
    or [[None]]; otherwise the cell must be a string that is among the
    chosen values. *)
Definition matches (s : Pandas.selection) (c : cell) : Prop :=
  match s with
  | None => True
  | Some [] => True
  | Some [None] => True
  | Some l => exists t, c = Str t /\ In (Some t) l
  end.

(** The columns the three callbacks read between them. *)
Definition callback_columns : list string :=
  ["DEPOT_NAME"; "CITY_NAME"; "ROUTE_NAME"; "PASSENGER_COUNT"; "FARE_COLLECTED";
   "PAYMENT_MODE"; "Time_Interval_Label"; "Hour"].

(** Two tickets in the same time band, one of them without a payment mode. *)
Definition one_band : DataFrame :=
  mkFrame fallback_columns
    [csv_row (Str "X") (Str "A") (Str "1") 4 (8#1) (Str "cash") 12 (Str "general");
     csv_row (Str "Y") (Str "A") (Str "2") 6 (9#1) NaN 14 (Str "general")].

(** A table without the time stamp column. *)
Definition no_timestamp : DataFrame :=
  mkFrame ["DEPOT_NAME"; "CITY_NAME"; "ROUTE_NAME"; "PASSENGER_COUNT"]
    [csv_row (Str "X") (Str "A") (Str "1") 4 (8#1) (Str "cash") 12 (Str "general")].

(** A table without the route column. *)
Definition no_route_column : DataFrame :=
  mkFrame ["DEPOT_NAME"; "CITY_NAME"; "PASSENGER_COUNT"; "TICKET_TIME_STAMP"]
    [csv_row (Str "X") (Str "A") NaN 4 (8#1) (Str "cash") 12 (Str "general")].

(** ** Further vocabulary: ranges of the numbers, plain selections *)

(** Every time stamp of a table is a date-time with an hour of the day:
    none is missing, none failed to parse. *)
Definition stamps_valid (table : DataFrame) : Prop :=
  forall raw, In raw (rows table) -> 0 <= ts_hour (TICKET_TIME_STAMP raw) < 24.

(** Counts a 64-bit integer sum holds without wrapping: none is negative
    and together they stay below 2^63. *)
Definition counts_fit (l : list row) : Prop :=
  (forall r, In r l -> 0 <= PASSENGER_COUNT r)
  /\ Pandas.sum (map PASSENGER_COUNT l) < 2 ^ 63.

(** The fare of a row as a whole number. *)
Definition whole_fare (r : row) : Z := Qnum (FARE_COLLECTED r).

(** Fares a floating-point sum adds without rounding: whole amounts, none
    negative, together below 2^53. *)
Definition fares_fit (l : list row) : Prop :=
  (forall r, In r l -> FARE_COLLECTED r = inject_Z (whole_fare r) /\ 0 <= whole_fare r)
  /\ Pandas.sum (map whole_fare l) < 2 ^ 53.

(** A dropdown value made of option values only: no [None] among the chosen
    values, unless it is the list [[None]] itself. *)
Definition plain (s : Pandas.selection) : Prop :=
  s = Some [None] \/ ~ In None (chosen s).

(** A name column as [read_csv] types it: strings with gaps, or integers
    without a gap, or floats with gaps. *)
Definition typed_column (col : list cell) : Prop :=
  (forall c, In c col -> c = NaN \/ exists s, c = Str s)
  \/ (forall c, In c col -> exists z, c = Num z)
  \/ (forall c, In c col -> c = NaN \/ exists f, c = Float f).

(** The no-break space U+00A0, in UTF-8. *)
Definition nbsp : string :=
  String (ascii_of_nat 194) (String (ascii_of_nat 160) EmptyString).

(** A depot and a route that are a no-break space only, beside a city
    column of floats with a gap. *)
Definition nbsp_names : DataFrame :=
  mkFrame fallback_columns
    [csv_row (Str nbsp) (Float "1.0") (Str nbsp) 2 (4#1) (Str "cash") 6 (Str "general");
     csv_row (Str "Y") (Float "2.0") (Str "R") 3 (6#1) (Str "upi") 9 (Str "general");
     csv_row (Str "Y") NaN NaN 1 (2#1) (Str "upi") 9 (Str "general")].

(** Route numbers with a gap among them: a column of floats. *)
Definition float_routes : DataFrame :=
  mkFrame fallback_columns
    [csv_row (Str "X") (Str "A") (Float "1.0") 2 (4#1) (Str "cash") 6 (Str "general");
     csv_row (Str "X") (Str "A") NaN 3 (6#1) (Str "upi") 9 (Str "general");
     csv_row (Str "X") (Str "A") (Float "12.0") 1 (2#1) (Str "upi") 9 (Str "general")].

(** A table without the depot column. *)
Definition no_depot_column : DataFrame :=
  mkFrame ["CITY_NAME"; "ROUTE_NAME"; "PASSENGER_COUNT"; "TICKET_TIME_STAMP"]
    [csv_row NaN (Str "A") (Str "1") 4 (8#1) (Str "cash") 12 (Str "general")].

(* ================================================================== *)
(** * Sanity checks of the model *)
(* ================================================================== *)

Module Checks.
Import Py Pandas.

Example strip_blanks : strip "   " = "".
Proof. reflexivity. Qed.

Example strip_inner : strip "  Route 7 A " = "Route 7 A".
Proof. reflexivity. Qed.

Example strip_nbsp : strip (nbsp ++ " Y" ++ nbsp) = "Y".
Proof. reflexivity. Qed.

Example zfill_6 : zfill 2 (str_of_int 6) = "06".
Proof. reflexivity. Qed.

Example zfill_21 : zfill 2 (str_of_int 21) = "21".
Proof. reflexivity. Qed.

Example unique_ex : unique [Str "a"; NaN; Str "b"; Str "a"; NaN] = [Str "a"; NaN; Str "b"].
Proof. reflexivity. Qed.

Example group_sum_ex :
  group_sum String.eqb [("b", 1); ("a", 2); ("b", 3)] = [("b", 4); ("a", 2)].
Proof. reflexivity. Qed.

Example group_sum_sorted_ex :
  group_sum_sorted String.eqb String.leb [("b", 1); ("a", 2); ("b", 3)]
  = [("a", 2); ("b", 4)].
Proof. reflexivity. Qed.

Example value_counts_ex :
  value_counts [Str "cash"; NaN; Str "upi"; Str "upi"] = [(Str "upi", 2); (Str "cash", 1)].
Proof. reflexivity. Qed.

Example idxmax_ties : idxmax [3; 7; 7; 1] = Some 1%nat.
Proof. reflexivity. Qed.

Example idxmin_ties : idxmin [3; 1; 7; 1] = Some 1%nat.
Proof. reflexivity. Qed.

End Checks.

(* ================================================================== *)
(** * Equality of cells *)
(* ================================================================== *)

Lemma cell_eqb_eq (a b : cell) : cell_eqb a b = true <-> a = b.
Proof.
  destruct a, b; simpl; split; intro H; try discriminate; try reflexivity.
  - apply String.eqb_eq in H. now subst.
  - inversion H. apply String.eqb_refl.
  - apply Z.eqb_eq in H. now subst.
  - inversion H. apply Z.eqb_refl.
  - apply String.eqb_eq in H. now subst.
  - inversion H. apply String.eqb_refl.
Qed.

Lemma cell_eqb_refl (a : cell) : cell_eqb a a = true.
Proof. now apply cell_eqb_eq. Qed.

(* ================================================================== *)
(** * Reasoning about the store *)
(* ================================================================== *)

Lemma extends_refl (h : heap) : extends h h.
Proof. exists []. now rewrite app_nil_r. Qed.

Lemma extends_trans (a b c : heap) : extends a b -> extends b c -> extends a c.
Proof.
  intros [t ->] [u ->]. exists (t ++ u)%list. now rewrite app_assoc.
Qed.

Lemma extends_snoc (h : heap) (o : object) : extends h (h ++ [o])%list.
Proof. now exists [o]. Qed.

Lemma extends_lookup (h h' : heap) (r : ref) (o : object) :
  extends h h' -> nth_error h r = Some o -> nth_error h' r = Some o.
Proof.
  intros [t ->] H. rewrite nth_error_app1; [assumption|].
  apply nth_error_Some. congruence.
Qed.

Lemma lookup_fresh (h : heap) (o : object) :
  nth_error (h ++ [o])%list (List.length h) = Some o.
Proof.
  rewrite nth_error_app2 by lia. now rewrite Nat.sub_diag.
Qed.

Lemma update_nth_app_r {A} (l t : list A) (n : nat) (x : A) :
  (List.length l <= n)%nat ->
  update_nth n x (l ++ t)%list = (l ++ update_nth (n - List.length l) x t)%list.
Proof.
  revert n. induction l as [|y l IH]; intros n Hn; simpl in *.
  - now rewrite Nat.sub_0_r.
  - destruct n as [|n]; [lia|]. simpl. f_equal. apply IH. lia.
Qed.

Lemma update_fresh (h : heap) (o o' : object) :
  update_nth (List.length h) o' (h ++ [o])%list = (h ++ [o'])%list.
Proof.
  rewrite update_nth_app_r by lia. now rewrite Nat.sub_diag.
Qed.

Section Keeps.
Variable h0 : heap.

Lemma keeps_ret {A} (Q : A -> Prop) (a : A) : Q a -> keeps h0 Q (ret a).
Proof.
  intros Ha h Hh. split; [exact Hh|].
  unfold result, ret. simpl. intros b Hb. now inversion Hb; subst.
Qed.

Lemma keeps_raise {A} (Q : A -> Prop) (e : exn) : keeps h0 Q (raise e).
Proof.
  intros h Hh. split; [exact Hh|].
  unfold result, raise. simpl. discriminate.
Qed.

Lemma keeps_bind {A B} (P : A -> Prop) (Q : B -> Prop) (m : M A) (k : A -> M B) :
  keeps h0 P m -> (forall a, P a -> keeps h0 Q (k a)) -> keeps h0 Q (bind m k).
Proof.
  intros Hm Hk h Hh. destruct (Hm h Hh) as [He Hv].
  unfold final, result, bind in *.
  destruct (m h) as [[a|e] h'] eqn:E; simpl in *.
  - apply (Hk a (Hv a eq_refl) h' He).
  - split; [exact He | discriminate].
Qed.

Lemma keeps_weaken {A} (P Q : A -> Prop) (m : M A) :
  (forall a, P a -> Q a) -> keeps h0 P m -> keeps h0 Q m.
Proof.
  intros HPQ Hm h Hh. destruct (Hm h Hh) as [He Hv]. split; auto.
Qed.

Lemma keeps_alloc (o : object) : keeps h0 (fresh h0) (alloc o).
Proof.
  intros h [t ->]. unfold final, result, alloc, fresh. simpl. split.
  - exists (t ++ [o])%list. now rewrite app_assoc.
  - intros a Ha. inversion Ha; subst. rewrite length_app. lia.
Qed.

Lemma keeps_deref (r : ref) : keeps h0 any (deref r).
Proof.
  intros h Hh. unfold final, result, deref.
  destruct (nth_error h r); simpl; split; auto; intros; exact I.
Qed.

(** Only a fresh object may be overwritten. *)
Lemma keeps_assign (r : ref) (o : object) : fresh h0 r -> keeps h0 any (assign r o).
Proof.
  intros Hr h [t ->]. unfold final, result, assign. simpl. split.
  - rewrite update_nth_app_r by exact Hr. now eexists.
  - intros; exact I.
Qed.

Lemma keeps_or_raise {A} (e : exn) (o : option A) : keeps h0 any (or_raise e o).
Proof.
  destruct o; simpl; [now apply keeps_ret | apply keeps_raise].
Qed.

Lemma keeps_txn (r : ref) : keeps h0 any (txn r).
Proof.
  unfold txn. eapply keeps_bind; [apply keeps_deref|].
  intros [f|f|f|f|f] _; (now apply keeps_ret) || apply keeps_raise.
Qed.

Lemma keeps_copy (r : ref) : keeps h0 (fresh h0) (copy r).
Proof.
  unfold copy. eapply keeps_bind; [apply keeps_deref|].
  intros o _. apply keeps_alloc.
Qed.

Lemma keeps_getitem {T} (r : ref) (name : string) (field : row -> T) :
  keeps h0 any (getitem r name field).
Proof.
  unfold getitem. eapply keeps_bind; [apply keeps_txn|].
  intros f _. destruct (has_column name f); [now apply keeps_ret | apply keeps_raise].
Qed.

Lemma keeps_getitem_mask (r : ref) (mask : list bool) :
  keeps h0 (fresh h0) (getitem_mask r mask).
Proof.
  unfold getitem_mask. eapply keeps_bind; [apply keeps_txn|].
  intros f _. apply keeps_alloc.
Qed.

Lemma keeps_set_columns (r : ref) (names : list string) :
  fresh h0 r -> keeps h0 any (set_columns r names).
Proof.
  intro Hr. unfold set_columns. eapply keeps_bind; [apply keeps_deref|].
  intros o _. destruct (_ =? _)%nat; [now apply keeps_assign | apply keeps_raise].
Qed.

Lemma keeps_is_empty (r : ref) : keeps h0 any (is_empty r).
Proof.
  unfold is_empty. eapply keeps_bind; [apply keeps_deref|].
  intros [f|f|f|f|f] _; now apply keeps_ret.
Qed.

Lemma keeps_groupby_label_sum (r : ref) (sort : bool) :
  keeps h0 (fresh h0) (groupby_label_sum r sort).
Proof.
  unfold groupby_label_sum.
  eapply keeps_bind; [apply keeps_getitem|]. intros ks _.
  eapply keeps_bind; [apply keeps_getitem|]. intros vs _.
  apply keeps_alloc.
Qed.

Lemma keeps_groupby_hour_sum (r : ref) : keeps h0 (fresh h0) (groupby_hour_sum r).
Proof.
  unfold groupby_hour_sum.
  eapply keeps_bind; [apply keeps_getitem|]. intros ks _.
  eapply keeps_bind; [apply keeps_getitem|]. intros vs _.
  apply keeps_alloc.
Qed.

Lemma keeps_value_counts (r : ref) (name : string) (field : row -> cell) :
  keeps h0 (fresh h0) (value_counts r name field).
Proof.
  unfold value_counts. eapply keeps_bind; [apply keeps_getitem|].
  intros col _. apply keeps_alloc.
Qed.

Lemma keeps_value_counts_normalize (r : ref) (name : string) (field : row -> cell) :
  keeps h0 (fresh h0) (value_counts_normalize r name field).
Proof.
  unfold value_counts_normalize. eapply keeps_bind; [apply keeps_getitem|].
  intros col _. apply keeps_alloc.
Qed.

Lemma keeps_sort_values_label (r : ref) : keeps h0 (fresh h0) (sort_values_label r).
Proof.
  unfold sort_values_label. eapply keeps_bind; [apply keeps_deref|].
  intros [f|f|f|f|f] _; try apply keeps_raise.
  destruct (has_column _ f); [apply keeps_alloc | apply keeps_raise].
Qed.

Lemma keeps_px_pie (r : ref) (values names title : string) :
  keeps h0 any (px_pie r values names title).
Proof.
  unfold px_pie. eapply keeps_bind; [apply keeps_deref|].
  intros [f|f|f|f|f] _; try apply keeps_raise.
  all: eapply keeps_bind; [apply keeps_or_raise|]; intros ks _.
  all: eapply keeps_bind; [apply keeps_or_raise|]; intros vs _.
  all: now apply keeps_ret.
Qed.

Lemma keeps_px_bar (r : ref) (x y title : string) : keeps h0 any (px_bar r x y title).
Proof.
  unfold px_bar. eapply keeps_bind; [apply keeps_deref|].
  intros [f|f|f|f|f] _; try apply keeps_raise.
  eapply keeps_bind; [apply keeps_or_raise|]; intros ks _.
  eapply keeps_bind; [apply keeps_or_raise|]; intros vs _.
  now apply keeps_ret.
Qed.

Lemma keeps_px_area (r : ref) (x y title : string) (xr : Z * Z) :
  keeps h0 any (px_area r x y title xr).
Proof.
  unfold px_area. eapply keeps_bind; [apply keeps_deref|].
  intros [f|f|f|f|f] _; try apply keeps_raise.
  eapply keeps_bind; [apply keeps_or_raise|]; intros ks _.
  eapply keeps_bind; [apply keeps_or_raise|]; intros vs _.
  now apply keeps_ret.
Qed.

Lemma keeps_restrict (r : ref) (name : string) (field : row -> cell) (s : Pandas.selection) :
  fresh h0 r -> keeps h0 (fresh h0) (restrict r name field s).
Proof.
  intro Hr. unfold restrict. destruct (truthy s && differs_from_none_list s).
  - eapply keeps_bind; [apply keeps_getitem|]. intros col _. apply keeps_getitem_mask.
  - now apply keeps_ret.
Qed.

Lemma keeps_filter_depot_city (sd sc : Pandas.selection) :
  keeps h0 (fresh h0) (filter_depot_city sd sc).
Proof.
  unfold filter_depot_city.
  eapply keeps_bind; [apply keeps_copy|]. intros r Hr.
  eapply keeps_bind; [now apply keeps_restrict|]. intros r' Hr'.
  now apply keeps_restrict.
Qed.

Lemma keeps_filter_depot_city_route (sd sc sr : Pandas.selection) :
  keeps h0 (fresh h0) (filter_depot_city_route sd sc sr).
Proof.
  unfold filter_depot_city_route.
  eapply keeps_bind; [apply keeps_filter_depot_city|]. intros r Hr.
  now apply keeps_restrict.
Qed.

Lemma keeps_loc_label (r : ref) (i : nat) : keeps h0 any (loc_label r i).
Proof.
  unfold loc_label. eapply keeps_bind; [apply keeps_deref|].
  intros [f|f|f|f|f] _; try apply keeps_raise.
  destruct (nth_error (rows f) i); [|apply keeps_raise].
  eapply keeps_bind; [apply keeps_or_raise|]. intros ks _. apply keeps_or_raise.
Qed.

Lemma keeps_summary_counts (r : ref) : keeps h0 any (summary_counts r).
Proof.
  unfold summary_counts. eapply keeps_bind; [apply keeps_deref|].
  intros [f|f|f|f|f] _; try apply keeps_raise. apply keeps_or_raise.
Qed.

Lemma keeps_peak_and_off_peak (r : ref) : keeps h0 any (peak_and_off_peak r).
Proof.
  unfold peak_and_off_peak.
  eapply keeps_bind; [apply keeps_is_empty|]. intros e _.
  destruct (negb e); [|now apply keeps_ret].
  eapply keeps_bind; [apply keeps_groupby_label_sum|]. intros s _.
  eapply keeps_bind; [apply keeps_is_empty|]. intros e' _.
  destruct (negb e'); [|now apply keeps_ret].
  eapply keeps_bind; [apply keeps_summary_counts|]. intros c _.
  eapply keeps_bind; [apply keeps_or_raise|]. intros i _.
  eapply keeps_bind; [apply keeps_loc_label|]. intros p _.
  eapply keeps_bind; [apply keeps_summary_counts|]. intros c' _.
  eapply keeps_bind; [apply keeps_or_raise|]. intros j _.
  eapply keeps_bind; [apply keeps_loc_label|]. intros q _.
  now apply keeps_ret.
Qed.

Lemma keeps_passenger_type_figure (r : ref) : keeps h0 any (passenger_type_figure r).
Proof.
  unfold passenger_type_figure.
  eapply keeps_bind; [apply keeps_txn|]. intros f _.
  destruct (has_column _ f); [|now apply keeps_ret].
  eapply keeps_bind; [apply keeps_value_counts_normalize|]. intros c Hc.
  eapply keeps_bind; [now apply keeps_set_columns|]. intros _ _.
  apply keeps_px_pie.
Qed.

Lemma keeps_set_route_options (sd sc : Pandas.selection) :
  keeps h0 any (set_route_options sd sc).
Proof.
  unfold set_route_options.
  eapply keeps_bind; [apply keeps_filter_depot_city|]. intros r _.
  eapply keeps_bind; [apply keeps_is_empty|]. intros e _.
  destruct e; [now apply keeps_ret|].
  eapply keeps_bind; [apply keeps_getitem|]. intros col _.
  now apply keeps_ret.
Qed.

Lemma keeps_update_dashboard (sd sc sr : Pandas.selection) :
  keeps h0 any (update_dashboard sd sc sr).
Proof.
  unfold update_dashboard.
  eapply keeps_bind; [apply keeps_filter_depot_city_route|]. intros r _.
  eapply keeps_bind; [apply keeps_getitem|]. intros pc _.
  eapply keeps_bind; [apply keeps_getitem|]. intros fc _.
  eapply keeps_bind; [apply keeps_peak_and_off_peak|]. intros [p q] _.
  eapply keeps_bind; [apply keeps_value_counts|]. intros c Hc.
  eapply keeps_bind; [now apply keeps_set_columns|]. intros _ _.
  eapply keeps_bind; [apply keeps_px_pie|]. intros pie _.
  eapply keeps_bind; [apply keeps_groupby_label_sum|]. intros t _.
  eapply keeps_bind; [apply keeps_sort_values_label|]. intros t' _.
  eapply keeps_bind; [apply keeps_px_bar|]. intros bar _.
  eapply keeps_bind; [apply keeps_passenger_type_figure|]. intros pt _.
  now apply keeps_ret.
Qed.

Lemma keeps_update_area_chart (sd sc sr : Pandas.selection) (time_range : list Z) :
  keeps h0 any (update_area_chart sd sc sr time_range).
Proof.
  unfold update_area_chart.
  eapply keeps_bind; [apply keeps_filter_depot_city_route|]. intros r _.
  destruct time_range as [|a [|b [|c l]]]; try apply keeps_raise.
  eapply keeps_bind; [apply keeps_getitem|]. intros hs _.
  eapply keeps_bind; [apply keeps_getitem|]. intros hs' _.
  eapply keeps_bind; [apply keeps_getitem_mask|]. intros r' _.
  eapply keeps_bind; [apply keeps_groupby_hour_sum|]. intros g _.
  apply keeps_px_area.
Qed.

End Keeps.

(* ================================================================== *)
(** * Facts about the pandas operations *)
(* ================================================================== *)

Module PandasFacts.
Import Pandas.

(** ** String order *)

Lemma string_compare_OT (a b : string) : String.compare a b = String_as_OT.compare a b.
Proof.
  revert b. induction a as [|x a IH]; intros [|y b]; simpl;
    solve [reflexivity | now rewrite IH].
Qed.

Lemma string_leb_iff (a b : string) :
  String.leb a b = true <-> a = b \/ String_as_OT.lt a b.
Proof.
  unfold String.leb. rewrite string_compare_OT.
  destruct (String_as_OT.compare_spec a b) as [E|L|G].
  - split; auto.
  - split; auto.
  - split; [discriminate|]. intros [E|L]; exfalso.
    + subst. exact (StrictOrder_Irreflexive b G).
    + exact (StrictOrder_Irreflexive a (StrictOrder_Transitive _ _ _ L G)).
Qed.

Lemma string_leb_refl (a : string) : String.leb a a = true.
Proof. apply string_leb_iff. now left. Qed.

Lemma string_leb_trans (a b c : string) :
  String.leb a b = true -> String.leb b c = true -> String.leb a c = true.
Proof.
  rewrite !string_leb_iff. intros [->|Hab] [->|Hbc]; auto.
  right. exact (StrictOrder_Transitive _ _ _ Hab Hbc).
Qed.

(** ** Masks *)

Lemma mask_select_filter {R} (p : R -> bool) (l : list R) :
  mask_select l (map p l) = filter p l.
Proof.
  induction l as [|x l IH]; simpl; [reflexivity|].
  destruct (p x); now rewrite IH.
Qed.

Lemma mask_and {R} (p q : R -> bool) (l : list R) :
  map (fun x => fst x && snd x) (combine (map p l) (map q l))
  = map (fun x => p x && q x) l.
Proof.
  induction l as [|x l IH]; simpl; [reflexivity|]. now rewrite IH.
Qed.

Lemma combine_map {A B C} (f : A -> B) (g : A -> C) (l : list A) :
  combine (map f l) (map g l) = map (fun x => (f x, g x)) l.
Proof.
  induction l as [|x l IH]; simpl; [reflexivity|]. now rewrite IH.
Qed.

Lemma combine_fst_snd {A B} (l : list (A * B)) :
  combine (map fst l) (map snd l) = l.
Proof.
  induction l as [|[a b] l IH]; simpl; [reflexivity|]. now rewrite IH.
Qed.

(** ** Sorting *)

Section SortFacts.
Context {A : Type} (leb : A -> A -> bool).

Lemma insert_perm (x : A) (l : list A) : Permutation (insert leb x l) (x :: l).
Proof.
  induction l as [|y l IH]; simpl; [reflexivity|].
  destruct (leb x y); [reflexivity|].
  rewrite IH. apply perm_swap.
Qed.

Lemma sort_perm (l : list A) : Permutation (sort leb l) l.
Proof.
  induction l as [|x l IH]; simpl; [reflexivity|].
  rewrite insert_perm. now constructor.
Qed.

Hypothesis leb_total : forall a b, leb a b = true \/ leb b a = true.
Hypothesis leb_trans : forall a b c, leb a b = true -> leb b c = true -> leb a c = true.

Lemma insert_sorted (x : A) (l : list A) :
  StronglySorted (fun a b => leb a b = true) l ->
  StronglySorted (fun a b => leb a b = true) (insert leb x l).
Proof.
  induction 1 as [|y l Hs IH Hy]; simpl.
  - repeat constructor.
  - destruct (leb x y) eqn:E.
    + constructor; [now constructor|].
      constructor; [exact E|].
      rewrite Forall_forall in *. intros z Hz. eauto.
    + constructor; [exact IH|].
      rewrite Forall_forall in *. intros z Hz.
      apply (Permutation_in _ (insert_perm x l)) in Hz.
      destruct Hz as [<-|Hz]; [|now apply Hy].
      destruct (leb_total x y) as [H|H]; congruence.
Qed.

Lemma sort_sorted (l : list A) : StronglySorted (fun a b => leb a b = true) (sort leb l).
Proof.
  induction l as [|x l IH]; simpl; [constructor | now apply insert_sorted].
Qed.
End SortFacts.

Lemma sorted_nth {A} (R : A -> A -> Prop) (l : list A) :
  StronglySorted R l ->
  forall i j a b, (i < j)%nat -> nth_error l i = Some a -> nth_error l j = Some b -> R a b.
Proof.
  induction 1 as [|x l Hs IH Hx]; intros i j a b Hij Ha Hb.
  - destruct i; discriminate.
  - destruct j as [|j]; [lia|]. simpl in Hb.
    destruct i as [|i]; simpl in Ha.
    + inversion Ha; subst. rewrite Forall_forall in Hx.
      apply Hx. eapply nth_error_In; eauto.
    + apply (IH i j a b); [lia | assumption | assumption].
Qed.

(** ** Sums *)

Lemma sum_app (a b : list Z) : sum (a ++ b) = sum a + sum b.
Proof.
  induction a as [|x a IH]; simpl; [reflexivity|]. unfold sum in *. simpl. lia.
Qed.

Lemma sum_perm (a b : list Z) : Permutation a b -> sum a = sum b.
Proof.
  induction 1; unfold sum in *; simpl; lia.
Qed.

(** ** Grouping *)

Section GroupFacts.
Context {K : Type} (eqb : K -> K -> bool).
Hypothesis eqb_eq : forall a b, eqb a b = true <-> a = b.

Let step := fun (acc : list (K * Z)) (kv : K * Z) => accumulate eqb (fst kv) (snd kv) acc.

Lemma eqb_refl (k : K) : eqb k k = true.
Proof. now apply eqb_eq. Qed.

Lemma eqb_neq (a b : K) : eqb a b = false <-> a <> b.
Proof.
  split.
  - intros H E. apply eqb_eq in E. congruence.
  - intro H. destruct (eqb a b) eqn:E; [|reflexivity].
    apply eqb_eq in E. contradiction.
Qed.

Lemma assoc_accumulate (k k' : K) (v : Z) (acc : list (K * Z)) :
  assoc eqb k' (accumulate eqb k v acc)
  = if eqb k' k
    then Some (match assoc eqb k acc with Some s => s + v | None => v end)
    else assoc eqb k' acc.
Proof.
  induction acc as [|[k0 s] acc IH]; simpl.
  - destruct (eqb k' k) eqn:E; [|reflexivity].
    reflexivity.
  - destruct (eqb k k0) eqn:E0; simpl.
    + apply eqb_eq in E0. subst k0.
      destruct (eqb k' k); reflexivity.
    + rewrite IH. destruct (eqb k' k) eqn:E; [|reflexivity].
      apply eqb_eq in E. subst k'. now rewrite E0.
Qed.

Lemma keys_accumulate (k : K) (v : Z) (acc : list (K * Z)) :
  map fst (accumulate eqb k v acc)
  = if existsb (eqb k) (map fst acc) then map fst acc else (map fst acc ++ [k])%list.
Proof.
  induction acc as [|[k0 s] acc IH]; simpl; [reflexivity|].
  destruct (eqb k k0); simpl; [reflexivity|].
  rewrite IH. now destruct (existsb (eqb k) (map fst acc)).
Qed.

Lemma existsb_eqb_In (k : K) (l : list K) : existsb (eqb k) l = true <-> In k l.
Proof.
  rewrite existsb_exists. split.
  - intros [x [Hx E]]. apply eqb_eq in E. now subst.
  - intro H. exists k. split; [assumption | apply eqb_refl].
Qed.

Lemma nodup_accumulate (k : K) (v : Z) (acc : list (K * Z)) :
  NoDup (map fst acc) -> NoDup (map fst (accumulate eqb k v acc)).
Proof.
  intro H. rewrite keys_accumulate.
  destruct (existsb (eqb k) (map fst acc)) eqn:E; [assumption|].
  apply NoDup_app; [assumption | repeat constructor; intros [] |].
  intros x Hx [<-|[]].
  apply existsb_eqb_In in Hx. congruence.
Qed.

Lemma nodup_fold (l acc : list (K * Z)) :
  NoDup (map fst acc) -> NoDup (map fst (fold_left step l acc)).
Proof.
  revert acc. induction l as [|kv l IH]; intros acc H; simpl; [assumption|].
  apply IH. now apply nodup_accumulate.
Qed.

Lemma total_absent (k : K) (l : list (K * Z)) :
  existsb (eqb k) (map fst l) = false -> total eqb k l = 0.
Proof.
  unfold total. induction l as [|[k0 v] l IH]; simpl; [reflexivity|].
  intro H. apply orb_false_iff in H. destruct H as [H0 H1].
  rewrite H0. now apply IH.
Qed.

Lemma assoc_fold (k : K) (l acc : list (K * Z)) :
  assoc eqb k (fold_left step l acc)
  = if existsb (eqb k) (map fst l)
    then Some (match assoc eqb k acc with Some s => s | None => 0 end + total eqb k l)
    else assoc eqb k acc.
Proof.
  revert acc. induction l as [|[k0 v] l IH]; intros acc; simpl; [reflexivity|].
  rewrite IH. unfold step. simpl. rewrite assoc_accumulate.
  unfold total. simpl.
  destruct (eqb k k0) eqn:E; simpl.
  - apply eqb_eq in E. subst k0.
    pose proof (total_absent k l) as Hz. unfold total in Hz.
    set (T := sum _) in *.
    destruct (existsb (eqb k) (map fst l)); f_equal.
    + destruct (assoc eqb k acc); lia.
    + rewrite (Hz eq_refl). destruct (assoc eqb k acc); lia.
  - reflexivity.
Qed.

Lemma assoc_In (k : K) (s : Z) (acc : list (K * Z)) :
  NoDup (map fst acc) -> (assoc eqb k acc = Some s <-> In (k, s) acc).
Proof.
  induction acc as [|[k0 s0] acc IH]; simpl; intro H.
  - split; [discriminate | contradiction].
  - inversion H as [|? ? Hn Hd]; subst.
    destruct (eqb k k0) eqn:E.
    + apply eqb_eq in E. subst k0. split.
      * intro E. inversion E. now left.
      * intros [E|Hin]; [now inversion E|].
        exfalso. apply Hn. apply in_map_iff. now exists (k, s).
    + rewrite (IH Hd). split; [now right|].
      intros [E'|Hin]; [|assumption].
      inversion E'; subst. rewrite eqb_refl in E. discriminate.
Qed.

Lemma group_sum_nodup (l : list (K * Z)) : NoDup (map fst (group_sum eqb l)).
Proof. apply nodup_fold. constructor. Qed.

(** One entry per key that occurs, holding the sum of its values. *)
Lemma group_sum_In (k : K) (s : Z) (l : list (K * Z)) :
  In (k, s) (group_sum eqb l) <-> In k (map fst l) /\ s = total eqb k l.
Proof.
  rewrite <- assoc_In by apply group_sum_nodup.
  unfold group_sum. fold step. rewrite assoc_fold. simpl.
  destruct (existsb (eqb k) (map fst l)) eqn:E.
  - apply existsb_eqb_In in E. split.
    + intro H. inversion H. split; [assumption | lia].
    + intros [_ ->]. f_equal.
  - split; [discriminate|]. intros [H _].
    apply existsb_eqb_In in H. congruence.
Qed.

Lemma sum_accumulate (k : K) (v : Z) (acc : list (K * Z)) :
  sum (map snd (accumulate eqb k v acc)) = sum (map snd acc) + v.
Proof.
  induction acc as [|[k0 s] acc IH]; unfold sum in *; simpl; [lia|].
  destruct (eqb k k0); simpl; lia.
Qed.

Lemma sum_fold (l acc : list (K * Z)) :
  sum (map snd (fold_left step l acc)) = sum (map snd acc) + sum (map snd l).
Proof.
  revert acc. induction l as [|[k v] l IH]; intros acc; simpl.
  - unfold sum. simpl. lia.
  - rewrite IH. unfold step. simpl. rewrite sum_accumulate.
    unfold sum. simpl. lia.
Qed.

(** Grouping neither loses nor invents anything. *)
Lemma group_sum_total (l : list (K * Z)) :
  sum (map snd (group_sum eqb l)) = sum (map snd l).
Proof. unfold group_sum. fold step. now rewrite sum_fold. Qed.

Lemma group_sum_nil (l : list (K * Z)) : group_sum eqb l = [] -> l = [].
Proof.
  destruct l as [|[k v] l]; [reflexivity|]. intro H. exfalso.
  assert (Hin : In k (map fst ((k, v) :: l))) by now left.
  pose proof (proj2 (group_sum_In k _ _) (conj Hin eq_refl)) as Hg.
  rewrite H in Hg. exact Hg.
Qed.
End GroupFacts.

End PandasFacts.

Module ExtremaFacts.
Import Pandas.

Lemma argmax_spec (l : list Z) (i : nat) (m : Z) :
  argmax l = Some (i, m) ->
  nth_error l i = Some m
  /\ (forall x, In x l -> x <= m)
  /\ (forall j x, (j < i)%nat -> nth_error l j = Some x -> x < m).
Proof.
  revert i m. induction l as [|y l IH]; intros i m H; simpl in H; [discriminate|].
  destruct (argmax l) as [[i' m']|] eqn:E.
  - destruct (IH i' m' eq_refl) as (Hn & Hmax & Hfirst).
    destruct (m' <=? y) eqn:C; inversion H; subst; clear H.
    + apply Z.leb_le in C. repeat split.
      * intros x [<-|Hx]; [lia|]. specialize (Hmax x Hx). lia.
      * intros j x Hj. lia.
    + apply Z.leb_gt in C. repeat split.
      * exact Hn.
      * intros x [<-|Hx]; [lia | now apply Hmax].
      * intros [|j] x Hj Hx; simpl in Hx.
        -- inversion Hx. lia.
        -- apply (Hfirst j x); [lia | assumption].
  - inversion H; subst; clear H. destruct l as [|z l].
    + repeat split.
      * intros x [<-|[]]. lia.
      * intros j x Hj. lia.
    + simpl in E. destruct (argmax l) as [[? ?]|]; [destruct (_ <=? _)|]; discriminate.
Qed.

Lemma argmin_spec (l : list Z) (i : nat) (m : Z) :
  argmin l = Some (i, m) ->
  nth_error l i = Some m
  /\ (forall x, In x l -> m <= x)
  /\ (forall j x, (j < i)%nat -> nth_error l j = Some x -> m < x).
Proof.
  revert i m. induction l as [|y l IH]; intros i m H; simpl in H; [discriminate|].
  destruct (argmin l) as [[i' m']|] eqn:E.
  - destruct (IH i' m' eq_refl) as (Hn & Hmin & Hfirst).
    destruct (y <=? m') eqn:C; inversion H; subst; clear H.
    + apply Z.leb_le in C. repeat split.
      * intros x [<-|Hx]; [lia|]. specialize (Hmin x Hx). lia.
      * intros j x Hj. lia.
    + apply Z.leb_gt in C. repeat split.
      * exact Hn.
      * intros x [<-|Hx]; [lia | now apply Hmin].
      * intros [|j] x Hj Hx; simpl in Hx.
        -- inversion Hx. lia.
        -- apply (Hfirst j x); [lia | assumption].
  - inversion H; subst; clear H. destruct l as [|z l].
    + repeat split.
      * intros x [<-|[]]. lia.
      * intros j x Hj. lia.
    + simpl in E. destruct (argmin l) as [[? ?]|]; [destruct (_ <=? _)|]; discriminate.
Qed.

Lemma argmax_some (l : list Z) : l <> [] -> exists i m, argmax l = Some (i, m).
Proof.
  destruct l as [|y l]; [contradiction|]. intros _. simpl.
  destruct (argmax l) as [[i m]|]; [destruct (m <=? y)|]; eauto.
Qed.

Lemma argmin_some (l : list Z) : l <> [] -> exists i m, argmin l = Some (i, m).
Proof.
  destruct l as [|y l]; [contradiction|]. intros _. simpl.
  destruct (argmin l) as [[i m]|]; [destruct (y <=? m)|]; eauto.
Qed.

(** Shares over a common denominator add up to the sum of the counts
    over that denominator. *)
Lemma sumQ_shares {K} (p : positive) (l : list (K * Z)) :
  sumQ (map (fun kc => Qmake (snd kc) p) l) == Qmake (sum (map snd l)) p.
Proof.
  induction l as [|[k c] l IH]; simpl.
  - reflexivity.
  - rewrite IH. unfold sum. simpl. unfold Qeq, Qplus. simpl. nia.
Qed.

Lemma Qmake_self (n : Z) : 0 < n -> Qmake n (Z.to_pos n) == 1.
Proof.
  intro H. unfold Qeq. simpl. rewrite Z2Pos.id by assumption. lia.
Qed.

End ExtremaFacts.

(* ================================================================== *)
(** * Running the callbacks *)
(* ================================================================== *)

Lemma runs_result {A} (m : M A) (h : heap) (a : A) (h' : heap) :
  runs m h a h' -> result m h = Ok a.
Proof. unfold runs, result. now intros ->. Qed.

Lemma runs_ret {A} (a : A) (h : heap) : runs (ret a) h a h.
Proof. reflexivity. Qed.

Lemma runs_bind {A B} (m : M A) (k : A -> M B) (h h1 h2 : heap) (a : A) (b : B) :
  runs m h a h1 -> runs (k a) h1 b h2 -> runs (bind m k) h b h2.
Proof. unfold runs, bind. now intros ->. Qed.

Lemma fails_bind_l {A B} (m : M A) (k : A -> M B) (h : heap) (e : exn) :
  fails m h e -> fails (bind m k) h e.
Proof.
  unfold fails, result, bind. destruct (m h) as [[a|e'] h']; simpl; [discriminate|].
  intro H. now inversion H.
Qed.

Lemma fails_bind_r {A B} (m : M A) (k : A -> M B) (h h1 : heap) (a : A) (e : exn) :
  runs m h a h1 -> fails (k a) h1 e -> fails (bind m k) h e.
Proof. unfold runs, fails, result, bind. now intros ->. Qed.

Lemma lookup_old (h t : heap) (r : ref) (o : object) :
  nth_error h r = Some o -> nth_error (h ++ t)%list r = Some o.
Proof. intro H. apply (extends_lookup h); [now exists t | exact H]. Qed.

Lemma runs_alloc (o : object) (h : heap) :
  runs (alloc o) h (List.length h) (h ++ [o])%list.
Proof. reflexivity. Qed.

Lemma runs_deref (r : ref) (o : object) (h : heap) :
  nth_error h r = Some o -> runs (deref r) h o h.
Proof. unfold runs, deref. now intros ->. Qed.

Lemma runs_txn (r : ref) (f : DataFrame) (h : heap) :
  nth_error h r = Some (OTxn f) -> runs (txn r) h f h.
Proof.
  intro H. unfold txn. eapply runs_bind; [apply runs_deref; eassumption|]. apply runs_ret.
Qed.

Lemma runs_copy (r : ref) (o : object) (h : heap) :
  nth_error h r = Some o -> runs (copy r) h (List.length h) (h ++ [o])%list.
Proof.
  intro H. unfold copy. eapply runs_bind; [apply runs_deref; eassumption|]. apply runs_alloc.
Qed.

Lemma runs_getitem {T} (r : ref) (name : string) (field : row -> T) (f : DataFrame) (h : heap) :
  nth_error h r = Some (OTxn f) -> has_column name f = true ->
  runs (getitem r name field) h (map field (rows f)) h.
Proof.
  intros H Hc. unfold getitem. eapply runs_bind; [apply runs_txn; eassumption|].
  rewrite Hc. apply runs_ret.
Qed.

Lemma fails_getitem {T} (r : ref) (name : string) (field : row -> T) (f : DataFrame) (h : heap) :
  nth_error h r = Some (OTxn f) -> has_column name f = false ->
  fails (getitem r name field) h (KeyError name).
Proof.
  intros H Hc. unfold getitem. eapply fails_bind_r; [apply runs_txn; eassumption|].
  now rewrite Hc.
Qed.

Lemma runs_getitem_mask (r : ref) (mask : list bool) (f : DataFrame) (h : heap) :
  nth_error h r = Some (OTxn f) ->
  runs (getitem_mask r mask) h (List.length h)
       (h ++ [OTxn (mkFrame (columns f) (Pandas.mask_select (rows f) mask))])%list.
Proof.
  intro H. unfold getitem_mask. eapply runs_bind; [apply runs_txn; eassumption|]. apply runs_alloc.
Qed.

Lemma runs_set_columns_fresh (names : list string) (o : object) (h : heap) :
  List.length names = List.length (object_columns o) ->
  runs (set_columns (List.length h) names) (h ++ [o])%list tt
       (h ++ [object_with_columns names o])%list.
Proof.
  intro Hl. unfold set_columns.
  eapply runs_bind; [apply runs_deref, lookup_fresh|].
  rewrite Hl, Nat.eqb_refl. unfold runs, assign. now rewrite update_fresh.
Qed.

Lemma runs_is_empty_txn (r : ref) (f : DataFrame) (h : heap) :
  nth_error h r = Some (OTxn f) -> runs (is_empty r) h (empty f) h.
Proof.
  intro H. unfold is_empty. eapply runs_bind; [apply runs_deref; eassumption|]. apply runs_ret.
Qed.

(** ** The rows a selection lets through *)

Lemma selected_rows_In (sd sc sr : Pandas.selection) (l : list row) (x : row) :
  In x (selected_rows sd sc sr l)
  <-> In x l /\ admits sd (DEPOT_NAME x) = true /\ admits sc (CITY_NAME x) = true
      /\ admits sr (ROUTE_NAME x) = true.
Proof.
  unfold selected_rows, depot_city_rows. rewrite !filter_In. tauto.
Qed.

Lemma filter_true {A} (l : list A) : filter (fun _ => true) l = l.
Proof. induction l as [|x l IH]; simpl; [reflexivity | now rewrite IH]. Qed.

Lemma restrict_idle (r : ref) (name : string) (field : row -> cell) (s : Pandas.selection) :
  restricts s = false -> restrict r name field s = ret r.
Proof. unfold restrict, restricts. now intros ->. Qed.

Lemma runs_restrict (r : ref) (name : string) (field : row -> cell) (s : Pandas.selection)
  (f : DataFrame) (h : heap) :
  nth_error h r = Some (OTxn f) ->
  (restricts s = true -> has_column name f = true) ->
  exists r' h',
    runs (restrict r name field s) h r' h' /\ extends h h'
    /\ nth_error h' r' = Some (OTxn (mkFrame (columns f)
                                        (filter (fun x => admits s (field x)) (rows f)))).
Proof.
  intros H Hc. unfold restrict, admits. fold (restricts s).
  destruct (restricts s) eqn:E.
  - exists (List.length h). eexists. split; [|split].
    + eapply runs_bind; [apply runs_getitem; eauto|].
      apply runs_getitem_mask. exact H.
    + apply extends_snoc.
    + rewrite lookup_fresh. rewrite map_map, PandasFacts.mask_select_filter. reflexivity.
  - exists r, h. split; [apply runs_ret|]. split; [apply extends_refl|].
    rewrite filter_true. now destruct f.
Qed.

(** Running one statement of a [bind] chain. *)
Ltac run_with tac := eapply runs_bind; [ solve [tac] | cbv beta ].

Lemma runs_filter_depot_city (sd sc : Pandas.selection) (D : DataFrame) (h : heap) :
  nth_error h df = Some (OTxn D) ->
  (restricts sd = true -> has_column "DEPOT_NAME" D = true) ->
  (restricts sc = true -> has_column "CITY_NAME" D = true) ->
  exists r h',
    runs (filter_depot_city sd sc) h r h' /\ extends h h'
    /\ nth_error h' r = Some (OTxn (mkFrame (columns D) (depot_city_rows sd sc (rows D)))).
Proof.
  intros H Hd Hc.
  destruct (runs_restrict (List.length h) "DEPOT_NAME" DEPOT_NAME sd D (h ++ [OTxn D])%list)
    as (r1 & h1 & R1 & E1 & L1); [apply lookup_fresh | exact Hd |].
  destruct (runs_restrict r1 "CITY_NAME" CITY_NAME sc _ h1 L1 Hc)
    as (r2 & h2 & R2 & E2 & L2).
  exists r2, h2. split; [|split].
  - unfold filter_depot_city.
    run_with ltac:(apply runs_copy; eassumption).
    run_with ltac:(exact R1). exact R2.
  - eapply extends_trans; [apply extends_snoc|]. eapply extends_trans; eassumption.
  - exact L2.
Qed.

Lemma runs_filter_depot_city_route (sd sc sr : Pandas.selection) (D : DataFrame) (h : heap) :
  nth_error h df = Some (OTxn D) ->
  (restricts sd = true -> has_column "DEPOT_NAME" D = true) ->
  (restricts sc = true -> has_column "CITY_NAME" D = true) ->
  (restricts sr = true -> has_column "ROUTE_NAME" D = true) ->
  exists r h',
    runs (filter_depot_city_route sd sc sr) h r h' /\ extends h h'
    /\ nth_error h' r = Some (OTxn (mkFrame (columns D) (selected_rows sd sc sr (rows D)))).
Proof.
  intros H Hd Hc Hr.
  destruct (runs_filter_depot_city sd sc D h H Hd Hc) as (r1 & h1 & R1 & E1 & L1).
  destruct (runs_restrict r1 "ROUTE_NAME" ROUTE_NAME sr _ h1 L1 Hr)
    as (r2 & h2 & R2 & E2 & L2).
  exists r2, h2. split; [|split].
  - unfold filter_depot_city_route. run_with ltac:(exact R1). exact R2.
  - eapply extends_trans; eassumption.
  - exact L2.
Qed.

Lemma runs_set_route_options (sd sc : Pandas.selection) (D : DataFrame) (h : heap) :
  nth_error h df = Some (OTxn D) ->
  has_column "DEPOT_NAME" D = true ->
  has_column "CITY_NAME" D = true ->
  has_column "ROUTE_NAME" D = true ->
  exists h',
    runs (set_route_options sd sc) h
         (match depot_city_rows sd sc (rows D) with
          | [] => ([], [])
          | l => (map (fun i => mkEntry i i) (route_names l), [])
          end) h'.
Proof.
  intros H Hd Hc Hr.
  destruct (runs_filter_depot_city sd sc D h H (fun _ => Hd) (fun _ => Hc))
    as (r1 & h1 & R1 & E1 & L1).
  exists h1. unfold set_route_options.
  run_with ltac:(exact R1).
  run_with ltac:(apply runs_is_empty_txn; exact L1).
  unfold empty. simpl.
  destruct (depot_city_rows sd sc (rows D)) as [|x l] eqn:E; [apply runs_ret|].
  destruct (columns D) as [|c cs] eqn:EC;
    [unfold has_column in Hr; rewrite EC in Hr; discriminate|].
  run_with ltac:(apply runs_getitem;
                 [exact L1 | unfold has_column in *; cbn [columns]; rewrite <- EC; exact Hr]).
  apply runs_ret.
Qed.

Lemma runs_groupby_hour_sum (r : ref) (f : DataFrame) (h : heap) :
  nth_error h r = Some (OTxn f) ->
  has_column "Hour" f = true -> has_column "PASSENGER_COUNT" f = true ->
  runs (groupby_hour_sum r) h (List.length h)
       (h ++ [OHours (mkFrame ["Hour"; "PASSENGER_COUNT"] (hourly (rows f)))])%list.
Proof.
  intros H Hh Hp. unfold groupby_hour_sum.
  run_with ltac:(apply runs_getitem; eassumption).
  run_with ltac:(apply runs_getitem; eassumption).
  rewrite PandasFacts.combine_map. apply runs_alloc.
Qed.

Lemma runs_px_area (r : ref) (x y title : string) (xr : Z * Z) (l : list (Z * Z)) (h : heap) :
  nth_error h r = Some (OHours (mkFrame [x; y] l)) ->
  runs (px_area r x y title xr) h (Area title xr l) h.
Proof.
  intro H. unfold px_area.
  run_with ltac:(apply runs_deref; eassumption).
  unfold keys_of, values_of. cbn [columns rows]. rewrite !String.eqb_refl.
  cbn [or_raise]. run_with ltac:(apply runs_ret). run_with ltac:(apply runs_ret).
  rewrite PandasFacts.combine_fst_snd. apply runs_ret.
Qed.

Lemma runs_update_area_chart (sd sc sr : Pandas.selection) (s e : Z) (D : DataFrame) (h : heap) :
  nth_error h df = Some (OTxn D) ->
  has_column "DEPOT_NAME" D = true ->
  has_column "CITY_NAME" D = true ->
  has_column "ROUTE_NAME" D = true ->
  has_column "Hour" D = true ->
  has_column "PASSENGER_COUNT" D = true ->
  exists h',
    runs (update_area_chart sd sc sr [s; e]) h
         (Area (area_title s e) (s, e)
               (hourly (filter (in_window s e) (selected_rows sd sc sr (rows D))))) h'.
Proof.
  intros H Hd Hc Hr Hh Hp.
  destruct (runs_filter_depot_city_route sd sc sr D h H (fun _ => Hd) (fun _ => Hc) (fun _ => Hr))
    as (r1 & h1 & R1 & E1 & L1).
  eexists. unfold update_area_chart.
  run_with ltac:(exact R1).
  run_with ltac:(apply runs_getitem; [exact L1 | exact Hh]).
  run_with ltac:(apply runs_getitem; [exact L1 | exact Hh]).
  run_with ltac:(apply runs_getitem_mask; exact L1).
  cbn [rows columns]. rewrite !map_map.
  rewrite (PandasFacts.mask_and (fun r => s <=? Hour r) (fun r => Hour r <? e)).
  rewrite PandasFacts.mask_select_filter. fold (in_window s e).
  run_with ltac:(apply runs_groupby_hour_sum; [apply lookup_fresh | exact Hh | exact Hp]).
  apply runs_px_area. apply lookup_fresh.
Qed.

(** ** The dashboard *)

Lemma runs_groupby_label_sum (r : ref) (sort : bool) (f : DataFrame) (h : heap) :
  nth_error h r = Some (OTxn f) ->
  has_column "Time_Interval_Label" f = true -> has_column "PASSENGER_COUNT" f = true ->
  runs (groupby_label_sum r sort) h (List.length h)
       (h ++ [OSums (mkFrame ["Time_Interval_Label"; "PASSENGER_COUNT"]
                       (if sort then label_sums (rows f)
                        else Pandas.group_sum String.eqb
                               (map (fun r => (Time_Interval_Label r, PASSENGER_COUNT r))
                                    (rows f))))])%list.
Proof.
  intros H Hl Hp. unfold groupby_label_sum.
  run_with ltac:(apply runs_getitem; eassumption).
  run_with ltac:(apply runs_getitem; eassumption).
  rewrite PandasFacts.combine_map. apply runs_alloc.
Qed.

Lemma runs_is_empty_sums (r : ref) (f : Frame (string * Z)) (h : heap) :
  nth_error h r = Some (OSums f) -> runs (is_empty r) h (empty f) h.
Proof.
  intro H. unfold is_empty. eapply runs_bind; [apply runs_deref; eassumption|]. apply runs_ret.
Qed.

Lemma runs_summary_counts (r : ref) (k : string) (l : list (string * Z)) (h : heap) :
  nth_error h r = Some (OSums (mkFrame [k; "PASSENGER_COUNT"] l)) ->
  runs (summary_counts r) h (map snd l) h.
Proof.
  intro H. unfold summary_counts.
  run_with ltac:(apply runs_deref; eassumption).
  unfold values_of. cbn [columns rows]. rewrite String.eqb_refl. apply runs_ret.
Qed.

Lemma runs_loc_label (r : ref) (v : string) (l : list (string * Z)) (i : nat)
  (p : string) (m : Z) (h : heap) :
  nth_error h r = Some (OSums (mkFrame ["Time_Interval_Label"; v] l)) ->
  nth_error l i = Some (p, m) ->
  runs (loc_label r i) h p h.
Proof.
  intros H Hi. unfold loc_label.
  run_with ltac:(apply runs_deref; eassumption).
  cbn [rows]. rewrite Hi.
  unfold keys_of. cbn [columns rows]. rewrite String.eqb_refl.
  run_with ltac:(apply runs_ret).
  rewrite nth_error_map, Hi. apply runs_ret.
Qed.

Lemma label_sums_nil (l : list row) : label_sums l = [] -> l = [].
Proof.
  unfold label_sums, Pandas.group_sum_sorted. intro H.
  pose proof (PandasFacts.sort_perm (fun a b => String.leb (fst a) (fst b))
                (Pandas.group_sum String.eqb
                   (map (fun r => (Time_Interval_Label r, PASSENGER_COUNT r)) l))) as P.
  rewrite H in P. apply Permutation_nil in P.
  apply (PandasFacts.group_sum_nil String.eqb String.eqb_eq) in P.
  now apply map_eq_nil in P.
Qed.

Lemma runs_peak_and_off_peak (r : ref) (f : DataFrame) (h : heap) :
  nth_error h r = Some (OTxn f) ->
  has_column "Time_Interval_Label" f = true -> has_column "PASSENGER_COUNT" f = true ->
  exists p q h',
    runs (peak_and_off_peak r) h (p, q) h' /\ extends h h'
    /\ is_peak (rows f) p /\ is_off_peak (rows f) q.
Proof.
  intros H Hl Hp. unfold peak_and_off_peak.
  destruct (rows f) as [|x l] eqn:E.
  - exists "N/A", "N/A", h. repeat split; [|apply extends_refl].
    run_with ltac:(apply runs_is_empty_txn; eassumption).
    unfold empty. rewrite E. apply runs_ret.
  - assert (Hne : label_sums (x :: l) <> []) by (intro N; now apply label_sums_nil in N).
    assert (Hne' : map snd (label_sums (x :: l)) <> [])
      by (intro N; now apply map_eq_nil in N).
    destruct (ExtremaFacts.argmax_some _ Hne') as (i & m & Hi).
    destruct (ExtremaFacts.argmin_some _ Hne') as (j & n & Hj).
    destruct (ExtremaFacts.argmax_spec _ _ _ Hi) as (Hi' & _).
    destruct (ExtremaFacts.argmin_spec _ _ _ Hj) as (Hj' & _).
    rewrite nth_error_map in Hi', Hj'.
    destruct (nth_error (label_sums (x :: l)) i) as [[p m']|] eqn:Ei; [|discriminate].
    destruct (nth_error (label_sums (x :: l)) j) as [[q n']|] eqn:Ej; [|discriminate].
    simpl in Hi', Hj'. inversion Hi'; inversion Hj'; subst m' n'.
    exists p, q. eexists. split; [|split; [apply extends_snoc|]].
    + run_with ltac:(apply runs_is_empty_txn; eassumption).
      assert (Ef : empty f = false).
      { unfold empty. rewrite E. unfold has_column in Hl.
        destruct (columns f); [discriminate | reflexivity]. }
      rewrite Ef. cbn [negb].
      run_with ltac:(apply runs_groupby_label_sum; eassumption).
      rewrite E.
      assert (L : nth_error (h ++ [OSums (mkFrame ["Time_Interval_Label"; "PASSENGER_COUNT"]
                                           (label_sums (x :: l)))])%list (List.length h)
                  = Some (OSums (mkFrame ["Time_Interval_Label"; "PASSENGER_COUNT"]
                                         (label_sums (x :: l)))))
        by apply lookup_fresh.
      run_with ltac:(apply runs_is_empty_sums; exact L).
      assert (Eg : empty (mkFrame ["Time_Interval_Label"; "PASSENGER_COUNT"]
                                  (label_sums (x :: l))) = false).
      { unfold empty. cbn [rows columns].
        destruct (label_sums (x :: l)); [contradiction | reflexivity]. }
      rewrite Eg. cbn [negb].
      run_with ltac:(eapply runs_summary_counts; exact L).
      unfold Pandas.idxmax. rewrite Hi. cbn [option_map fst or_raise].
      run_with ltac:(apply runs_ret).
      run_with ltac:(eapply runs_loc_label; [exact L | exact Ei]).
      run_with ltac:(eapply runs_summary_counts; exact L).
      unfold Pandas.idxmin. rewrite Hj. cbn [option_map fst or_raise].
      run_with ltac:(apply runs_ret).
      run_with ltac:(eapply runs_loc_label; [exact L | exact Ej]).
      apply runs_ret.
    + split; [exists i, m | exists j, n]; auto.
Qed.

Lemma runs_value_counts (r : ref) (name : string) (field : row -> cell) (f : DataFrame) (h : heap) :
  nth_error h r = Some (OTxn f) -> has_column name f = true ->
  runs (value_counts r name field) h (List.length h)
       (h ++ [OCounts (mkFrame [name; "count"] (Pandas.value_counts (map field (rows f))))])%list.
Proof.
  intros H Hc. unfold value_counts.
  run_with ltac:(apply runs_getitem; eassumption). apply runs_alloc.
Qed.

Lemma runs_value_counts_normalize (r : ref) (name : string) (field : row -> cell)
  (f : DataFrame) (h : heap) :
  nth_error h r = Some (OTxn f) -> has_column name f = true ->
  runs (value_counts_normalize r name field) h (List.length h)
       (h ++ [OShares (mkFrame [name; "proportion"]
                         (Pandas.value_counts_normalize (map field (rows f))))])%list.
Proof.
  intros H Hc. unfold value_counts_normalize.
  run_with ltac:(apply runs_getitem; eassumption). apply runs_alloc.
Qed.

Lemma runs_px_pie_counts (r : ref) (values names title : string) (l : list (cell * Z)) (h : heap) :
  nth_error h r = Some (OCounts (mkFrame [names; values] l)) ->
  runs (px_pie r values names title) h
       (Pie title (map (fun kc => (fst kc, inject_Z (snd kc))) l)) h.
Proof.
  intro H. unfold px_pie.
  run_with ltac:(apply runs_deref; eassumption).
  unfold keys_of, values_of. cbn [columns rows]. rewrite !String.eqb_refl.
  run_with ltac:(apply runs_ret). run_with ltac:(apply runs_ret).
  rewrite map_map, PandasFacts.combine_map. apply runs_ret.
Qed.

Lemma runs_px_pie_shares (r : ref) (values names title : string) (l : list (cell * Q)) (h : heap) :
  nth_error h r = Some (OShares (mkFrame [names; values] l)) ->
  runs (px_pie r values names title) h (Pie title l) h.
Proof.
  intro H. unfold px_pie.
  run_with ltac:(apply runs_deref; eassumption).
  unfold keys_of, values_of. cbn [columns rows]. rewrite !String.eqb_refl.
  run_with ltac:(apply runs_ret). run_with ltac:(apply runs_ret).
  rewrite PandasFacts.combine_fst_snd. apply runs_ret.
Qed.

Lemma runs_px_bar (r : ref) (x y title : string) (l : list (string * Z)) (h : heap) :
  nth_error h r = Some (OSums (mkFrame [x; y] l)) ->
  runs (px_bar r x y title) h (Bar title l) h.
Proof.
  intro H. unfold px_bar.
  run_with ltac:(apply runs_deref; eassumption).
  unfold keys_of, values_of. cbn [columns rows]. rewrite !String.eqb_refl.
  run_with ltac:(apply runs_ret). run_with ltac:(apply runs_ret).
  rewrite PandasFacts.combine_fst_snd. apply runs_ret.
Qed.

Lemma runs_sort_values_label (r : ref) (v : string) (l : list (string * Z)) (h : heap) :
  nth_error h r = Some (OSums (mkFrame ["Time_Interval_Label"; v] l)) ->
  runs (sort_values_label r) h (List.length h)
       (h ++ [OSums (mkFrame ["Time_Interval_Label"; v]
                       (Pandas.sort (fun a b => String.leb (fst a) (fst b)) l))])%list.
Proof.
  intro H. unfold sort_values_label.
  run_with ltac:(apply runs_deref; eassumption).
  unfold has_column. cbn [columns existsb]. rewrite String.eqb_refl. cbn [orb rows].
  apply runs_alloc.
Qed.

Lemma runs_passenger_type_figure (r : ref) (f : DataFrame) (h : heap) :
  nth_error h r = Some (OTxn f) ->
  exists h', runs (passenger_type_figure r) h (passenger_figure f) h' /\ extends h h'.
Proof.
  intro H. unfold passenger_type_figure, passenger_figure.
  destruct (has_column "Passenger Type" f) eqn:E.
  - eexists. split.
    + run_with ltac:(apply runs_txn; eassumption). rewrite E.
      run_with ltac:(apply runs_value_counts_normalize; eassumption).
      run_with ltac:(apply runs_set_columns_fresh; reflexivity).
      apply runs_px_pie_shares. apply lookup_fresh.
    + apply extends_snoc.
  - exists h. split; [|apply extends_refl].
    run_with ltac:(apply runs_txn; eassumption). rewrite E. apply runs_ret.
Qed.

Lemma has_columns_In {R} (names : list string) (f : Frame R) (n : string) :
  has_columns names f = true -> In n names -> has_column n f = true.
Proof. unfold has_columns. rewrite forallb_forall. auto. Qed.

Lemma runs_update_dashboard (sd sc sr : Pandas.selection) (D : DataFrame) (h : heap) :
  nth_error h df = Some (OTxn D) ->
  has_columns dashboard_columns D = true ->
  let l := selected_rows sd sc sr (rows D) in
  exists p q h',
    runs (update_dashboard sd sc sr) h
         (mkCards (Pandas.sum (map PASSENGER_COUNT l)) (Pandas.sumQ (map FARE_COLLECTED l)) p q,
          Bar "Ridership by 3-Hour Interval" (label_sums l),
          Pie "Transaction Type Distribution" (payment_slices l),
          passenger_figure (mkFrame (columns D) l)) h'
    /\ is_peak l p /\ is_off_peak l q.
Proof.
  intros H Hcols l.
  assert (Hcol : forall n, In n dashboard_columns -> has_column n D = true)
    by (intros n; now apply has_columns_In).
  destruct (runs_filter_depot_city_route sd sc sr D h H)
    as (r & h1 & R1 & E1 & L1); try (intros _; apply Hcol; simpl; tauto).
  fold l in L1. set (F := mkFrame (columns D) l) in *.
  assert (HF : forall n, In n dashboard_columns -> has_column n F = true)
    by (intros n Hn; exact (Hcol n Hn)).
  destruct (runs_peak_and_off_peak r F h1 L1) as (p & q & h2 & R2 & E2 & Pk & Op);
    try (apply HF; simpl; tauto).
  assert (L2 : nth_error h2 r = Some (OTxn F)) by (eapply extends_lookup; eassumption).
  set (h3 := (h2 ++ [OCounts (mkFrame ["PAYMENT_MODE"; "Count"]
                                (Pandas.value_counts (map PAYMENT_MODE l)))])%list).
  assert (L3 : nth_error h3 r = Some (OTxn F)) by (now apply lookup_old).
  set (h4 := (h3 ++ [OSums (mkFrame ["Time_Interval_Label"; "PASSENGER_COUNT"]
                              (Pandas.group_sum String.eqb
                                 (map (fun r => (Time_Interval_Label r, PASSENGER_COUNT r)) l)))])%list).
  set (h5 := (h4 ++ [OSums (mkFrame ["Time_Interval_Label"; "PASSENGER_COUNT"]
                              (label_sums l))])%list).
  assert (L5 : nth_error h5 r = Some (OTxn F)) by (now apply lookup_old, lookup_old).
  destruct (runs_passenger_type_figure r F h5 L5) as (h6 & R6 & E6).
  exists p, q, h6. split; [|split; assumption].
  unfold update_dashboard.
  run_with ltac:(exact R1).
  run_with ltac:(apply runs_getitem; [exact L1 | apply HF; simpl; tauto]).
  run_with ltac:(apply runs_getitem; [exact L1 | apply HF; simpl; tauto]).
  run_with ltac:(exact R2).
  run_with ltac:(apply runs_value_counts; [exact L2 | apply HF; simpl; tauto]).
  run_with ltac:(apply runs_set_columns_fresh; reflexivity).
  run_with ltac:(apply runs_px_pie_counts; apply lookup_fresh).
  run_with ltac:(apply (runs_groupby_label_sum r false F h3 L3); apply HF; simpl; tauto).
  run_with ltac:(eapply runs_sort_values_label; apply lookup_fresh).
  run_with ltac:(eapply runs_px_bar; apply lookup_fresh).
  run_with ltac:(exact R6).
  apply runs_ret.
Qed.

(* ================================================================== *)
(** * The missing-file fallback *)
(* ================================================================== *)

Ltac fail_after tac := eapply fails_bind_r; [ solve [tac] | cbv beta ].

Lemma boot_fallback : boot None = [OTxn (mkFrame fallback_columns [])].
Proof. reflexivity. Qed.

Lemma fallback_filtered (sd sc sr : Pandas.selection) :
  exists r h',
    runs (filter_depot_city_route sd sc sr) (boot None) r h'
    /\ nth_error h' r = Some (OTxn (mkFrame fallback_columns [])).
Proof.
  destruct (runs_filter_depot_city_route sd sc sr (mkFrame fallback_columns []) (boot None))
    as (r & h1 & R1 & _ & L1); try reflexivity.
  exists r, h1. split; [exact R1 | exact L1].
Qed.

(** C1.  With the input file missing, the frame substituted for it has the
    eight file columns but none of the three derived ones, and both chart
    callbacks raise [KeyError] on it whatever is selected:
    [update_dashboard] at the time-band grouping, [update_area_chart] at the
    hour window.  (The documented behaviour is zero totals, "N/A" labels and
    empty series.) *)
Theorem fallback_dataset_breaks_callbacks :
  forall (sd sc sr : Pandas.selection) (start_hour end_hour : Z),
    result (update_dashboard sd sc sr) (boot None) = Raise (KeyError "Time_Interval_Label")
    /\ result (update_area_chart sd sc sr [start_hour; end_hour]) (boot None)
       = Raise (KeyError "Hour").
Proof.
  intros sd sc sr s e.
  destruct (fallback_filtered sd sc sr) as (r & h1 & R1 & L1).
  split.
  - change (fails (update_dashboard sd sc sr) (boot None) (KeyError "Time_Interval_Label")).
    unfold update_dashboard.
    fail_after ltac:(exact R1).
    fail_after ltac:(apply runs_getitem; [exact L1 | reflexivity]).
    fail_after ltac:(apply runs_getitem; [exact L1 | reflexivity]).
    unfold peak_and_off_peak.
    eapply fails_bind_r.
    { run_with ltac:(apply runs_is_empty_txn; exact L1). apply runs_ret. }
    cbv beta iota.
    fail_after ltac:(apply runs_value_counts; [exact L1 | reflexivity]).
    fail_after ltac:(apply runs_set_columns_fresh; reflexivity).
    fail_after ltac:(apply runs_px_pie_counts; apply lookup_fresh).
    apply fails_bind_l. unfold groupby_label_sum. apply fails_bind_l.
    eapply fails_getitem; [apply lookup_old; exact L1 | reflexivity].
  - change (fails (update_area_chart sd sc sr [s; e]) (boot None) (KeyError "Hour")).
    unfold update_area_chart.
    fail_after ltac:(exact R1).
    apply fails_bind_l.
    eapply fails_getitem; [exact L1 | reflexivity].
Qed.

(* ================================================================== *)
(** * The order of the dashboard outputs *)
(* ================================================================== *)

(** C2.  [update_dashboard] returns the bar chart of the time bands second
    and the pie chart of the payment modes third, while the decorator
    declares the pie-chart slot second and the temporal-chart slot third:
    the graph [pie-chart-transaction-type] receives the time-band bar chart
    and the graph [temporal-chart-ridership] receives the payment-mode pie
    chart. *)
Theorem dashboard_outputs_swapped :
  forall (sd sc sr : Pandas.selection) (D : DataFrame) (h : heap),
    nth_error h df = Some (OTxn D) ->
    has_columns dashboard_columns D = true ->
    exists v,
      result (update_dashboard sd sc sr) h = Ok v
      /\ received ("pie-chart-transaction-type", "figure") (dashboard_updates v)
         = Some (Fig (Bar "Ridership by 3-Hour Interval"
                          (label_sums (selected_rows sd sc sr (rows D)))))
      /\ received ("temporal-chart-ridership", "figure") (dashboard_updates v)
         = Some (Fig (Pie "Transaction Type Distribution"
                          (payment_slices (selected_rows sd sc sr (rows D))))).
Proof.
  intros sd sc sr D h H Hc.
  destruct (runs_update_dashboard sd sc sr D h H Hc) as (p & q & h' & R & _).
  eexists. split; [eapply runs_result; exact R|]. split; reflexivity.
Qed.

Lemma dashboard_outputs_swapped_witness :
  exists v,
    result (update_dashboard None None None) (boot (Some three_tickets)) = Ok v
    /\ received ("pie-chart-transaction-type", "figure") (dashboard_updates v)
       = Some (Fig (Bar "Ridership by 3-Hour Interval" [("06-09 hrs", 15); ("18-21 hrs", 3)]))
    /\ received ("temporal-chart-ridership", "figure") (dashboard_updates v)
       = Some (Fig (Pie "Transaction Type Distribution"
                        [(Str "cash", inject_Z 2); (Str "upi", inject_Z 1)])).
Proof.
  exact (dashboard_outputs_swapped None None None _ (boot (Some three_tickets))
           eq_refl eq_refl).
Defined.

(* ================================================================== *)
(** * Filtering without a selection *)
(* ================================================================== *)

Lemma no_selection_idle (s : Pandas.selection) : no_selection s -> restricts s = false.
Proof. intros [->| ->]; reflexivity. Qed.

(** C6.  With an absent or empty selection on all three dimensions the
    filter statements do nothing: the frame the aggregations then read is
    the base dataset, columns and rows, and the computation cannot fail. *)
Theorem filter_without_selection_is_identity :
  forall (sd sc sr : Pandas.selection) (D : DataFrame) (h : heap),
    nth_error h df = Some (OTxn D) ->
    no_selection sd -> no_selection sc -> no_selection sr ->
    exists filtered_df h',
      runs (filter_depot_city_route sd sc sr) h filtered_df h'
      /\ nth_error h' filtered_df = Some (OTxn D)
      /\ selected_rows sd sc sr (rows D) = rows D.
Proof.
  intros sd sc sr D h H Hd Hc Hr.
  apply no_selection_idle in Hd, Hc, Hr.
  assert (E : selected_rows sd sc sr (rows D) = rows D).
  { unfold selected_rows, depot_city_rows, admits. rewrite Hd, Hc, Hr.
    now rewrite !filter_true. }
  destruct (runs_filter_depot_city_route sd sc sr D h H)
    as (r & h1 & R1 & _ & L1); try (intro N; congruence).
  exists r, h1. split; [exact R1|]. split; [|exact E].
  rewrite L1, E. now destruct D.
Qed.

Lemma filter_without_selection_is_identity_witness :
  exists filtered_df h',
    runs (filter_depot_city_route None (Some []) None) (boot (Some three_tickets))
         filtered_df h'
    /\ nth_error h' filtered_df = Some (OTxn (loaded three_tickets))
    /\ selected_rows None (Some []) None (rows (loaded three_tickets))
       = rows (loaded three_tickets).
Proof.
  exact (filter_without_selection_is_identity None (Some []) None (loaded three_tickets)
           (boot (Some three_tickets)) eq_refl
           (or_introl eq_refl) (or_intror eq_refl) (or_introl eq_refl)).
Defined.

(* ================================================================== *)
(** * The base dataset is never written *)
(* ================================================================== *)

Lemma extends_head (o : object) (t h' : heap) :
  extends (o :: t) h' -> nth_error h' df = Some o.
Proof. intros [u ->]. reflexivity. Qed.

(** C8.  Whatever else the store holds and whatever is selected, each of
    the three callbacks, whether it returns or raises, leaves every object
    that existed before the call at its address and unchanged; the base
    dataset [df] in particular is the same frame afterwards. *)
Theorem callbacks_never_mutate_df :
  forall (D : DataFrame) (others : heap) (sd sc sr : Pandas.selection) (time_range : list Z),
    let h := OTxn D :: others in
    (extends h (final (set_route_options sd sc) h)
     /\ nth_error (final (set_route_options sd sc) h) df = Some (OTxn D))
    /\ (extends h (final (update_dashboard sd sc sr) h)
        /\ nth_error (final (update_dashboard sd sc sr) h) df = Some (OTxn D))
    /\ (extends h (final (update_area_chart sd sc sr time_range) h)
        /\ nth_error (final (update_area_chart sd sc sr time_range) h) df = Some (OTxn D)).
Proof.
  intros D others sd sc sr tr h.
  pose proof (proj1 (keeps_set_route_options h sd sc h (extends_refl h))) as H1.
  pose proof (proj1 (keeps_update_dashboard h sd sc sr h (extends_refl h))) as H2.
  pose proof (proj1 (keeps_update_area_chart h sd sc sr tr h (extends_refl h))) as H3.
  repeat split; try assumption; eapply extends_head; eassumption.
Qed.

(* ================================================================== *)
(** * The selection [[None]] *)
(* ================================================================== *)

Lemma restrict_none_list (r : ref) (name : string) (field : row -> cell) :
  restrict r name field (Some [None]) = restrict r name field None
  /\ restrict r name field (Some []) = restrict r name field None.
Proof. split; reflexivity. Qed.

(** C9.  In each of the three callbacks and on each dimension, the
    one-element selection [[None]] behaves exactly like an absent selection
    and like an empty one: same result, same final store. *)
Theorem none_list_is_no_selection :
  forall (s1 s2 : Pandas.selection) (time_range : list Z) (h : heap),
    (* set_route_options *)
    (set_route_options (Some [None]) s1 h = set_route_options None s1 h
     /\ set_route_options (Some [None]) s1 h = set_route_options (Some []) s1 h
     /\ set_route_options s1 (Some [None]) h = set_route_options s1 None h
     /\ set_route_options s1 (Some [None]) h = set_route_options s1 (Some []) h)
    (* update_dashboard *)
    /\ (update_dashboard (Some [None]) s1 s2 h = update_dashboard None s1 s2 h
        /\ update_dashboard (Some [None]) s1 s2 h = update_dashboard (Some []) s1 s2 h
        /\ update_dashboard s1 (Some [None]) s2 h = update_dashboard s1 None s2 h
        /\ update_dashboard s1 (Some [None]) s2 h = update_dashboard s1 (Some []) s2 h
        /\ update_dashboard s1 s2 (Some [None]) h = update_dashboard s1 s2 None h
        /\ update_dashboard s1 s2 (Some [None]) h = update_dashboard s1 s2 (Some []) h)
    (* update_area_chart *)
    /\ (update_area_chart (Some [None]) s1 s2 time_range h
        = update_area_chart None s1 s2 time_range h
        /\ update_area_chart (Some [None]) s1 s2 time_range h
           = update_area_chart (Some []) s1 s2 time_range h
        /\ update_area_chart s1 (Some [None]) s2 time_range h
           = update_area_chart s1 None s2 time_range h
        /\ update_area_chart s1 (Some [None]) s2 time_range h
           = update_area_chart s1 (Some []) s2 time_range h
        /\ update_area_chart s1 s2 (Some [None]) time_range h
           = update_area_chart s1 s2 None time_range h
        /\ update_area_chart s1 s2 (Some [None]) time_range h
           = update_area_chart s1 s2 (Some []) time_range h).
Proof.
  intros s1 s2 tr h.
  unfold set_route_options, update_dashboard, update_area_chart,
    filter_depot_city_route, filter_depot_city.
  repeat split; reflexivity.
Qed.

(* ================================================================== *)
(** * Grouped sums of the rows *)
(* ================================================================== *)

Section GroupedRows.
Context {K : Type} (eqb : K -> K -> bool) (leb : K -> K -> bool) (key : row -> K).
Hypothesis eqb_eq : forall a b, eqb a b = true <-> a = b.
Hypothesis leb_total : forall a b, leb a b = true \/ leb b a = true.
Hypothesis leb_trans : forall a b c, leb a b = true -> leb b c = true -> leb a c = true.

Lemma total_ridership_of (k : K) (l : list row) :
  total eqb k (map (fun r => (key r, PASSENGER_COUNT r)) l) = ridership_of eqb key k l.
Proof.
  unfold total, ridership_of.
  induction l as [|x l IH]; simpl; [reflexivity|].
  destruct (eqb k (key x)); simpl; unfold Pandas.sum in *; simpl; now rewrite IH.
Qed.

(** One entry per key that occurs among the rows, with the ridership of
    that key. *)
Lemma grouped_In (k : K) (t : Z) (l : list row) :
  In (k, t) (grouped eqb leb key l) <-> (exists r, In r l /\ key r = k) /\ t = ridership_of eqb key k l.
Proof.
  unfold grouped, Pandas.group_sum_sorted.
  assert (P := PandasFacts.sort_perm (fun a b => leb (fst a) (fst b))
                 (Pandas.group_sum eqb (map (fun r => (key r, PASSENGER_COUNT r)) l))).
  split.
  - intro H. apply (Permutation_in _ P) in H.
    apply (PandasFacts.group_sum_In eqb eqb_eq) in H. destruct H as [Hk ->].
    rewrite total_ridership_of. split; [|reflexivity].
    rewrite map_map in Hk. apply in_map_iff in Hk. destruct Hk as (r & E & Hr).
    now exists r.
  - intros [(r & Hr & E) ->]. apply (Permutation_in _ (Permutation_sym P)).
    apply (PandasFacts.group_sum_In eqb eqb_eq). rewrite total_ridership_of.
    split; [|reflexivity]. rewrite map_map. apply in_map_iff. now exists r.
Qed.

Lemma grouped_nodup (l : list row) : NoDup (map fst (grouped eqb leb key l)).
Proof.
  unfold grouped, Pandas.group_sum_sorted.
  eapply Permutation_NoDup.
  - apply Permutation_map, Permutation_sym, PandasFacts.sort_perm.
  - apply (PandasFacts.group_sum_nodup eqb eqb_eq).
Qed.

Lemma grouped_sorted (l : list row) :
  StronglySorted (fun a b => leb (fst a) (fst b) = true) (grouped eqb leb key l).
Proof.
  unfold grouped, Pandas.group_sum_sorted.
  apply (PandasFacts.sort_sorted (fun a b => leb (fst a) (fst b))).
  - intros a b. apply leb_total.
  - intros a b c. apply leb_trans.
Qed.
End GroupedRows.

Lemma Zleb_total (a b : Z) : (a <=? b) = true \/ (b <=? a) = true.
Proof. rewrite !Z.leb_le. lia. Qed.

Lemma Zleb_trans (a b c : Z) : (a <=? b) = true -> (b <=? c) = true -> (a <=? c) = true.
Proof. rewrite !Z.leb_le. lia. Qed.


(* ================================================================== *)
(** * The hour window *)
(* ================================================================== *)



(* ================================================================== *)
(** * Peak and off-peak time bands *)
(* ================================================================== *)

Lemma label_sums_grouped (l : list row) :
  label_sums l = grouped String.eqb String.leb Time_Interval_Label l.
Proof. reflexivity. Qed.

Lemma label_sums_In (band : string) (t : Z) (l : list row) :
  In (band, t) (label_sums l)
  <-> (exists r, In r l /\ Time_Interval_Label r = band) /\ t = band_ridership band l.
Proof. apply (grouped_In String.eqb String.leb Time_Interval_Label String.eqb_eq). Qed.

Lemma label_sums_sorted (l : list row) :
  StronglySorted (fun a b => String.leb (fst a) (fst b) = true) (label_sums l).
Proof.
  apply (grouped_sorted String.eqb String.leb Time_Interval_Label
           String.leb_total PandasFacts.string_leb_trans).
Qed.

(** What the first maximum of the label-ordered sums amounts to. *)
Lemma is_peak_spec (l : list row) (p : string) :
  l <> [] -> is_peak l p ->
  (exists r, In r l /\ Time_Interval_Label r = p)
  /\ (forall r, In r l ->
                band_ridership (Time_Interval_Label r) l <= band_ridership p l)
  /\ (forall r, In r l ->
                band_ridership (Time_Interval_Label r) l = band_ridership p l ->
                String.leb p (Time_Interval_Label r) = true).
Proof.
  intros Hne Hp. unfold is_peak in Hp.
  destruct l as [|x l']; [contradiction|]. set (l := x :: l') in *.
  destruct Hp as (i & m & Ha & Hn).
  destruct (ExtremaFacts.argmax_spec _ _ _ Ha) as (_ & Hmax & Hfirst).
  assert (Hin : In (p, m) (label_sums l)) by (eapply nth_error_In; exact Hn).
  apply label_sums_In in Hin. destruct Hin as [Hex Hm].
  assert (Hall : forall r, In r l ->
                   In (Time_Interval_Label r, band_ridership (Time_Interval_Label r) l)
                      (label_sums l)).
  { intros r Hr. apply label_sums_In. split; [now exists r | reflexivity]. }
  split; [exact Hex|]. split.
  - intros r Hr. rewrite <- Hm. apply Hmax.
    apply in_map_iff. eexists. split; [|apply (Hall r Hr)]. reflexivity.
  - intros r Hr Heq.
    destruct (In_nth_error _ _ (Hall r Hr)) as [j Hj].
    rewrite Heq, <- Hm in Hj.
    destruct (Nat.lt_trichotomy j i) as [Hlt|[->|Hgt]].
    + exfalso. assert (m < m); [|lia].
      apply (Hfirst j m Hlt). rewrite nth_error_map, Hj. reflexivity.
    + rewrite Hn in Hj. inversion Hj. apply PandasFacts.string_leb_refl.
    + apply (PandasFacts.sorted_nth _ _ (label_sums_sorted l) i j
               (p, m) (Time_Interval_Label r, m) Hgt Hn Hj).
Qed.

Lemma is_off_peak_spec (l : list row) (q : string) :
  l <> [] -> is_off_peak l q ->
  (exists r, In r l /\ Time_Interval_Label r = q)
  /\ (forall r, In r l ->
                band_ridership q l <= band_ridership (Time_Interval_Label r) l)
  /\ (forall r, In r l ->
                band_ridership (Time_Interval_Label r) l = band_ridership q l ->
                String.leb q (Time_Interval_Label r) = true).
Proof.
  intros Hne Hq. unfold is_off_peak in Hq.
  destruct l as [|x l']; [contradiction|]. set (l := x :: l') in *.
  destruct Hq as (i & m & Ha & Hn).
  destruct (ExtremaFacts.argmin_spec _ _ _ Ha) as (_ & Hmin & Hfirst).
  assert (Hin : In (q, m) (label_sums l)) by (eapply nth_error_In; exact Hn).
  apply label_sums_In in Hin. destruct Hin as [Hex Hm].
  assert (Hall : forall r, In r l ->
                   In (Time_Interval_Label r, band_ridership (Time_Interval_Label r) l)
                      (label_sums l)).
  { intros r Hr. apply label_sums_In. split; [now exists r | reflexivity]. }
  split; [exact Hex|]. split.
  - intros r Hr. rewrite <- Hm. apply Hmin.
    apply in_map_iff. eexists. split; [|apply (Hall r Hr)]. reflexivity.
  - intros r Hr Heq.
    destruct (In_nth_error _ _ (Hall r Hr)) as [j Hj].
    rewrite Heq, <- Hm in Hj.
    destruct (Nat.lt_trichotomy j i) as [Hlt|[->|Hgt]].
    + exfalso. assert (m < m); [|lia].
      apply (Hfirst j m Hlt). rewrite nth_error_map, Hj. reflexivity.
    + rewrite Hn in Hj. inversion Hj. apply PandasFacts.string_leb_refl.
    + apply (PandasFacts.sorted_nth _ _ (label_sums_sorted l) i j
               (q, m) (Time_Interval_Label r, m) Hgt Hn Hj).
Qed.




(* ================================================================== *)
(** * The passenger-type distribution *)
(* ================================================================== *)

Lemma sum_ones (l : list cell) :
  Pandas.sum (map snd (map (fun c : cell => (c, 1)) l)) = Z.of_nat (List.length l).
Proof.
  induction l as [|x l IH]; [reflexivity|].
  unfold Pandas.sum in *. cbn [map snd fold_right List.length]. rewrite IH. lia.
Qed.

Lemma total_ones (v : cell) (l : list cell) :
  total cell_eqb v (map (fun c : cell => (c, 1)) l)
  = Z.of_nat (List.length (filter (cell_eqb v) l)).
Proof.
  unfold total.
  induction l as [|x l IH]; [reflexivity|].
  cbn [map filter fst]. destruct (cell_eqb v x).
  - unfold Pandas.sum in *. cbn [map snd fold_right List.length]. rewrite IH. lia.
  - exact IH.
Qed.

Lemma filter_dropna (v : cell) (l : list cell) :
  v <> NaN -> filter (cell_eqb v) (Pandas.dropna l) = filter (cell_eqb v) l.
Proof.
  intro Hv. unfold Pandas.dropna. induction l as [|x l IH]; [reflexivity|].
  simpl. destruct x; simpl; rewrite IH; try reflexivity.
  destruct v; try reflexivity. contradiction.
Qed.

Lemma dropna_In (v : cell) (l : list cell) :
  In v (Pandas.dropna l) <-> v <> NaN /\ In v l.
Proof.
  unfold Pandas.dropna. rewrite filter_In. split.
  - intros [Hin Hn]. split; [|exact Hin]. intros ->. discriminate.
  - intros [Hn Hin]. split; [exact Hin|]. destruct v; try reflexivity. contradiction.
Qed.

Lemma value_counts_perm (col : list cell) :
  Permutation (Pandas.value_counts col)
              (Pandas.group_sum cell_eqb (map (fun c => (c, 1)) (Pandas.dropna col))).
Proof. apply PandasFacts.sort_perm. Qed.

Lemma value_counts_In (v : cell) (c : Z) (col : list cell) :
  In (v, c) (Pandas.value_counts col) <-> (v <> NaN /\ In v col) /\ c = occurrences v col.
Proof.
  assert (P := value_counts_perm col).
  assert (G := PandasFacts.group_sum_In cell_eqb cell_eqb_eq v c
                 (map (fun c => (c, 1)) (Pandas.dropna col))).
  rewrite map_map, map_id, total_ones in G. unfold occurrences.
  split.
  - intro H. apply (Permutation_in _ P) in H. apply G in H. destruct H as [Hin ->].
    apply dropna_In in Hin. split; [exact Hin|]. now rewrite filter_dropna.
  - intros [Hin ->]. apply (Permutation_in _ (Permutation_sym P)). apply G.
    split; [now apply dropna_In|]. now rewrite filter_dropna.
Qed.

Lemma value_counts_total (col : list cell) :
  Pandas.sum (map snd (Pandas.value_counts col)) = known col.
Proof.
  rewrite (PandasFacts.sum_perm _ _ (Permutation_map snd (value_counts_perm col))).
  rewrite (PandasFacts.group_sum_total cell_eqb). apply sum_ones.
Qed.

Lemma value_counts_normalize_In (v : cell) (q : Q) (col : list cell) :
  In (v, q) (Pandas.value_counts_normalize col)
  <-> (v <> NaN /\ In v col) /\ q = Qmake (occurrences v col) (Z.to_pos (known col)).
Proof.
  unfold Pandas.value_counts_normalize. rewrite value_counts_total, in_map_iff. split.
  - intros ([v' c] & E & Hin). cbn [fst snd] in E. inversion E; subst.
    apply value_counts_In in Hin. destruct Hin as [Hv ->]. now split.
  - intros [Hv ->]. exists (v, occurrences v col). split; [reflexivity|].
    now apply value_counts_In.
Qed.

Lemma value_counts_normalize_sum (col : list cell) :
  0 < known col -> Pandas.sumQ (map snd (Pandas.value_counts_normalize col)) == 1.
Proof.
  intro Hk. unfold Pandas.value_counts_normalize. rewrite map_map. cbn [snd].
  rewrite ExtremaFacts.sumQ_shares, value_counts_total.
  now apply ExtremaFacts.Qmake_self.
Qed.

Lemma value_counts_normalize_nil (col : list cell) :
  known col = 0 -> Pandas.value_counts_normalize col = [].
Proof.
  intro Hk. destruct (Pandas.value_counts_normalize col) as [|[v q] l] eqn:E; [reflexivity|].
  assert (Hin : In (v, q) (Pandas.value_counts_normalize col)) by (rewrite E; now left).
  apply value_counts_normalize_In in Hin. destruct Hin as [[Hn Hin] _].
  assert (Hd : In v (Pandas.dropna col)) by now apply dropna_In.
  unfold known in Hk. destruct (Pandas.dropna col); [contradiction | discriminate].
Qed.

(** C5, as stated, fails.  The passenger-type column is present and the
    selected subset has a row, but the only passenger type is missing:
    [value_counts] drops it, the distribution is empty and its fractions sum
    to 0, not to 1. *)
Lemma passenger_shares_of_missing_types :
  has_column "Passenger Type" (loaded untyped_ticket) = true
  /\ selected_rows None None None (rows (loaded untyped_ticket)) <> []
  /\ passenger_chart_of (result (update_dashboard None None None)
                           (boot (Some untyped_ticket)))
     = Some (Pie "Passenger Type Distribution" [])
  /\ ~ slice_sum (Pie "Passenger Type Distribution" []) == 1.
Proof.
  repeat split; try reflexivity; [discriminate|].
  intro H. vm_compute in H. discriminate.
Qed.

(** C5, amended.  For a dataset with the columns the callback reads and any
    selection, with exact rational arithmetic for the fractions: if the
    dataset has no passenger-type column the fourth output is the empty
    dict, which is not a figure; if it has one, the output is the pie whose
    slices are exactly the distinct non-missing passenger types of the
    selected rows, each with its number of rows divided by the number of
    selected rows whose type is not missing; the fractions sum to 1 when at
    least one selected row has a passenger type, and there are no slices
    otherwise. *)
Theorem passenger_type_distribution :
  forall (sd sc sr : Pandas.selection) (D : DataFrame) (h : heap),
    nth_error h df = Some (OTxn D) ->
    has_columns dashboard_columns D = true ->
    let types := map Passenger_Type (selected_rows sd sc sr (rows D)) in
    exists chart,
      passenger_chart_of (result (update_dashboard sd sc sr) h) = Some chart
      /\ (has_column "Passenger Type" D = false ->
          chart = EmptyDict /\ forall title, chart <> Pie title [])
      /\ (has_column "Passenger Type" D = true ->
          exists slices,
            chart = Pie "Passenger Type Distribution" slices
            /\ (forall v q, In (v, q) slices
                            <-> (v <> NaN /\ In v types)
                                /\ q = Qmake (occurrences v types) (Z.to_pos (known types)))
            /\ (0 < known types -> Pandas.sumQ (map snd slices) == 1)
            /\ (known types = 0 -> slices = [])).
Proof.
  intros sd sc sr D h H Hc types.
  destruct (runs_update_dashboard sd sc sr D h H Hc) as (p & q & h' & R & _).
  eexists. split; [rewrite (runs_result _ _ _ _ R); reflexivity|].
  unfold passenger_figure, has_column. cbn [columns rows]. fold (has_column "Passenger Type" D).
  split.
  - intros ->. split; [reflexivity | discriminate].
  - intros ->. exists (passenger_slices (selected_rows sd sc sr (rows D))).
    unfold passenger_slices. fold types. split; [reflexivity|]. split; [|split].
    + intros v q'. apply value_counts_normalize_In.
    + apply value_counts_normalize_sum.
    + apply value_counts_normalize_nil.
Qed.

Lemma passenger_type_distribution_witness :
  exists chart,
    passenger_chart_of (result (update_dashboard None None None)
                          (boot (Some three_tickets))) = Some chart
    /\ chart = Pie "Passenger Type Distribution"
                   [(Str "general", 2 # 3); (Str "student", 1 # 3)]
    /\ slice_sum chart == 1.
Proof.
  destruct (passenger_type_distribution None None None (loaded three_tickets)
              (boot (Some three_tickets)) eq_refl eq_refl)
    as (chart & R & _).
  exists chart. split; [exact R|].
  vm_compute in R. inversion R. split; reflexivity.
Defined.

(* ================================================================== *)
(** * The dropdown option lists *)
(* ================================================================== *)

Lemma unique_In (c : cell) (l : list cell) : In c (Pandas.unique l) <-> In c l.
Proof.
  induction l as [|x l IH]; simpl; [tauto|].
  rewrite filter_In, IH. split.
  - intros [E|[Hin _]]; auto.
  - intros [E|Hin]; [now left|].
    destruct (cell_eqb x c) eqn:E.
    + left. now apply cell_eqb_eq.
    + right. now split.
Qed.

(** An entry of a city or depot option list comes from a string cell of the
    column whose trimmed text is not empty, and every such cell gives one. *)
Lemma clean_options_In (e : entry) (col : list cell) :
  In e (clean_options col)
  <-> exists s, In (Str s) col /\ Py.strip s <> "" /\ e = mkEntry (Py.strip s) (Py.strip s).
Proof.
  unfold clean_options. rewrite in_map_iff. split.
  - intros (c & E & Hin). apply filter_In in Hin. destruct Hin as [Hin Hc].
    apply andb_true_iff in Hc. destruct Hc as [Hs Hb].
    destruct c as [|s|z|f]; try discriminate. exists s.
    apply unique_In, dropna_In in Hin. destruct Hin as [_ Hin].
    cbn [str] in *. split; [exact Hin|]. split; [|now symmetry].
    intro N. rewrite N in Hb. discriminate.
  - intros (s & Hin & Hb & ->). exists (Str s). split; [reflexivity|].
    apply filter_In. split.
    + apply unique_In, dropna_In. split; [discriminate | exact Hin].
    + cbn [isinstance_str str andb]. apply negb_true_iff.
      destruct (String.eqb (Py.strip s) "") eqn:E; [|reflexivity].
      apply String.eqb_eq in E. contradiction.
Qed.

Lemma route_names_In (name : string) (l : list row) :
  In name (route_names l)
  <-> exists r, In r l /\ ROUTE_NAME r <> NaN /\ name = Py.strip (str (ROUTE_NAME r)).
Proof.
  unfold route_names.
  assert (P := PandasFacts.sort_perm String.leb
                 (map (fun c => Py.strip (str c))
                      (filter notna (Pandas.unique (map ROUTE_NAME l))))).
  split.
  - intro H. apply (Permutation_in _ P) in H.
    apply in_map_iff in H. destruct H as (c & E & Hin).
    apply filter_In in Hin. destruct Hin as [Hin Hn].
    apply unique_In, in_map_iff in Hin. destruct Hin as (r & Er & Hr).
    exists r. subst c. split; [exact Hr|]. split; [|now symmetry].
    intro N. rewrite N in Hn. discriminate.
  - intros (r & Hr & Hn & ->). apply (Permutation_in _ (Permutation_sym P)).
    apply in_map_iff. exists (ROUTE_NAME r). split; [reflexivity|].
    apply filter_In. split.
    + apply unique_In, in_map_iff. now exists r.
    + destruct (ROUTE_NAME r); try reflexivity. contradiction.
Qed.

(** C10.  For a dataset with the three name columns whose route column is
    typed as [read_csv] types it (strings, integers without a gap, or
    floats): the route options are exactly the trimmed texts of the route
    names of the depot/city-filtered rows that are not missing, so a route
    name made of whitespace only (the blank, the tab, the no-break space and
    the other characters [strip] removes) is kept, as the empty string, and
    so is a numeric one, as the text [str] gives for it; the city and depot
    options are exactly the trimmed texts of the string cells of their
    column whose trimmed text is not empty, so blank, numeric and missing
    cells give no option. *)
Theorem route_options_keep_blank_names :
  forall (sd sc : Pandas.selection) (D : DataFrame) (h : heap),
    nth_error h df = Some (OTxn D) ->
    has_columns route_columns D = true ->
    typed_column (map ROUTE_NAME (rows D)) ->
    let subset := depot_city_rows sd sc (rows D) in
    (exists options,
        result (set_route_options sd sc) h = Ok (options, [])
        /\ (forall e, In e options
                      <-> exists r, In r subset /\ ROUTE_NAME r <> NaN
                                    /\ e = mkEntry (Py.strip (str (ROUTE_NAME r)))
                                                   (Py.strip (str (ROUTE_NAME r))))
        /\ (forall r s, In r subset -> ROUTE_NAME r = Str s -> Py.strip s = "" ->
                        In (mkEntry "" "") options))
    /\ (exists cities,
           result city_options h = Ok cities
           /\ forall e, In e cities
                        <-> exists s, In (Str s) (map CITY_NAME (rows D))
                                      /\ Py.strip s <> ""
                                      /\ e = mkEntry (Py.strip s) (Py.strip s))
    /\ (exists depots,
           result depot_options h = Ok depots
           /\ forall e, In e depots
                        <-> exists s, In (Str s) (map DEPOT_NAME (rows D))
                                      /\ Py.strip s <> ""
                                      /\ e = mkEntry (Py.strip s) (Py.strip s)).
Proof.
  intros sd sc D h H Hc _ subset.
  assert (Hcol : forall n, In n route_columns -> has_column n D = true)
    by (intros n; now apply has_columns_In).
  assert (Hd : has_column "DEPOT_NAME" D = true) by (apply Hcol; simpl; tauto).
  assert (Hci : has_column "CITY_NAME" D = true) by (apply Hcol; simpl; tauto).
  assert (Hr : has_column "ROUTE_NAME" D = true) by (apply Hcol; simpl; tauto).
  split; [|split].
  - destruct (runs_set_route_options sd sc D h H Hd Hci Hr) as (h' & R).
    fold subset in R.
    assert (Hopt : forall e,
               In e (map (fun i => mkEntry i i) (route_names subset))
               <-> exists r, In r subset /\ ROUTE_NAME r <> NaN
                             /\ e = mkEntry (Py.strip (str (ROUTE_NAME r)))
                                            (Py.strip (str (ROUTE_NAME r)))).
    { intro e. rewrite in_map_iff. split.
      - intros (n & <- & Hn). apply route_names_In in Hn.
        destruct Hn as (r & Hr' & Hna & ->). now exists r.
      - intros (r & Hr' & Hna & ->). eexists. split; [reflexivity|].
        apply route_names_In. now exists r. }
    exists (map (fun i => mkEntry i i) (route_names subset)). split; [|split].
    + rewrite (runs_result _ _ _ _ R). destruct subset; reflexivity.
    + exact Hopt.
    + intros r s Hin Hs Hb. apply Hopt. exists r. split; [exact Hin|].
      rewrite Hs. cbn [str]. rewrite Hb. split; [discriminate | reflexivity].
  - exists (clean_options (map CITY_NAME (rows D))). split.
    + apply (runs_result _ _ _ h). unfold city_options.
      run_with ltac:(apply runs_getitem; eassumption). apply runs_ret.
    + intro e. apply clean_options_In.
  - exists (clean_options (map DEPOT_NAME (rows D))). split.
    + apply (runs_result _ _ _ h). unfold depot_options.
      run_with ltac:(apply runs_getitem; eassumption). apply runs_ret.
    + intro e. apply clean_options_In.
Qed.

(** A table with a blank route name, a blank depot and a numeric city: the
    blank route is offered as the empty string, the blank depot and the
    numeric city are not offered.  A table whose first depot and route are
    a no-break space only and whose cities are floats: the route is offered
    as the empty string, the depot and the cities are not offered.  And a
    route column of floats with a gap: each float is offered as its text. *)
Lemma route_options_keep_blank_names_witness :
  (exists options,
      result (set_route_options None None) (boot (Some odd_names)) = Ok (options, [])
      /\ In (mkEntry "" "") options)
  /\ result city_options (boot (Some odd_names)) = Ok [mkEntry "A" "A"; mkEntry "B" "B"]
  /\ result depot_options (boot (Some odd_names)) = Ok [mkEntry "X" "X"]
  /\ (exists options cities depots,
         result (set_route_options None None) (boot (Some nbsp_names)) = Ok (options, [])
         /\ result city_options (boot (Some nbsp_names)) = Ok cities
         /\ result depot_options (boot (Some nbsp_names)) = Ok depots
         /\ map value options = [""; "R"]
         /\ cities = []
         /\ map value depots = ["Y"])
  /\ (exists options,
         result (set_route_options None None) (boot (Some float_routes)) = Ok (options, [])
         /\ map value options = ["1.0"; "12.0"]).
Proof.
  assert (T1 : typed_column (map ROUTE_NAME (rows (loaded odd_names)))).
  { left. intros c [<-|[<-|[<-|[]]]]; simpl; eauto. }
  assert (T2 : typed_column (map ROUTE_NAME (rows (loaded nbsp_names)))).
  { left. intros c [<-|[<-|[<-|[]]]]; simpl; eauto. }
  assert (T3 : typed_column (map ROUTE_NAME (rows (loaded float_routes)))).
  { right. right. intros c [<-|[<-|[<-|[]]]]; simpl; eauto. }
  destruct (route_options_keep_blank_names None None (loaded odd_names)
              (boot (Some odd_names)) eq_refl eq_refl T1)
    as ((options & R & _ & B) & _).
  destruct (route_options_keep_blank_names None None (loaded nbsp_names)
              (boot (Some nbsp_names)) eq_refl eq_refl T2)
    as ((options' & R' & _) & (cities & C & _) & (depots & P & _)).
  destruct (route_options_keep_blank_names None None (loaded float_routes)
              (boot (Some float_routes)) eq_refl eq_refl T3)
    as ((options'' & R'' & _) & _).
  split; [|split; [reflexivity | split; [reflexivity | split]]].
  - exists options. split; [exact R|].
    eapply B; [left; reflexivity | reflexivity | reflexivity].
  - exists options', cities, depots.
    split; [exact R'|]. split; [exact C|]. split; [exact P|].
    vm_compute in R', C, P. inversion R'. inversion C. inversion P.
    repeat split; reflexivity.
  - exists options''. split; [exact R''|].
    vm_compute in R''. inversion R''. reflexivity.
Defined.

(* ================================================================== *)
(** * Duplicate route options *)
(* ================================================================== *)

(** C4.  [set_route_options] removes duplicates before it trims: a route
    that occurs in the data both as "R1" and as "R1 " is offered twice, so
    the option list is not free of duplicates. *)
Theorem route_options_repeat_padded_name :
  result (set_route_options None None) (boot (Some padded_routes))
  = Ok ([mkEntry "R1" "R1"; mkEntry "R1" "R1"], [])
  /\ ~ NoDup [mkEntry "R1" "R1"; mkEntry "R1" "R1"].
Proof.
  split; [reflexivity|].
  intro H. inversion H as [|? ? Hn _]. apply Hn. now left.
Qed.

(* ================================================================== *)
(** * Loading: the derived columns *)
(* ================================================================== *)

Lemma runs_setitem (r : ref) (name : string) (update : row -> row) (f : DataFrame) (h : heap) :
  nth_error h r = Some (OTxn f) ->
  runs (setitem r name update) h tt
       (update_nth r (OTxn (mkFrame (assigned_columns name (columns f))
                                    (map update (rows f)))) h).
Proof.
  intro H. unfold setitem.
  run_with ltac:(apply runs_txn; eassumption). reflexivity.
Qed.

Lemma assigned_columns_has (name : string) (cols : list string) :
  existsb (String.eqb name) (assigned_columns name cols) = true.
Proof.
  unfold assigned_columns. destruct (existsb (String.eqb name) cols) eqn:E; [exact E|].
  rewrite existsb_app. simpl. rewrite String.eqb_refl. now rewrite orb_true_r.
Qed.

Lemma assigned_columns_keeps (name n : string) (cols : list string) :
  existsb (String.eqb n) cols = true ->
  existsb (String.eqb n) (assigned_columns name cols) = true.
Proof.
  intro H. unfold assigned_columns. destruct (existsb (String.eqb name) cols); [exact H|].
  rewrite existsb_app, H. reflexivity.
Qed.

Lemma assigned_columns_nodup (name : string) (cols : list string) :
  NoDup cols -> NoDup (assigned_columns name cols).
Proof.
  intro H. unfold assigned_columns.
  destruct (existsb (String.eqb name) cols) eqn:E; [exact H|].
  apply NoDup_app; [exact H | repeat constructor; intros [] |].
  intros x Hx [Ex|[]]. subst x.
  assert (existsb (String.eqb name) cols = true); [|congruence].
  apply existsb_exists. exists name. split; [exact Hx | apply String.eqb_refl].
Qed.

(** The frame [load] leaves in [df], and that it cannot fail, when the file
    has a time stamp column. *)
Lemma runs_load (table : DataFrame) :
  has_column "TICKET_TIME_STAMP" table = true ->
  runs (load (Some table)) [] tt
       [OTxn (mkFrame
                (assigned_columns "Time_Interval_Label"
                   (assigned_columns "Time_Interval"
                      (assigned_columns "Hour"
                         (assigned_columns "TICKET_TIME_STAMP" (columns table)))))
                (map derive (rows table)))].
Proof.
  intro Hts. unfold load.
  run_with ltac:(apply runs_alloc). cbn [List.length app].
  run_with ltac:(apply runs_getitem; [reflexivity | exact Hts]).
  run_with ltac:(apply runs_setitem; reflexivity). cbn [update_nth df].
  run_with ltac:(apply runs_getitem;
                 [reflexivity | apply assigned_columns_has]).
  run_with ltac:(apply runs_setitem; reflexivity). cbn [update_nth df columns rows].
  run_with ltac:(apply runs_getitem; [reflexivity | apply assigned_columns_has]).
  run_with ltac:(apply runs_setitem; reflexivity). cbn [update_nth df columns rows].
  run_with ltac:(apply runs_getitem; [reflexivity | apply assigned_columns_has]).
  unfold runs. etransitivity; [apply runs_setitem; reflexivity|].
  cbn [update_nth df columns rows]. rewrite !map_map. reflexivity.
Qed.

(** X1.  When the file has a [TICKET_TIME_STAMP] column and every time
    stamp in it is a date-time with an hour from 0 to 23 (none missing, none
    that fails to parse), loading returns and leaves exactly one frame, the
    base dataset: it has every column of the file and the three derived
    ones, each once if the file's labels were distinct, and the file's rows
    in the same order.  Row by row the file's fields are untouched, [Hour]
    is the hour of the time stamp, [Time_Interval] is the multiple of three
    at or below it, less than three away, and the label is built from that
    interval. *)
Theorem load_derives_time_columns :
  forall table : DataFrame,
    has_column "TICKET_TIME_STAMP" table = true ->
    stamps_valid table ->
    exists D,
      load (Some table) [] = (Ok tt, [OTxn D])
      /\ (forall n, has_column n table = true -> has_column n D = true)
      /\ has_columns ["Hour"; "Time_Interval"; "Time_Interval_Label"] D = true
      /\ (NoDup (columns table) -> NoDup (columns D))
      /\ rows D = map derive (rows table)
      /\ forall raw,
          In raw (rows table) ->
          let r := derive raw in
          (DEPOT_NAME r, CITY_NAME r, ROUTE_NAME r, PASSENGER_COUNT r, FARE_COLLECTED r,
           PAYMENT_MODE r, TICKET_TIME_STAMP r, Passenger_Type r)
          = (DEPOT_NAME raw, CITY_NAME raw, ROUTE_NAME raw, PASSENGER_COUNT raw,
             FARE_COLLECTED raw, PAYMENT_MODE raw, TICKET_TIME_STAMP raw, Passenger_Type raw)
          /\ Hour r = ts_hour (TICKET_TIME_STAMP raw)
          /\ 0 <= Hour r < 24
          /\ Time_Interval r mod 3 = 0
          /\ Time_Interval r <= Hour r < Time_Interval r + 3
          /\ Time_Interval_Label r = interval_label (Time_Interval r).
Proof.
  intros table Hts Hv. eexists. split; [exact (runs_load table Hts)|].
  split; [|split; [|split; [|split; [reflexivity|]]]].
  - intros n Hn. unfold has_column in *. cbn [columns].
    now repeat apply assigned_columns_keeps.
  - unfold has_columns, has_column. cbn [forallb columns].
    rewrite assigned_columns_has.
    rewrite (assigned_columns_keeps _ "Time_Interval" _ (assigned_columns_has _ _)).
    rewrite (assigned_columns_keeps _ "Hour" _
               (assigned_columns_keeps _ "Hour" _ (assigned_columns_has _ _))).
    reflexivity.
  - intro Hn. cbn [columns]. now repeat apply assigned_columns_nodup.
  - intros raw Hraw r. subst r. specialize (Hv raw Hraw). unfold derive.
    cbn [set_Hour set_Time_Interval set_Time_Interval_Label DEPOT_NAME CITY_NAME
         ROUTE_NAME PASSENGER_COUNT FARE_COLLECTED PAYMENT_MODE TICKET_TIME_STAMP
         Passenger_Type Hour Time_Interval Time_Interval_Label].
    split; [reflexivity|]. split; [reflexivity|].
    set (hr := ts_hour (TICKET_TIME_STAMP raw)) in *.
    split; [exact Hv|]. split; [|split; [|reflexivity]].
    + apply Z.mod_mul. lia.
    + pose proof (Z.div_mod hr 3 ltac:(lia)). pose proof (Z.mod_pos_bound hr 3 ltac:(lia)). lia.
Qed.

Lemma load_derives_time_columns_witness :
  exists D,
    load (Some three_tickets) [] = (Ok tt, [OTxn D])
    /\ map Hour (rows D) = [7; 7; 20]
    /\ map Time_Interval_Label (rows D) = ["06-09 hrs"; "06-09 hrs"; "18-21 hrs"].
Proof.
  destruct (load_derives_time_columns three_tickets eq_refl) as (D & R & _ & _ & _ & E & _).
  - intros raw [<-|[<-|[<-|[]]]]; simpl; lia.
  - exists D. split; [exact R|]. rewrite E. split; reflexivity.
Defined.

(** X2.  A file without a [TICKET_TIME_STAMP] column is not a missing file:
    the [KeyError] of line 8 is not caught, so loading raises it instead of
    falling back to the empty dataset. *)
Theorem load_without_timestamp_raises :
  forall table : DataFrame,
    has_column "TICKET_TIME_STAMP" table = false ->
    result (load (Some table)) [] = Raise (KeyError "TICKET_TIME_STAMP").
Proof.
  intros table Hts.
  change (fails (load (Some table)) [] (KeyError "TICKET_TIME_STAMP")).
  unfold load.
  fail_after ltac:(apply runs_alloc).
  apply fails_bind_l. eapply fails_getitem; [reflexivity | exact Hts].
Qed.

Lemma load_without_timestamp_raises_witness :
  result (load (Some no_timestamp)) [] = Raise (KeyError "TICKET_TIME_STAMP").
Proof. exact (load_without_timestamp_raises no_timestamp eq_refl). Defined.

(** ** Labels and the order of the day *)

Lemma band_of_hour (hr : Z) : 0 <= hr < 24 -> In (hr / 3 * 3) day_bands.
Proof.
  intro H.
  assert (B : 0 <= hr / 3 < 8).
  { split; [apply Z.div_pos; lia | apply Z.div_lt_upper_bound; lia]. }
  unfold day_bands. simpl.
  assert (C : hr / 3 = 0 \/ hr / 3 = 1 \/ hr / 3 = 2 \/ hr / 3 = 3 \/ hr / 3 = 4
              \/ hr / 3 = 5 \/ hr / 3 = 6 \/ hr / 3 = 7) by lia.
  destruct C as [C|[C|[C|[C|[C|[C|[C|C]]]]]]]; rewrite C; simpl; tauto.
Qed.

Lemma day_bands_labels_ordered :
  forallb (fun a =>
             forallb (fun b =>
                        Bool.eqb (String.leb (interval_label a) (interval_label b)) (a <=? b))
                     day_bands)
          day_bands = true.
Proof. vm_compute. reflexivity. Qed.

(** X3.  For tickets at hours 0 to 23 the labels of two time bands compare,
    as strings, the way the bands compare in time, and equal labels mean the
    same band: sorting the bar chart by label (line 257) is sorting it
    chronologically. *)
Theorem label_order_is_chronological :
  forall raw1 raw2 : row,
    0 <= ts_hour (TICKET_TIME_STAMP raw1) < 24 ->
    0 <= ts_hour (TICKET_TIME_STAMP raw2) < 24 ->
    let r1 := derive raw1 in
    let r2 := derive raw2 in
    (String.leb (Time_Interval_Label r1) (Time_Interval_Label r2) = true
     <-> Time_Interval r1 <= Time_Interval r2)
    /\ (Time_Interval_Label r1 = Time_Interval_Label r2 <-> Time_Interval r1 = Time_Interval r2).
Proof.
  intros raw1 raw2 H1 H2 r1 r2. subst r1 r2.
  unfold derive. cbn [set_Hour set_Time_Interval set_Time_Interval_Label
    Hour Time_Interval Time_Interval_Label TICKET_TIME_STAMP].
  pose proof (band_of_hour _ H1) as B1. pose proof (band_of_hour _ H2) as B2.
  set (a := ts_hour (TICKET_TIME_STAMP raw1) / 3 * 3) in *.
  set (b := ts_hour (TICKET_TIME_STAMP raw2) / 3 * 3) in *.
  pose proof day_bands_labels_ordered as O. rewrite forallb_forall in O.
  assert (L : forall x y, In x day_bands -> In y day_bands ->
                String.leb (interval_label x) (interval_label y) = (x <=? y)).
  { intros x y Hx Hy. specialize (O x Hx). rewrite forallb_forall in O.
    specialize (O y Hy). now apply Bool.eqb_prop in O. }
  split.
  - rewrite (L a b B1 B2). apply Z.leb_le.
  - split; [|now intros ->].
    intro E. assert (a <= b /\ b <= a); [|lia]. split; apply Z.leb_le.
    + rewrite <- (L a b B1 B2), E. apply PandasFacts.string_leb_refl.
    + rewrite <- (L b a B2 B1), E. apply PandasFacts.string_leb_refl.
Qed.

Lemma label_order_is_chronological_witness :
  String.leb "09-12 hrs" "21-24 hrs" = true <-> 9 <= 21.
Proof.
  exact (proj1 (label_order_is_chronological
                  (csv_row NaN NaN NaN 0 0 NaN 10 NaN) (csv_row NaN NaN NaN 0 0 NaN 23 NaN)
                  ltac:(simpl; lia) ltac:(simpl; lia))).
Defined.

(* ================================================================== *)
(** * The dashboard: totals, bars and payment modes *)
(* ================================================================== *)

Lemma label_sums_total (l : list row) :
  Pandas.sum (map snd (label_sums l)) = Pandas.sum (map PASSENGER_COUNT l).
Proof.
  unfold label_sums, Pandas.group_sum_sorted.
  rewrite (PandasFacts.sum_perm _ _
             (Permutation_map snd
                (PandasFacts.sort_perm (fun a b => String.leb (fst a) (fst b)) _))).
  rewrite (PandasFacts.group_sum_total String.eqb). now rewrite map_map.
Qed.

Lemma sumQ_inject_Z (l : list Z) :
  Pandas.sumQ (map inject_Z l) == inject_Z (Pandas.sum l).
Proof.
  induction l as [|x l IH]; [reflexivity|].
  unfold Pandas.sum. cbn [map Pandas.sumQ fold_right]. fold (Pandas.sum l).
  unfold Pandas.sumQ in IH. rewrite IH. rewrite inject_Z_plus. reflexivity.
Qed.

Lemma value_counts_descending (col : list cell) :
  StronglySorted (fun a b => snd b <= snd a) (Pandas.value_counts col).
Proof.
  unfold Pandas.value_counts.
  assert (S := PandasFacts.sort_sorted (fun a b : cell * Z => snd b <=? snd a)
                 (fun a b => Zleb_total (snd b) (snd a))
                 (fun a b c H1 H2 => Zleb_trans (snd c) (snd b) (snd a) H2 H1)
                 (Pandas.group_sum cell_eqb (map (fun c => (c, 1)) (Pandas.dropna col)))).
  induction S as [|x l Hs IH Hx]; constructor; [exact IH|].
  rewrite Forall_forall in *. intros y Hy. apply Z.leb_le. now apply Hx.
Qed.

Lemma sum_filter_bounds {A} (f : A -> Z) (p : A -> bool) (l : list A) :
  (forall x, In x l -> 0 <= f x) ->
  0 <= Pandas.sum (map f (filter p l)) <= Pandas.sum (map f l).
Proof.
  intro H. induction l as [|x l IH]; [unfold Pandas.sum; simpl; lia|].
  assert (Hx : 0 <= f x) by (apply H; now left).
  assert (Hl : forall y, In y l -> 0 <= f y) by (intros y Hy; apply H; now right).
  specialize (IH Hl). cbn [filter map].
  destruct (p x); cbn [map]; unfold Pandas.sum in *; cbn [fold_right]; lia.
Qed.

Lemma selected_sum_bounds (f : row -> Z) (sd sc sr : Pandas.selection) (l : list row) :
  (forall r, In r l -> 0 <= f r) ->
  0 <= Pandas.sum (map f (selected_rows sd sc sr l)) <= Pandas.sum (map f l).
Proof.
  intro H. unfold selected_rows, depot_city_rows.
  set (l1 := filter (fun r => admits sd (DEPOT_NAME r)) l).
  set (l2 := filter (fun r => admits sc (CITY_NAME r)) l1).
  assert (H1 : forall r, In r l1 -> 0 <= f r)
    by (intros r Hr; apply H; now apply filter_In in Hr).
  assert (H2 : forall r, In r l2 -> 0 <= f r)
    by (intros r Hr; apply H1; now apply filter_In in Hr).
  pose proof (sum_filter_bounds f (fun r => admits sd (DEPOT_NAME r)) l H).
  pose proof (sum_filter_bounds f (fun r => admits sc (CITY_NAME r)) l1 H1).
  pose proof (sum_filter_bounds f (fun r => admits sr (ROUTE_NAME r)) l2 H2).
  fold l1 in H0. fold l2 in H3. lia.
Qed.

Lemma sumQ_whole (l : list row) :
  (forall r, In r l -> FARE_COLLECTED r = inject_Z (whole_fare r)) ->
  Pandas.sumQ (map FARE_COLLECTED l) == inject_Z (Pandas.sum (map whole_fare l)).
Proof.
  intro H. induction l as [|x l IH]; [reflexivity|].
  cbn [map]. unfold Pandas.sumQ, Pandas.sum in *. cbn [fold_right].
  rewrite IH by (intros r Hr; apply H; now right).
  rewrite (H x (or_introl eq_refl)) at 1. now rewrite inject_Z_plus.
Qed.

(** X4.  For a dataset with the columns the callback reads, whose counts
    are not negative and together stay below 2^63 and whose fares are whole,
    not negative and together below 2^53 (so that neither the 64-bit integer
    sum wraps nor the floating-point sum rounds), and for any selection:
    the ridership card shows the sum of [PASSENGER_COUNT] over the selected
    rows and the revenue card the sum of the fares, both within those
    bounds; every bar lies between zero and the ridership card and the bars
    add up to it; with nothing selected both cards show zero and there are
    no bars. *)
Theorem dashboard_totals :
  forall (sd sc sr : Pandas.selection) (D : DataFrame) (h : heap),
    nth_error h df = Some (OTxn D) ->
    has_columns dashboard_columns D = true ->
    counts_fit (rows D) ->
    fares_fit (rows D) ->
    let selected := selected_rows sd sc sr (rows D) in
    exists cards title bars pie chart,
      result (update_dashboard sd sc sr) h = Ok (cards, Bar title bars, pie, chart)
      /\ total_ridership cards = Pandas.sum (map PASSENGER_COUNT selected)
      /\ 0 <= total_ridership cards < 2 ^ 63
      /\ total_revenue cards == inject_Z (Pandas.sum (map whole_fare selected))
      /\ 0 <= Pandas.sum (map whole_fare selected) < 2 ^ 53
      /\ Pandas.sum (map snd bars) = total_ridership cards
      /\ (forall b, In b bars -> 0 <= snd b <= total_ridership cards)
      /\ (selected = [] ->
          total_ridership cards = 0 /\ total_revenue cards = 0%Q /\ bars = []).
Proof.
  intros sd sc sr D h H Hc [Hcn Hcs] [Hfw Hfs] selected.
  destruct (runs_update_dashboard sd sc sr D h H Hc) as (p & q & h' & R & _).
  fold selected in R.
  assert (Hsel : forall r, In r selected -> In r (rows D))
    by (intros r Hr; now apply selected_rows_In in Hr).
  pose proof (selected_sum_bounds PASSENGER_COUNT sd sc sr (rows D) Hcn) as Bc.
  pose proof (selected_sum_bounds whole_fare sd sc sr (rows D)
                (fun r Hr => proj2 (Hfw r Hr))) as Bf.
  fold selected in Bc, Bf.
  do 5 eexists. split; [eapply runs_result; exact R|].
  cbn [total_ridership total_revenue].
  split; [reflexivity|]. split; [lia|].
  split; [apply sumQ_whole; intros r Hr; apply Hfw; now apply Hsel|].
  split; [lia|]. split; [apply label_sums_total|]. split.
  - intros [band t] Hb. apply label_sums_In in Hb. destruct Hb as [_ ->]. cbn [snd].
    unfold band_ridership, ridership_of.
    apply sum_filter_bounds. intros r Hr. apply Hcn. now apply Hsel.
  - intros ->. repeat split; reflexivity.
Qed.

Lemma dashboard_totals_witness :
  exists cards title bars pie chart,
    result (update_dashboard None (Some [Some "A"]) None) (boot (Some three_tickets))
    = Ok (cards, Bar title bars, pie, chart)
    /\ total_ridership cards = 15
    /\ total_revenue cards == 30 # 1
    /\ Pandas.sum (map snd bars) = 15.
Proof.
  destruct (dashboard_totals None (Some [Some "A"]) None (loaded three_tickets)
              (boot (Some three_tickets)) eq_refl eq_refl)
    as (cards & title & bars & pie & chart & R & T & _ & V & _ & B & _).
  - split; [|vm_compute; reflexivity].
    intros r [<-|[<-|[<-|[]]]]; simpl; lia.
  - split; [|vm_compute; reflexivity].
    intros r [<-|[<-|[<-|[]]]]; split; try reflexivity; vm_compute; discriminate.
  - exists cards, title, bars, pie, chart. split; [exact R|].
    rewrite B, T, V. repeat split; reflexivity.
Defined.



(** X6.  The payment-mode chart is a pie with exactly one slice per distinct
    non-missing [PAYMENT_MODE] of the selected rows, sized by the number of
    selected rows with that mode; rows whose mode is missing are not
    counted, the slices add up to the number of rows that have a mode, and
    they come largest first. *)
Theorem payment_mode_distribution :
  forall (sd sc sr : Pandas.selection) (D : DataFrame) (h : heap),
    nth_error h df = Some (OTxn D) ->
    has_columns dashboard_columns D = true ->
    let modes := map PAYMENT_MODE (selected_rows sd sc sr (rows D)) in
    exists cards bars slices chart,
      result (update_dashboard sd sc sr) h
      = Ok (cards, bars, Pie "Transaction Type Distribution" slices, chart)
      /\ (forall v q,
             In (v, q) slices
             <-> (v <> NaN /\ In v modes) /\ q = inject_Z (occurrences v modes))
      /\ Pandas.sumQ (map snd slices) == inject_Z (known modes)
      /\ StronglySorted (fun a b => Qle (snd b) (snd a)) slices.
Proof.
  intros sd sc sr D h H Hc modes.
  destruct (runs_update_dashboard sd sc sr D h H Hc) as (p & q & h' & R & _).
  do 4 eexists. split; [eapply runs_result; exact R|].
  unfold payment_slices. fold modes. split; [|split].
  - intros v q'. rewrite in_map_iff. split.
    + intros ([v' c] & E & Hin). cbn [fst snd] in E. inversion E; subst.
      apply value_counts_In in Hin. destruct Hin as [Hv ->]. now split.
    + intros [Hv ->]. exists (v, occurrences v modes). split; [reflexivity|].
      now apply value_counts_In.
  - rewrite map_map. cbn [snd].
    rewrite <- (map_map snd inject_Z), sumQ_inject_Z, value_counts_total. reflexivity.
  - assert (S := value_counts_descending modes).
    induction S as [|x l Hs IH Hx]; cbn [map]; constructor; [exact IH|].
    rewrite Forall_forall in *. intros y Hy.
    apply in_map_iff in Hy. destruct Hy as (z & <- & Hz). cbn [snd].
    rewrite <- Zle_Qle. now apply Hx.
Qed.

Lemma payment_mode_distribution_witness :
  exists cards bars slices chart,
    result (update_dashboard None None None) (boot (Some one_band))
    = Ok (cards, bars, Pie "Transaction Type Distribution" slices, chart)
    /\ slices = [(Str "cash", inject_Z 1)].
Proof.
  destruct (payment_mode_distribution None None None (loaded one_band)
              (boot (Some one_band)) eq_refl eq_refl)
    as (cards & bars & slices & chart & R & _).
  exists cards, bars, slices, chart. split; [exact R|].
  vm_compute in R. now inversion R.
Defined.

(** X7.  When every selected row lies in the same time band, that band is
    both the peak and the off-peak label. *)
Theorem single_band_is_peak_and_off_peak :
  forall (sd sc sr : Pandas.selection) (D : DataFrame) (h : heap) (band : string),
    nth_error h df = Some (OTxn D) ->
    has_columns dashboard_columns D = true ->
    selected_rows sd sc sr (rows D) <> [] ->
    (forall r, In r (selected_rows sd sc sr (rows D)) -> Time_Interval_Label r = band) ->
    exists cards,
      cards_of (result (update_dashboard sd sc sr) h) = Some cards
      /\ peak_hour cards = band /\ off_peak_hour cards = band.
Proof.
  intros sd sc sr D h band H Hc Hne Hall.
  destruct (runs_update_dashboard sd sc sr D h H Hc) as (p & q & h' & R & Pk & Op).
  eexists. split; [rewrite (runs_result _ _ _ _ R); reflexivity|].
  cbn [peak_hour off_peak_hour].
  destruct (is_peak_spec _ p Hne Pk) as ((r & Hr & <-) & _).
  destruct (is_off_peak_spec _ q Hne Op) as ((r' & Hr' & <-) & _).
  split; now apply Hall.
Qed.

Lemma single_band_is_peak_and_off_peak_witness :
  exists cards,
    cards_of (result (update_dashboard None None None) (boot (Some one_band))) = Some cards
    /\ peak_hour cards = "12-15 hrs" /\ off_peak_hour cards = "12-15 hrs".
Proof.
  apply (single_band_is_peak_and_off_peak None None None (loaded one_band)
           (boot (Some one_band)) "12-15 hrs" eq_refl eq_refl).
  - discriminate.
  - intros r [<-|[<-|[]]]; reflexivity.
Defined.

(* ================================================================== *)
(** * What a selection keeps *)
(* ================================================================== *)

Lemma admits_matches (s : Pandas.selection) (c : cell) :
  admits s c = true <-> matches s c.
Proof.
  assert (I : forall l, Pandas.isin l c = true <-> exists t, c = Str t /\ In (Some t) l).
  { intro l. destruct c as [|x|z|f]; cbn [Pandas.isin];
      try (split; [discriminate | intros (t & E & _); discriminate]).
    - rewrite existsb_exists. split.
      + intros ([t|] & Hin & E); [|discriminate].
        apply String.eqb_eq in E. subst. now exists t.
      + intros (t & E & Hin). inversion E; subst. exists (Some t).
        split; [exact Hin | apply String.eqb_refl]. }
  unfold admits, restricts, matches.
  destruct s as [[|[x|] [|y l]]|]; cbn [truthy differs_from_none_list andb chosen];
    try tauto; apply I.
Qed.

Lemma filter_filter {A} (p q : A -> bool) (l : list A) :
  filter q (filter p l) = filter (fun x => p x && q x) l.
Proof.
  induction l as [|x l IH]; [reflexivity|].
  simpl. destruct (p x); simpl; [destruct (q x)|]; now rewrite IH.
Qed.

(** X8.  For a dataset with the three name columns and dropdown values made
    of option values (no [None] among several chosen values), the three
    filter statements together keep, in their original order, exactly the
    rows that pass every dimension at once: a dimension whose dropdown is
    absent, empty or [[None]] passes every row, and a dimension with chosen
    values passes the rows whose cell is a string equal to one of them, so
    rows whose cell is missing or numeric are dropped.  The columns are
    those of the base dataset. *)
Theorem filters_are_conjunctive :
  forall (sd sc sr : Pandas.selection) (D : DataFrame) (h : heap),
    nth_error h df = Some (OTxn D) ->
    has_columns route_columns D = true ->
    plain sd -> plain sc -> plain sr ->
    exists filtered_df h' F,
      runs (filter_depot_city_route sd sc sr) h filtered_df h'
      /\ nth_error h' filtered_df = Some (OTxn F)
      /\ columns F = columns D
      /\ rows F = filter (fun r => admits sd (DEPOT_NAME r) && admits sc (CITY_NAME r)
                                   && admits sr (ROUTE_NAME r)) (rows D)
      /\ forall r, In r (rows F)
                   <-> In r (rows D) /\ matches sd (DEPOT_NAME r)
                       /\ matches sc (CITY_NAME r) /\ matches sr (ROUTE_NAME r).
Proof.
  intros sd sc sr D h H Hc _ _ _.
  assert (Hcol : forall n, In n route_columns -> has_column n D = true)
    by (intros n; now apply has_columns_In).
  destruct (runs_filter_depot_city_route sd sc sr D h H)
    as (r & h1 & R1 & _ & L1); try (intros _; apply Hcol; simpl; tauto).
  exists r, h1. eexists. split; [exact R1|]. split; [exact L1|].
  cbn [columns rows]. split; [reflexivity|]. split.
  - unfold selected_rows, depot_city_rows. rewrite !filter_filter.
    apply filter_ext. intro a.
    destruct (admits sd (DEPOT_NAME a)), (admits sc (CITY_NAME a)),
      (admits sr (ROUTE_NAME a)); reflexivity.
  - intro x. rewrite selected_rows_In, !admits_matches. tauto.
Qed.

(** Depots "X" and the blank one chosen, on the table whose third row has
    no depot: the first two rows are kept, the row with the missing depot
    is dropped. *)
Lemma filters_are_conjunctive_witness :
  exists filtered_df h' F,
    runs (filter_depot_city_route (Some [Some "X"; Some "  "]) (Some [None]) None)
         (boot (Some odd_names)) filtered_df h'
    /\ nth_error h' filtered_df = Some (OTxn F)
    /\ map DEPOT_NAME (rows F) = [Str "X"; Str "  "]
    /\ map PASSENGER_COUNT (rows F) = [2; 3].
Proof.
  destruct (filters_are_conjunctive (Some [Some "X"; Some "  "]) (Some [None]) None
              (loaded odd_names) (boot (Some odd_names)) eq_refl eq_refl)
    as (r & h' & F & R & L & _ & E & _).
  - right. cbn [chosen]. intros [N|[N|[]]]; discriminate.
  - now left.
  - right. intros [].
  - exists r, h', F. split; [exact R|]. split; [exact L|]. rewrite E. split; reflexivity.
Defined.

(* ================================================================== *)
(** * The route options *)
(* ================================================================== *)

Lemma route_names_sorted (l : list row) :
  StronglySorted (fun a b => String.leb a b = true) (route_names l).
Proof.
  unfold route_names.
  apply (PandasFacts.sort_sorted String.leb String.leb_total PandasFacts.string_leb_trans).
Qed.

(** X9.  For a dataset with the three name columns and any depot and city
    selection, [set_route_options] returns options in ascending string
    order, each with its label equal to its value, together with an empty
    list as the new dropdown value; when no row passes the depot and city
    filters there are no options. *)
Theorem route_options_sorted_and_reset :
  forall (sd sc : Pandas.selection) (D : DataFrame) (h : heap),
    nth_error h df = Some (OTxn D) ->
    has_columns route_columns D = true ->
    exists options,
      result (set_route_options sd sc) h = Ok (options, [])
      /\ StronglySorted (fun a b => String.leb a b = true) (map value options)
      /\ (forall e, In e options -> label e = value e)
      /\ (depot_city_rows sd sc (rows D) = [] -> options = []).
Proof.
  intros sd sc D h H Hc.
  assert (Hcol : forall n, In n route_columns -> has_column n D = true)
    by (intros n; now apply has_columns_In).
  destruct (runs_set_route_options sd sc D h H) as (h' & R);
    try (apply Hcol; simpl; tauto).
  exists (map (fun i => mkEntry i i) (route_names (depot_city_rows sd sc (rows D)))).
  split; [|split; [|split]].
  - rewrite (runs_result _ _ _ _ R). now destruct (depot_city_rows sd sc (rows D)).
  - rewrite map_map. cbn [value]. rewrite map_id. apply route_names_sorted.
  - intros e He. apply in_map_iff in He. now destruct He as (i & <- & _).
  - now intros ->.
Qed.

Lemma route_options_sorted_and_reset_witness :
  exists options,
    result (set_route_options (Some [Some "X"]) None) (boot (Some three_tickets))
    = Ok (options, [])
    /\ map value options = ["1"].
Proof.
  destruct (route_options_sorted_and_reset (Some [Some "X"]) None (loaded three_tickets)
              (boot (Some three_tickets)) eq_refl eq_refl)
    as (options & R & _).
  exists options. split; [exact R|]. vm_compute in R. now inversion R.
Defined.

(** X10.  The emptiness test of line 180 comes before the route column is
    read: on a dataset that has the depot and city columns but no
    [ROUTE_NAME] column, [set_route_options] returns no options when no row
    passes the filters, and raises [KeyError] for [ROUTE_NAME] as soon as
    one does. *)
Theorem route_options_without_route_column :
  forall (sd sc : Pandas.selection) (D : DataFrame) (h : heap),
    nth_error h df = Some (OTxn D) ->
    has_column "DEPOT_NAME" D = true ->
    has_column "CITY_NAME" D = true ->
    has_column "ROUTE_NAME" D = false ->
    result (set_route_options sd sc) h
    = match depot_city_rows sd sc (rows D) with
      | [] => Ok ([], [])
      | _ => Raise (KeyError "ROUTE_NAME")
      end.
Proof.
  intros sd sc D h H Hd Hc Hr.
  destruct (runs_filter_depot_city sd sc D h H (fun _ => Hd) (fun _ => Hc))
    as (r1 & h1 & R1 & _ & L1).
  assert (Ecol : columns D <> []).
  { unfold has_column in Hd. destruct (columns D); [discriminate | discriminate]. }
  destruct (depot_city_rows sd sc (rows D)) as [|x l] eqn:E.
  - apply (runs_result _ _ _ h1). unfold set_route_options.
    run_with ltac:(exact R1).
    run_with ltac:(apply runs_is_empty_txn; exact L1).
    apply runs_ret.
  - change (fails (set_route_options sd sc) h (KeyError "ROUTE_NAME")).
    unfold set_route_options.
    fail_after ltac:(exact R1).
    fail_after ltac:(apply runs_is_empty_txn; exact L1).
    unfold empty. cbn [rows columns].
    destruct (columns D) as [|c cs] eqn:EC; [contradiction|].
    apply fails_bind_l. eapply fails_getitem; [exact L1|].
    unfold has_column in *. cbn [columns]. rewrite <- EC. exact Hr.
Qed.

Lemma route_options_without_route_column_witness :
  result (set_route_options None None) (boot (Some no_route_column))
  = Raise (KeyError "ROUTE_NAME")
  /\ result (set_route_options (Some [Some "Z"]) None) (boot (Some no_route_column))
     = Ok ([], []).
Proof.
  split.
  - exact (route_options_without_route_column None None (loaded no_route_column)
             (boot (Some no_route_column)) eq_refl eq_refl eq_refl eq_refl).
  - exact (route_options_without_route_column (Some [Some "Z"]) None (loaded no_route_column)
             (boot (Some no_route_column)) eq_refl eq_refl eq_refl eq_refl).
Defined.

(* ================================================================== *)
(** * The hour window: edges and totals *)
(* ================================================================== *)

Lemma empty_window (s e : Z) (l : list row) : e <= s -> filter (in_window s e) l = [].
Proof.
  intro H. induction l as [|x l IH]; [reflexivity|].
  simpl. rewrite IH. unfold in_window.
  destruct (s <=? Hour x) eqn:A; [|reflexivity].
  destruct (Hour x <? e) eqn:B; [|reflexivity].
  apply Z.leb_le in A. apply Z.ltb_lt in B. lia.
Qed.

Lemma whole_window (s e : Z) (l : list row) :
  (forall r, In r l -> s <= Hour r < e) -> filter (in_window s e) l = l.
Proof.
  intro H. induction l as [|x l IH]; [reflexivity|].
  simpl. rewrite IH by (intros r Hr; apply H; now right).
  unfold in_window.
  destruct (H x (or_introl eq_refl)) as [A B].
  apply Z.leb_le in A. apply Z.ltb_lt in B. now rewrite A, B.
Qed.

Lemma hourly_total (l : list row) :
  Pandas.sum (map snd (hourly l)) = Pandas.sum (map PASSENGER_COUNT l).
Proof.
  unfold hourly, Pandas.group_sum_sorted.
  rewrite (PandasFacts.sum_perm _ _
             (Permutation_map snd
                (PandasFacts.sort_perm (fun a b => (fst a <=? fst b)) _))).
  rewrite (PandasFacts.group_sum_total Z.eqb). now rewrite map_map.
Qed.

(** X11.  A window whose end is not after its start selects no hour: for a
    dataset with the columns the callback reads, [update_area_chart] then
    returns the area figure with no points, whatever is selected. *)
Theorem reversed_window_is_empty :
  forall (sd sc sr : Pandas.selection) (start_hour end_hour : Z) (D : DataFrame) (h : heap),
    nth_error h df = Some (OTxn D) ->
    has_columns area_columns D = true ->
    end_hour <= start_hour ->
    result (update_area_chart sd sc sr [start_hour; end_hour]) h
    = Ok (Area (area_title start_hour end_hour) (start_hour, end_hour) []).
Proof.
  intros sd sc sr s e D h H Hc Hle.
  assert (Hcol : forall n, In n area_columns -> has_column n D = true)
    by (intros n; now apply has_columns_In).
  destruct (runs_update_area_chart sd sc sr s e D h H) as (h' & R);
    try (apply Hcol; simpl; tauto).
  rewrite (runs_result _ _ _ _ R). now rewrite empty_window.
Qed.

Lemma reversed_window_is_empty_witness :
  result (update_area_chart None None None [12; 12]) (boot (Some three_tickets))
  = Ok (Area "Ridership Distribution from 12:00 to 12:00" (12, 12) []).
Proof.
  exact (reversed_window_is_empty None None None 12 12 (loaded three_tickets)
           (boot (Some three_tickets)) eq_refl eq_refl ltac:(lia)).
Defined.

(** X12.  For a dataset with the columns the callbacks read, whose counts
    are not negative and together stay below 2^63 (so that no 64-bit sum
    wraps), and for one selection handed to both callbacks: the points of
    the area chart add up to the ridership of the selected rows inside the
    window, which is at most what the ridership card of [update_dashboard]
    shows; and when every selected row lies inside the window, as with hours
    0 to 23 under the window from 0 to 24, the points add up to exactly the
    number on the ridership card. *)
Theorem area_chart_total :
  forall (sd sc sr : Pandas.selection) (start_hour end_hour : Z) (D : DataFrame) (h : heap),
    nth_error h df = Some (OTxn D) ->
    has_columns callback_columns D = true ->
    counts_fit (rows D) ->
    let selected := selected_rows sd sc sr (rows D) in
    exists title xrange points cards,
      result (update_area_chart sd sc sr [start_hour; end_hour]) h
      = Ok (Area title xrange points)
      /\ cards_of (result (update_dashboard sd sc sr) h) = Some cards
      /\ Pandas.sum (map snd points)
         = Pandas.sum (map PASSENGER_COUNT (filter (in_window start_hour end_hour) selected))
      /\ 0 <= Pandas.sum (map snd points) <= total_ridership cards
      /\ total_ridership cards < 2 ^ 63
      /\ ((forall r, In r selected -> start_hour <= Hour r < end_hour) ->
          Pandas.sum (map snd points) = total_ridership cards).
Proof.
  intros sd sc sr s e D h H Hc [Hcn Hcs] selected.
  assert (Hcol : forall n, In n callback_columns -> has_column n D = true)
    by (intros n; now apply has_columns_In).
  assert (Hd : has_columns dashboard_columns D = true).
  { unfold has_columns. apply forallb_forall. intros n Hn. apply Hcol.
    simpl in Hn |- *. tauto. }
  destruct (runs_update_area_chart sd sc sr s e D h H) as (h' & R);
    try (apply Hcol; simpl; tauto).
  destruct (runs_update_dashboard sd sc sr D h H Hd) as (p & q & h'' & R' & _).
  fold selected in R, R'.
  assert (Hsel : forall r, In r selected -> 0 <= PASSENGER_COUNT r)
    by (intros r Hr; apply Hcn; now apply selected_rows_In in Hr).
  pose proof (selected_sum_bounds PASSENGER_COUNT sd sc sr (rows D) Hcn) as Bc.
  pose proof (sum_filter_bounds PASSENGER_COUNT (in_window s e) selected Hsel) as Bw.
  fold selected in Bc.
  do 4 eexists. split; [eapply runs_result; exact R|].
  split; [rewrite (runs_result _ _ _ _ R'); reflexivity|].
  cbn [total_ridership]. rewrite hourly_total.
  split; [reflexivity|]. split; [lia|]. split; [lia|].
  intro Hall. now rewrite whole_window.
Qed.

Lemma area_chart_total_witness :
  exists title xrange points cards,
    result (update_area_chart None None None [0; 24]) (boot (Some three_tickets))
    = Ok (Area title xrange points)
    /\ cards_of (result (update_dashboard None None None) (boot (Some three_tickets)))
       = Some cards
    /\ Pandas.sum (map snd points) = 18
    /\ total_ridership cards = 18.
Proof.
  destruct (area_chart_total None None None 0 24 (loaded three_tickets)
              (boot (Some three_tickets)) eq_refl eq_refl)
    as (title & xrange & points & cards & R & C & T & _ & _ & A).
  - split; [|vm_compute; reflexivity].
    intros r [<-|[<-|[<-|[]]]]; simpl; lia.
  - exists title, xrange, points, cards. split; [exact R|]. split; [exact C|].
    rewrite <- A.
    + rewrite T. split; reflexivity.
    + intros r [<-|[<-|[<-|[]]]]; simpl; lia.
Defined.

(* ================================================================== *)
(** * Importing the module *)
(* ================================================================== *)

Lemma assigned_columns_other (name n : string) (cols : list string) :
  String.eqb n name = false ->
  existsb (String.eqb n) (assigned_columns name cols) = existsb (String.eqb n) cols.
Proof.
  intro E. unfold assigned_columns. destruct (existsb (String.eqb name) cols); [reflexivity|].
  rewrite existsb_app. cbn [existsb]. rewrite E. now rewrite !orb_false_r.
Qed.

Lemma derive_names (l : list row) :
  map DEPOT_NAME (map derive l) = map DEPOT_NAME l
  /\ map CITY_NAME (map derive l) = map CITY_NAME l.
Proof. split; rewrite map_map; reflexivity. Qed.

(** X13.  What importing the module does before any callback can run.  On
    a file with a [TICKET_TIME_STAMP] column whose time stamps are all
    date-times: without a [DEPOT_NAME] column the import raises [KeyError]
    for it (line 21), with it but without a [CITY_NAME] column it raises
    [KeyError] for that (line 28), and with both it returns the two option
    lists built from the file's own cells.  On a missing file it returns two
    empty option lists.  So the callbacks only ever run over a dataset that
    has the depot and the city column. *)
Theorem import_needs_name_columns :
  forall table : DataFrame,
    has_column "TICKET_TIME_STAMP" table = true ->
    stamps_valid table ->
    result (import_module (Some table)) []
    = (if has_column "DEPOT_NAME" table
       then if has_column "CITY_NAME" table
            then Ok (clean_options (map DEPOT_NAME (rows table)),
                     clean_options (map CITY_NAME (rows table)))
            else Raise (KeyError "CITY_NAME")
       else Raise (KeyError "DEPOT_NAME"))
    /\ result (import_module None) [] = Ok ([], []).
Proof.
  intros table Hts _. split; [|reflexivity].
  pose proof (runs_load table Hts) as R.
  set (D := mkFrame _ (map derive (rows table))) in R.
  assert (L : nth_error [OTxn D] df = Some (OTxn D)) by reflexivity.
  assert (Hn : forall n,
             String.eqb n "Time_Interval_Label" = false -> String.eqb n "Time_Interval" = false ->
             String.eqb n "Hour" = false -> String.eqb n "TICKET_TIME_STAMP" = false ->
             has_column n D = has_column n table).
  { intros n E1 E2 E3 E4. unfold has_column, D. cbn [columns].
    now rewrite !assigned_columns_other. }
  assert (Hd : has_column "DEPOT_NAME" D = has_column "DEPOT_NAME" table)
    by (apply Hn; reflexivity).
  assert (Hc : has_column "CITY_NAME" D = has_column "CITY_NAME" table)
    by (apply Hn; reflexivity).
  destruct (derive_names (rows table)) as [Ed Ec].
  unfold import_module.
  destruct (has_column "DEPOT_NAME" table) eqn:Fd.
  - destruct (has_column "CITY_NAME" table) eqn:Fc.
    + apply (runs_result _ _ _ [OTxn D]).
      run_with ltac:(exact R).
      unfold depot_options.
      eapply runs_bind.
      { run_with ltac:(apply runs_getitem; [exact L | exact Hd]). apply runs_ret. }
      cbv beta. unfold city_options.
      eapply runs_bind.
      { run_with ltac:(apply runs_getitem; [exact L | exact Hc]). apply runs_ret. }
      cbv beta. unfold D. cbn [rows]. rewrite Ed, Ec. apply runs_ret.
    + change (fails (import_module (Some table)) [] (KeyError "CITY_NAME")).
      unfold import_module.
      fail_after ltac:(exact R).
      eapply fails_bind_r.
      { unfold depot_options.
        run_with ltac:(apply runs_getitem; [exact L | exact Hd]). apply runs_ret. }
      cbv beta. apply fails_bind_l. unfold city_options. apply fails_bind_l.
      eapply fails_getitem; [exact L | exact Hc].
  - change (fails (import_module (Some table)) [] (KeyError "DEPOT_NAME")).
    unfold import_module.
    fail_after ltac:(exact R).
    apply fails_bind_l. unfold depot_options. apply fails_bind_l.
    eapply fails_getitem; [exact L | exact Hd].
Qed.

Lemma import_needs_name_columns_witness :
  result (import_module (Some no_depot_column)) [] = Raise (KeyError "DEPOT_NAME")
  /\ result (import_module (Some odd_names)) []
     = Ok ([mkEntry "X" "X"], [mkEntry "A" "A"; mkEntry "B" "B"]).
Proof.
  split.
  - refine (proj1 (import_needs_name_columns no_depot_column eq_refl _)).
    intros raw [<-|[]]; simpl; lia.
  - refine (proj1 (import_needs_name_columns odd_names eq_refl _)).
    intros raw [<-|[<-|[<-|[]]]]; simpl; lia.
Defined.

(* ================================================================== *)
(** * Repeated calls *)
(* ================================================================== *)

Lemma is_peak_unique (l : list row) (p p' : string) : is_peak l p -> is_peak l p' -> p = p'.
Proof.
  unfold is_peak. destruct l as [|x l]; [congruence|].
  intros (i & m & A & N) (i' & m' & A' & N').
  rewrite A in A'. inversion A'; subst. rewrite N in N'. now inversion N'.
Qed.

Lemma is_off_peak_unique (l : list row) (p p' : string) :
  is_off_peak l p -> is_off_peak l p' -> p = p'.
Proof.
  unfold is_off_peak. destruct l as [|x l]; [congruence|].
  intros (i & m & A & N) (i' & m' & A' & N').
  rewrite A in A'. inversion A'; subst. rewrite N in N'. now inversion N'.
Qed.

Lemma update_dashboard_store_free (sd sc sr : Pandas.selection) (D : DataFrame) (h1 h2 : heap) :
  nth_error h1 df = Some (OTxn D) -> nth_error h2 df = Some (OTxn D) ->
  has_columns dashboard_columns D = true ->
  result (update_dashboard sd sc sr) h1 = result (update_dashboard sd sc sr) h2.
Proof.
  intros H1 H2 Hc.
  destruct (runs_update_dashboard sd sc sr D h1 H1 Hc) as (p & q & h1' & R1 & P1 & O1).
  destruct (runs_update_dashboard sd sc sr D h2 H2 Hc) as (p' & q' & h2' & R2 & P2 & O2).
  rewrite (runs_result _ _ _ _ R1), (runs_result _ _ _ _ R2).
  now rewrite (is_peak_unique _ _ _ P1 P2), (is_off_peak_unique _ _ _ O1 O2).
Qed.

(** X14.  For a dataset with the columns the callbacks read, what a
    callback returns depends on the base dataset and its arguments only,
    not on what else the store holds: two stores with the same [df] give the
    same outputs.  So a callback called again with the same arguments, after
    any of the three has run, returns what it returned the first time. *)
Theorem callbacks_are_repeatable :
  forall (sd sc sr : Pandas.selection) (start_hour end_hour : Z) (D : DataFrame)
         (h1 h2 : heap),
    nth_error h1 df = Some (OTxn D) -> nth_error h2 df = Some (OTxn D) ->
    has_columns callback_columns D = true ->
    (result (set_route_options sd sc) h1 = result (set_route_options sd sc) h2
     /\ result (update_dashboard sd sc sr) h1 = result (update_dashboard sd sc sr) h2
     /\ result (update_area_chart sd sc sr [start_hour; end_hour]) h1
        = result (update_area_chart sd sc sr [start_hour; end_hour]) h2)
    /\ (forall sd' sc' sr' time_range,
           result (update_dashboard sd sc sr)
                  (final (set_route_options sd' sc') h1)
           = result (update_dashboard sd sc sr) h1
           /\ result (update_dashboard sd sc sr)
                     (final (update_dashboard sd' sc' sr') h1)
              = result (update_dashboard sd sc sr) h1
           /\ result (update_dashboard sd sc sr)
                     (final (update_area_chart sd' sc' sr' time_range) h1)
              = result (update_dashboard sd sc sr) h1).
Proof.
  intros sd sc sr s e D h1 h2 H1 H2 Hc.
  assert (Hcol : forall n, In n callback_columns -> has_column n D = true)
    by (intros n; now apply has_columns_In).
  assert (Hd : has_columns dashboard_columns D = true).
  { unfold has_columns. apply forallb_forall. intros n Hn. apply Hcol.
    simpl in Hn |- *. tauto. }
  split; [split; [|split]|].
  - destruct (runs_set_route_options sd sc D h1 H1) as (h1' & R1);
      try (apply Hcol; simpl; tauto).
    destruct (runs_set_route_options sd sc D h2 H2) as (h2' & R2);
      try (apply Hcol; simpl; tauto).
    now rewrite (runs_result _ _ _ _ R1), (runs_result _ _ _ _ R2).
  - now apply (update_dashboard_store_free sd sc sr D).
  - destruct (runs_update_area_chart sd sc sr s e D h1 H1) as (h1' & R1);
      try (apply Hcol; simpl; tauto).
    destruct (runs_update_area_chart sd sc sr s e D h2 H2) as (h2' & R2);
      try (apply Hcol; simpl; tauto).
    now rewrite (runs_result _ _ _ _ R1), (runs_result _ _ _ _ R2).
  - intros sd' sc' sr' tr.
    pose proof (proj1 (keeps_set_route_options h1 sd' sc' h1 (extends_refl h1))) as E1.
    pose proof (proj1 (keeps_update_dashboard h1 sd' sc' sr' h1 (extends_refl h1))) as E2.
    pose proof (proj1 (keeps_update_area_chart h1 sd' sc' sr' tr h1 (extends_refl h1))) as E3.
    repeat split; apply (update_dashboard_store_free sd sc sr D); trivial;
      eapply extends_lookup; eassumption.
Qed.

Lemma callbacks_are_repeatable_witness :
  result (update_dashboard None None None)
         (final (update_dashboard (Some [Some "X"]) None None) (boot (Some three_tickets)))
  = result (update_dashboard None None None) (boot (Some three_tickets)).
Proof.
  destruct (callbacks_are_repeatable None None None 6 18 (loaded three_tickets)
              (boot (Some three_tickets)) (boot (Some three_tickets))
              eq_refl eq_refl eq_refl) as (_ & R).
  exact (proj1 (proj2 (R (Some [Some "X"]) None None [6; 18]))).
Defined.

(* ================================================================== *)
(** * Options are trimmed *)
(* ================================================================== *)

Lemma lstrip_head_bounded (n : nat) :
  forall s, (String.length s <= n)%nat -> Py.space_head (Py.lstrip s) = false.
Proof.
  induction n as [|n IH]; intros s Hn.
  - destruct s; [reflexivity | simpl in Hn; lia].
  - destruct s as [|a t]; [reflexivity|]. simpl in Hn.
    cbn [Py.lstrip]. destruct (Py.space1 a) eqn:E1; [apply IH; lia|].
    destruct t as [|b u]; [cbn; now rewrite E1|]. simpl in Hn.
    destruct (Py.space2 a b) eqn:E2; [apply IH; lia|].
    destruct u as [|c v]; [cbn; now rewrite E1, E2|]. simpl in Hn.
    destruct (Py.space3 a b c) eqn:E3; [apply IH; lia|].
    cbn. now rewrite E1, E2, E3.
Qed.

(** What [lstrip] leaves does not begin with whitespace. *)
Lemma lstrip_head (s : string) : Py.space_head (Py.lstrip s) = false.
Proof. apply (lstrip_head_bounded (String.length s)). lia. Qed.

Lemma lstrip_fixed (s : string) : Py.space_head s = false -> Py.lstrip s = s.
Proof.
  destruct s as [|a t]; [reflexivity|]. cbn [Py.space_head Py.lstrip].
  destruct (Py.space1 a); [discriminate|].
  destruct t as [|b u]; [reflexivity|].
  destruct (Py.space2 a b); [discriminate|].
  destruct u as [|c v]; [reflexivity|].
  destruct (Py.space3 a b c); [discriminate | reflexivity].
Qed.

Lemma rstrip_cons (a : ascii) (t : string) :
  Py.rstrip (String a t)
  = if Py.blank (String a t) then EmptyString else String a (Py.rstrip t).
Proof. reflexivity. Qed.

(** [rstrip] does not uncover whitespace at the front. *)
Lemma rstrip_head (s : string) :
  Py.space_head s = false -> Py.space_head (Py.rstrip s) = false.
Proof.
  destruct s as [|a t]; [reflexivity|]. intro H.
  rewrite rstrip_cons. destruct (Py.blank (String a t)); [reflexivity|].
  cbn [Py.space_head] in H |- *.
  destruct (Py.space1 a); [discriminate|]. cbn [orb] in H |- *.
  destruct t as [|b u]; [reflexivity|].
  rewrite rstrip_cons. destruct (Py.blank (String b u)); [reflexivity|].
  destruct (Py.space2 a b); [discriminate|]. cbn [orb] in H |- *.
  destruct u as [|c v]; [reflexivity|].
  rewrite rstrip_cons. destruct (Py.blank (String c v)); [reflexivity | exact H].
Qed.

Lemma blank_app_bounded (n : nat) :
  forall x w, (String.length x <= n)%nat ->
              Py.blank x = true -> Py.blank w = true -> Py.blank (x ++ w) = true.
Proof.
  induction n as [|n IH]; intros x w Hn Hx Hw.
  - destruct x; [exact Hw | simpl in Hn; lia].
  - destruct x as [|a t]; [exact Hw|]. simpl in Hn.
    cbn [String.append Py.blank] in Hx |- *.
    destruct (Py.space1 a); [apply IH; [lia | exact Hx | exact Hw]|].
    destruct t as [|b u]; [discriminate|]. simpl in Hn.
    cbn [String.append] in *.
    destruct (Py.space2 a b); [apply IH; [lia | exact Hx | exact Hw]|].
    destruct u as [|c v]; [discriminate|]. simpl in Hn.
    cbn [String.append] in *.
    apply andb_true_iff in Hx. destruct Hx as [H3 Hv]. rewrite H3. cbn [andb].
    apply IH; [lia | exact Hv | exact Hw].
Qed.

Lemma blank_app (x w : string) :
  Py.blank x = true -> Py.blank w = true -> Py.blank (x ++ w) = true.
Proof. apply (blank_app_bounded (String.length x)). lia. Qed.

(** What [rstrip] cuts off is whitespace. *)
Lemma rstrip_split (s : string) :
  exists w, s = Py.rstrip s ++ w /\ Py.blank w = true.
Proof.
  induction s as [|a t IH]; [now exists EmptyString|].
  rewrite rstrip_cons. destruct (Py.blank (String a t)) eqn:E.
  - now exists (String a t).
  - destruct IH as (w & Ew & Hw). exists w. split; [|exact Hw].
    cbn [String.append]. now rewrite <- Ew.
Qed.

Lemma rstrip_idempotent (s : string) : Py.rstrip (Py.rstrip s) = Py.rstrip s.
Proof.
  induction s as [|a t IH]; [reflexivity|].
  rewrite rstrip_cons. destruct (Py.blank (String a t)) eqn:E; [reflexivity|].
  rewrite rstrip_cons, IH.
  destruct (Py.blank (String a (Py.rstrip t))) eqn:F; [|reflexivity].
  exfalso. destruct (rstrip_split t) as (w & Ew & Hw).
  assert (B : Py.blank (String a (Py.rstrip t) ++ w) = true) by now apply blank_app.
  cbn [String.append] in B. rewrite <- Ew in B. congruence.
Qed.

(** What [rstrip] leaves does not end in whitespace. *)
Lemma rstrip_tail (s : string) :
  forall x w, Py.rstrip s = x ++ w -> Py.blank w = true -> w = EmptyString.
Proof.
  induction s as [|a t IH]; intros x w E Hw.
  - destruct x; [symmetry; exact E | discriminate].
  - rewrite rstrip_cons in E. destruct (Py.blank (String a t)) eqn:B.
    + destruct x; [symmetry; exact E | discriminate].
    + destruct x as [|a' x'].
      * cbn [String.append] in E. exfalso.
        destruct (rstrip_split t) as (tl & Et & Ht).
        assert (F : Py.blank (w ++ tl) = true) by now apply blank_app.
        rewrite <- E in F. cbn [String.append] in F. rewrite <- Et in F. congruence.
      * cbn [String.append] in E. inversion E; subst. now apply (IH x').
Qed.

Lemma strip_idempotent (s : string) : Py.strip (Py.strip s) = Py.strip s.
Proof.
  unfold Py.strip.
  rewrite (lstrip_fixed (Py.rstrip (Py.lstrip s))).
  - apply rstrip_idempotent.
  - apply rstrip_head, lstrip_head.
Qed.

(** X15.  Every option the program offers is trimmed: for a dataset with
    the three name columns, each route option returned by
    [set_route_options] and each entry of the city and depot lists has a
    value that [strip] leaves unchanged, that does not begin with a
    whitespace character and that does not end in whitespace, whitespace
    being what Python's [strip] removes, the no-break space and the other
    Unicode blanks included; and its label is its value. *)
Theorem options_are_trimmed :
  forall (sd sc : Pandas.selection) (D : DataFrame) (h : heap),
    nth_error h df = Some (OTxn D) ->
    has_columns route_columns D = true ->
    exists routes cities depots,
      result (set_route_options sd sc) h = Ok (routes, [])
      /\ result city_options h = Ok cities
      /\ result depot_options h = Ok depots
      /\ forall e, In e (routes ++ cities ++ depots)%list ->
                   Py.strip (value e) = value e
                   /\ Py.space_head (value e) = false
                   /\ (forall x w, value e = x ++ w -> Py.blank w = true -> w = EmptyString)
                   /\ label e = value e.
Proof.
  intros sd sc D h H Hc.
  assert (Hcol : forall n, In n route_columns -> has_column n D = true)
    by (intros n; now apply has_columns_In).
  destruct (runs_set_route_options sd sc D h H) as (h' & R);
    try (apply Hcol; simpl; tauto).
  exists (map (fun i => mkEntry i i) (route_names (depot_city_rows sd sc (rows D)))),
    (clean_options (map CITY_NAME (rows D))), (clean_options (map DEPOT_NAME (rows D))).
  split; [|split; [|split]].
  - rewrite (runs_result _ _ _ _ R). now destruct (depot_city_rows sd sc (rows D)).
  - apply (runs_result _ _ _ h). unfold city_options.
    run_with ltac:(apply runs_getitem; [exact H | apply Hcol; simpl; tauto]). apply runs_ret.
  - apply (runs_result _ _ _ h). unfold depot_options.
    run_with ltac:(apply runs_getitem; [exact H | apply Hcol; simpl; tauto]). apply runs_ret.
  - intros e He. rewrite !in_app_iff in He. destruct He as [He|[He|He]].
    + apply in_map_iff in He. destruct He as (n & <- & Hn).
      apply route_names_In in Hn. destruct Hn as (r & _ & _ & ->).
      cbn [value label]. split; [apply strip_idempotent|].
      split; [apply rstrip_head, lstrip_head|].
      split; [apply rstrip_tail | reflexivity].
    + apply clean_options_In in He. destruct He as (s & _ & _ & ->).
      cbn [value label]. split; [apply strip_idempotent|].
      split; [apply rstrip_head, lstrip_head|].
      split; [apply rstrip_tail | reflexivity].
    + apply clean_options_In in He. destruct He as (s & _ & _ & ->).
      cbn [value label]. split; [apply strip_idempotent|].
      split; [apply rstrip_head, lstrip_head|].
      split; [apply rstrip_tail | reflexivity].
Qed.

Lemma options_are_trimmed_witness :
  exists routes cities depots,
    result (set_route_options None None) (boot (Some nbsp_names)) = Ok (routes, [])
    /\ result city_options (boot (Some nbsp_names)) = Ok cities
    /\ result depot_options (boot (Some nbsp_names)) = Ok depots
    /\ map value routes = [""; "R"]
    /\ map value depots = ["Y"].
Proof.
  destruct (options_are_trimmed None None (loaded nbsp_names) (boot (Some nbsp_names))
              eq_refl eq_refl)
    as (routes & cities & depots & R & C & P & _).
  exists routes, cities, depots. split; [exact R|]. split; [exact C|]. split; [exact P|].
  vm_compute in R, P. inversion R. inversion P. split; reflexivity.
Defined.

(* ================================================================== *)
(** * Eight bands a day *)
(* ================================================================== *)

Lemma boot_loaded (table : DataFrame) :
  has_column "TICKET_TIME_STAMP" table = true ->
  boot (Some table) = [OTxn (loaded table)]
  /\ rows (loaded table) = map derive (rows table).
Proof.
  intro Hts. pose proof (runs_load table Hts) as R.
  unfold loaded, boot, final. rewrite R. split; reflexivity.
Qed.

Lemma loaded_rows_fall_in_eight_bands_aux (table : DataFrame) :
  has_column "TICKET_TIME_STAMP" table = true ->
  (forall raw, In raw (rows table) -> 0 <= ts_hour (TICKET_TIME_STAMP raw) < 24) ->
  (forall r, In r (rows (loaded table)) ->
             0 <= Hour r < 24 /\ In (Time_Interval r) day_bands)
  /\ (forall r, In r (rows (loaded table)) -> In (Time_Interval_Label r) day_labels).
Proof.
  intros Hts Hh.
  assert (A : forall r, In r (rows (loaded table)) ->
                (0 <= Hour r < 24 /\ In (Time_Interval r) day_bands)
                /\ In (Time_Interval_Label r) day_labels).
  { intros r Hr. rewrite (proj2 (boot_loaded table Hts)) in Hr.
    apply in_map_iff in Hr. destruct Hr as (raw & <- & Hraw).
    specialize (Hh raw Hraw). unfold derive.
    cbn [set_Hour set_Time_Interval set_Time_Interval_Label
         Hour Time_Interval Time_Interval_Label TICKET_TIME_STAMP].
    split; [split; [exact Hh | now apply band_of_hour]|].
    unfold day_labels. apply in_map. now apply band_of_hour. }
  split; intros r Hr; now destruct (A r Hr).
Qed.

(** X16.  When the file has a time stamp column and every time stamp has an
    hour from 0 to 23, every row of the base dataset falls in one of eight
    bands, 0, 3, ..., 21, and carries one of the eight labels "00-03 hrs" to
    "21-24 hrs": the last band ends at 24, it does not wrap around. *)
Theorem loaded_rows_fall_in_eight_bands :
  forall table : DataFrame,
    has_column "TICKET_TIME_STAMP" table = true ->
    (forall raw, In raw (rows table) -> 0 <= ts_hour (TICKET_TIME_STAMP raw) < 24) ->
    day_labels = ["00-03 hrs"; "03-06 hrs"; "06-09 hrs"; "09-12 hrs";
                  "12-15 hrs"; "15-18 hrs"; "18-21 hrs"; "21-24 hrs"]
    /\ forall r, In r (rows (loaded table)) ->
                 0 <= Hour r < 24
                 /\ In (Time_Interval r) day_bands
                 /\ In (Time_Interval_Label r) day_labels.
Proof.
  intros table Hts Hh. split; [reflexivity|].
  destruct (loaded_rows_fall_in_eight_bands_aux table Hts Hh) as [A B].
  intros r Hr. destruct (A r Hr) as [Hhour Hband].
  split; [exact Hhour|]. split; [exact Hband | now apply B].
Qed.

Lemma loaded_rows_fall_in_eight_bands_witness :
  Forall (fun r => In (Time_Interval_Label r) day_labels) (rows (loaded three_tickets)).
Proof.
  apply Forall_forall. intros r Hr.
  apply (loaded_rows_fall_in_eight_bands three_tickets eq_refl); [|exact Hr].
  intros raw [<-|[<-|[<-|[]]]]; simpl; lia.
Defined.

(** X17.  On a dataset loaded from a file whose time stamps have hours from
    0 to 23, the time-band chart never has more than eight bars, and every
    bar carries one of the eight band labels. *)
Theorem at_most_eight_bars :
  forall (sd sc sr : Pandas.selection) (table : DataFrame),
    has_column "TICKET_TIME_STAMP" table = true ->
    has_columns dashboard_columns (loaded table) = true ->
    (forall raw, In raw (rows table) -> 0 <= ts_hour (TICKET_TIME_STAMP raw) < 24) ->
    exists cards title bars pie chart,
      result (update_dashboard sd sc sr) (boot (Some table))
      = Ok (cards, Bar title bars, pie, chart)
      /\ (List.length bars <= 8)%nat
      /\ forall b, In b bars -> In (fst b) day_labels.
Proof.
  intros sd sc sr table Hts Hc Hh.
  destruct (boot_loaded table Hts) as [B E].
  assert (H : nth_error (boot (Some table)) df = Some (OTxn (loaded table)))
    by now rewrite B.
  destruct (runs_update_dashboard sd sc sr (loaded table) _ H Hc) as (p & q & h' & R & _).
  set (selected := selected_rows sd sc sr (rows (loaded table))) in *.
  assert (Hin : forall b, In b (label_sums selected) -> In (fst b) day_labels).
  { intros [band t] Hb. apply label_sums_In in Hb. destruct Hb as ((r & Hr & <-) & _).
    apply selected_rows_In in Hr. destruct Hr as [Hr _].
    now apply (proj2 (loaded_rows_fall_in_eight_bands_aux table Hts Hh)). }
  do 5 eexists. split; [eapply runs_result; exact R|]. split; [|exact Hin].
  rewrite <- (length_map fst).
  change 8%nat with (List.length day_labels).
  apply NoDup_incl_length.
  - apply (grouped_nodup String.eqb String.leb Time_Interval_Label String.eqb_eq).
  - intros band Hb. apply in_map_iff in Hb. destruct Hb as (b & <- & Hb). now apply Hin.
Qed.

Lemma at_most_eight_bars_witness :
  exists cards title bars pie chart,
    result (update_dashboard None None None) (boot (Some three_tickets))
    = Ok (cards, Bar title bars, pie, chart)
    /\ (List.length bars <= 8)%nat.
Proof.
  destruct (at_most_eight_bars None None None three_tickets eq_refl eq_refl)
    as (cards & title & bars & pie & chart & R & L & _).
  - intros raw [<-|[<-|[<-|[]]]]; simpl; lia.
  - exists cards, title, bars, pie, chart. now split.
Defined.
